(** * ai-convo: message ledger, persona registry, analytics and turn scheduler

    A shallow embedding of [src/conversation/history.ts],
    [src/conversation/personas.ts], [src/conversation/analytics.ts] and
    [src/conversation/manager.ts], of the request builder of
    [src/ai/client.ts] and of the text wrapping and hashing of
    [src/utils/formatter.ts], followed by the properties proved of them.

    Conventions of the embedding:
    - a JS string is a [string] whose characters are code units in the
      Latin-1 range (0..255); [toLowerCase], [trim] and the regular
      expressions are given on that range;
    - integer-valued JS numbers are [Z] (counts that only grow from 0 are
      [nat]); instants are milliseconds in [Z];
    - [new Date()] and [randomUUID()] read from an environment, indexed by a
      logical tick that every such read advances;
    - [throw] is a result in a sum type, [try]/[catch] a match on it;
    - a [while] loop takes fuel and says so when it runs out;
    - an object used for counting is the table of its own keys; the
      statements about one leave aside the keys that name a property every
      object inherits ([constructor], [toString], ...), which such an
      object reads as present before it counts them. *)

From Stdlib Require Import List String Ascii ZArith QArith Lia Bool Arith.
From Stdlib Require Import Permutation Sorted DecimalString.
Import ListNotations.

Set Warnings "-register-all".

Local Open Scope string_scope.
Local Open Scope list_scope.
Local Open Scope Z_scope.

(* ===================================================================== *)
(** * Platform functions used by the sources *)
(* ===================================================================== *)

Module JS.

(** Code units with an upper-case form in Latin-1: A-Z and the accented
    capitals 0xC0-0xDE except the multiplication sign 0xD7. *)
Definition isUpper (c : ascii) : bool :=
  let n := nat_of_ascii c in
  ((65 <=? n) && (n <=? 90))%nat
  || ((192 <=? n) && (n <=? 222) && negb (n =? 215))%nat.

Definition lowerChar (c : ascii) : ascii :=
  if isUpper c then ascii_of_nat (nat_of_ascii c + 32) else c.

(** [String.prototype.toLowerCase]. *)
Fixpoint toLowerCase (s : string) : string :=
  match s with
  | EmptyString => EmptyString
  | String c s' => String (lowerChar c) (toLowerCase s')
  end.

(** [String.prototype.startsWith]. *)
Fixpoint startsWith (s q : string) : bool :=
  match q, s with
  | EmptyString, _ => true
  | String a q', String b s' => Ascii.eqb a b && startsWith s' q'
  | String _ _, EmptyString => false
  end.

(** [String.prototype.includes]: some position of [s] starts with [q]. *)
Fixpoint includes (s q : string) : bool :=
  startsWith s q
  || match s with
     | EmptyString => false
     | String _ s' => includes s' q
     end.

(** White space of [trim] and of the regular expression class [\s]:
    TAB, LF, VT, FF, CR, SPACE and NBSP. *)
Definition isWhiteSpace (c : ascii) : bool :=
  let n := nat_of_ascii c in
  ((9 <=? n) && (n <=? 13) || (n =? 32) || (n =? 160))%nat.

Fixpoint trimStart (s : string) : string :=
  match s with
  | EmptyString => EmptyString
  | String c s' => if isWhiteSpace c then trimStart s' else s
  end.

Fixpoint trimEnd (s : string) : string :=
  match s with
  | EmptyString => EmptyString
  | String c s' =>
      match trimEnd s' with
      | EmptyString => if isWhiteSpace c then EmptyString else String c EmptyString
      | t => String c t
      end
  end.

(** [String.prototype.trim]. *)
Definition trim (s : string) : string := trimEnd (trimStart s).

(** [Array.prototype.join]. *)
Definition join (sep : string) (l : list string) : string := String.concat sep l.

(** [Array.prototype.slice(start)] for an integer [start]: a negative
    start counts from the end. *)
Definition slice {A : Type} (start : Z) (l : list A) : list A :=
  let len := Z.of_nat (List.length l) in
  let k := if start <? 0 then Z.max (len + start) 0 else Z.min start len in
  skipn (Z.to_nat k) l.

(** [Array.prototype.slice(0, n)] for a natural [n]. *)
Definition sliceTo {A : Type} (n : nat) (l : list A) : list A := firstn n l.

(** [Array.prototype.splice(0, deleteCount)]: the removed elements and
    what is left of the array. *)
Definition splice0 {A : Type} (deleteCount : Z) (l : list A) : list A * list A :=
  let len := Z.of_nat (List.length l) in
  let k := Z.to_nat (Z.min (Z.max deleteCount 0) len) in
  (firstn k l, skipn k l).

(** Template-literal rendering of an integer. *)
Definition numberToString (z : Z) : string := NilZero.string_of_int (Z.to_int z).

(** Truthiness of a string: the empty string is falsy. *)
Definition truthyString (s : string) : bool :=
  match s with EmptyString => false | _ => true end.

(** Truthiness of an integer-valued number: zero is falsy. *)
Definition truthyNumber (z : Z) : bool := negb (z =? 0).

(** [Array.prototype.slice(start, end)] for integers [start] and [end]:
    a negative bound counts from the end, and both are clamped to the
    array. *)
Definition sliceRange {A : Type} (start stop : Z) (l : list A) : list A :=
  let len := Z.of_nat (List.length l) in
  let k := if start <? 0 then Z.max (len + start) 0 else Z.min start len in
  let e := if stop <? 0 then Z.max (len + stop) 0 else Z.min stop len in
  firstn (Z.to_nat (e - k)) (skipn (Z.to_nat k) l).

(** [String.prototype.split(sep)] for a separator of one character: the
    pieces between its occurrences, empty pieces included.  [cur] is the
    piece being read, last character first. *)
Fixpoint splitOnGo (sep : ascii) (s : string) (cur : list ascii) : list string :=
  match s with
  | EmptyString => [string_of_list_ascii (rev cur)]
  | String c s' =>
      if Ascii.eqb c sep
      then string_of_list_ascii (rev cur) :: splitOnGo sep s' []
      else splitOnGo sep s' (c :: cur)
  end.

Definition splitOn (sep : ascii) (s : string) : list string := splitOnGo sep s [].

(** [ToInt32]: the integer of the same residue modulo 2^32 in the range
    from -2^31 to 2^31 - 1. *)
Definition toInt32 (z : Z) : Z := (z + 2147483648) mod 4294967296 - 2147483648.

End JS.

(* ===================================================================== *)
(** * The message ledger: [src/conversation/history.ts] *)
(* ===================================================================== *)

Module History.

(** A value of the open-ended metadata bag. *)
Inductive MetaValue : Type :=
| MetaNumber (n : Z)
| MetaString (s : string).

Definition Metadata : Type := list (string * MetaValue).

Record ConversationMessage : Type := mkMessage {
  id : string;
  personaName : string;
  content : string;
  timestamp : Z;
  metadata : option Metadata
}.

Record ConversationHistory : Type := mkHistory {
  messages : list ConversationMessage;
  startTime : Z;
  endTime : option Z;
  totalMessages : nat;
  topic : option string
}.

(** [class ConversationHistoryManager]. *)
Record ConversationHistoryManager : Type := mkManager {
  history : ConversationHistory;
  maxMessages : Z;
  maxContextWindow : Z
}.

Definition default_maxMessages : Z := 1000.
Definition default_maxContextWindow : Z := 20.

(** [constructor(topic?, maxMessages = 1000, maxContextWindow = 20)];
    [now] is the value of [new Date()].  A falsy topic (absent or empty)
    is not stored. *)
Definition constructor (now : Z) (topic0 : option string)
    (maxMessages0 maxContextWindow0 : Z) : ConversationHistoryManager :=
  {| history :=
       {| messages := [];
          startTime := now;
          endTime := None;
          totalMessages := 0%nat;
          topic := match topic0 with
                   | Some t => if JS.truthyString t then Some t else None
                   | None => None
                   end |};
     maxMessages := maxMessages0;
     maxContextWindow := maxContextWindow0 |}.

Definition with_history (hm : ConversationHistoryManager)
    (h : ConversationHistory) : ConversationHistoryManager :=
  {| history := h;
     maxMessages := maxMessages hm;
     maxContextWindow := maxContextWindow hm |}.

(** [addMessage(personaName, content, metadata?)]; [uuid] is the value of
    [randomUUID()] and [now] that of [new Date()].  Returns the message
    and the ledger after the push, the count and the trim. *)
Definition addMessage (uuid : string) (now : Z) (name text : string)
    (meta : option Metadata) (hm : ConversationHistoryManager)
    : ConversationMessage * ConversationHistoryManager :=
  let message :=
    {| id := uuid; personaName := name; content := text;
       timestamp := now; metadata := meta |} in
  let h := history hm in
  let pushed := messages h ++ [message] in
  let total := S (totalMessages h) in
  let kept :=
    if Z.of_nat (List.length pushed) >? maxMessages hm
    then snd (JS.splice0 (Z.of_nat (List.length pushed) - maxMessages hm) pushed)
    else pushed in
  (message,
   with_history hm
     {| messages := kept; startTime := startTime h; endTime := endTime h;
        totalMessages := total; topic := topic h |}).

(** [getMessages()]: a copy of the retained messages. *)
Definition getMessages (hm : ConversationHistoryManager) : list ConversationMessage :=
  messages (history hm).

(** [getLastMessage()]. *)
Definition getLastMessage (hm : ConversationHistoryManager) : option ConversationMessage :=
  last (map Some (messages (history hm))) None.

(** [getLastMessages(count)]. *)
Definition getLastMessages (count : Z) (hm : ConversationHistoryManager)
    : list ConversationMessage :=
  let msgs := messages (history hm) in
  let start := Z.max 0 (Z.of_nat (List.length msgs) - count) in
  JS.slice start msgs.

(** [getMessagesByPersona(personaName)]. *)
Definition getMessagesByPersona (name : string) (hm : ConversationHistoryManager)
    : list ConversationMessage :=
  filter (fun msg => String.eqb (personaName msg) name) (messages (history hm)).

Definition renderMessage (msg : ConversationMessage) : string :=
  (personaName msg ++ ": " ++ content msg)%string.

(** [getContextWindow()]. *)
Definition getContextWindow (hm : ConversationHistoryManager) : list string :=
  map renderMessage (getLastMessages (maxContextWindow hm) hm).

(** [getConversationHistory()]: the record with a copy of the messages. *)
Definition getConversationHistory (hm : ConversationHistoryManager)
    : ConversationHistory := history hm.

(** [getTotalMessages()]. *)
Definition getTotalMessages (hm : ConversationHistoryManager) : nat :=
  totalMessages (history hm).

(** [getDuration()]; [now] is read only when no end time is stored. *)
Definition getDuration (now : Z) (hm : ConversationHistoryManager) : Z :=
  match endTime (history hm) with
  | Some e => e - startTime (history hm)
  | None => now - startTime (history hm)
  end.

(** [tbl[k] = (tbl[k] || 0) + 1] on a table kept in insertion order. *)
Fixpoint bump (k : string) (tbl : list (string * nat)) : list (string * nat) :=
  match tbl with
  | [] => [(k, 1%nat)]
  | (k', n) :: rest =>
      if String.eqb k' k then (k', S n) :: rest else (k', n) :: bump k rest
  end.

Record MessageStats : Type := mkStats {
  stats_totalMessages : nat;
  messagesByPersona : list (string * nat);
  averageMessageLength : Q;
  conversationDuration : Z
}.

(** [getMessageStats()]; the average is the exact quotient. *)
Definition getMessageStats (now : Z) (hm : ConversationHistoryManager) : MessageStats :=
  let msgs := messages (history hm) in
  let byPersona := fold_left (fun tbl m => bump (personaName m) tbl) msgs [] in
  let totalLength := fold_left (fun n m => (n + String.length (content m))%nat) msgs 0%nat in
  {| stats_totalMessages := totalMessages (history hm);
     messagesByPersona := byPersona;
     averageMessageLength :=
       match List.length msgs with
       | O => 0%Q
       | S _ => Qmake (Z.of_nat totalLength) (Pos.of_nat (List.length msgs))
       end;
     conversationDuration := getDuration now hm |}.

(** [searchMessages(query, caseSensitive = false)]. *)
Definition searchMessages (query : string) (caseSensitive : bool)
    (hm : ConversationHistoryManager) : list ConversationMessage :=
  let searchTerm := if caseSensitive then query else JS.toLowerCase query in
  filter
    (fun message =>
       let content' :=
         if caseSensitive then content message
         else JS.toLowerCase (content message) in
       let personaName' :=
         if caseSensitive then personaName message
         else JS.toLowerCase (personaName message) in
       JS.includes content' searchTerm || JS.includes personaName' searchTerm)
    (messages (history hm)).

(** [endConversation()]. *)
Definition endConversation (now : Z) (hm : ConversationHistoryManager)
    : ConversationHistoryManager :=
  let h := history hm in
  with_history hm
    {| messages := messages h; startTime := startTime h; endTime := Some now;
       totalMessages := totalMessages h; topic := topic h |}.

(** [clear()]. *)
Definition clear (now : Z) (hm : ConversationHistoryManager)
    : ConversationHistoryManager :=
  let h := history hm in
  with_history hm
    {| messages := []; startTime := now; endTime := None;
       totalMessages := 0%nat; topic := topic h |}.

(** [setTopic(topic)]. *)
Definition setTopic (t : string) (hm : ConversationHistoryManager)
    : ConversationHistoryManager :=
  let h := history hm in
  with_history hm
    {| messages := messages h; startTime := startTime h; endTime := endTime h;
       totalMessages := totalMessages h; topic := Some t |}.

(** One append request: the identifier and instant the platform hands
    out for it, and the caller's arguments. *)
Record Append : Type := mkAppend {
  ap_uuid : string;
  ap_now : Z;
  ap_name : string;
  ap_text : string;
  ap_meta : option Metadata
}.

(** The message [addMessage] creates for an append request. *)
Definition messageOf (a : Append) : ConversationMessage :=
  {| id := ap_uuid a; personaName := ap_name a; content := ap_text a;
     timestamp := ap_now a; metadata := ap_meta a |}.

Definition addMessage' (hm : ConversationHistoryManager) (a : Append)
    : ConversationHistoryManager :=
  snd (addMessage (ap_uuid a) (ap_now a) (ap_name a) (ap_text a) (ap_meta a) hm).

(** A sequence of calls to [addMessage], first to last. *)
Definition addMessages (hm : ConversationHistoryManager) (l : list Append)
    : ConversationHistoryManager :=
  fold_left addMessage' l hm.

(** [formatDuration(ms)]: [Math.floor] is the quotient rounded down, [%] the
    remainder with the sign of the dividend. *)
Definition formatDuration (ms : Z) : string :=
  let seconds := ms / 1000 in
  let minutes := seconds / 60 in
  let hours := minutes / 60 in
  if hours >? 0
  then (JS.numberToString hours ++ "h " ++ JS.numberToString (Z.rem minutes 60) ++ "m "
        ++ JS.numberToString (Z.rem seconds 60) ++ "s")%string
  else if minutes >? 0
  then (JS.numberToString minutes ++ "m " ++ JS.numberToString (Z.rem seconds 60)
        ++ "s")%string
  else (JS.numberToString seconds ++ "s")%string.

End History.


(* ===================================================================== *)
(** * The persona registry: [src/conversation/personas.ts] *)
(* ===================================================================== *)

Module Personas.

Record PersonaConfig : Type := mkPersona {
  name : string;
  personality : string;
  speakingStyle : string;
  interests : list string;
  systemPrompt : option string
}.

Definition alice : PersonaConfig :=
  {| name := "Alice";
     personality :=
       "Curious and analytical philosopher who loves exploring deep questions about consciousness, reality, and the nature of existence.";
     speakingStyle :=
       "Thoughtful and contemplative, often poses follow-up questions and builds on ideas progressively.";
     interests :=
       ["philosophy"; "consciousness"; "reality"; "ethics"; "metaphysics"; "cognitive science"];
     systemPrompt := Some
"You are Alice, a curious and analytical philosopher. You love exploring deep questions about consciousness, reality, and the nature of existence. 

Your speaking style is thoughtful and contemplative. You often pose follow-up questions and build on ideas progressively. You're particularly interested in philosophy, consciousness, reality, ethics, metaphysics, and cognitive science.

When engaging in conversation:
- Ask thought-provoking questions
- Build upon previous points made
- Share philosophical insights
- Challenge assumptions respectfully
- Use analogies and examples to clarify complex ideas
- Keep responses engaging but not overly long (2-4 sentences typically)

Stay in character as Alice throughout the conversation." |}.

Definition bob : PersonaConfig :=
  {| name := "Bob";
     personality :=
       "Practical and creative problem-solver who enjoys discussing technology, innovation, and how ideas can be applied to solve real-world challenges.";
     speakingStyle :=
       "Enthusiastic and solution-oriented, often relates abstract concepts to concrete applications and examples.";
     interests :=
       ["technology"; "innovation"; "problem-solving"; "engineering"; "startups"; "artificial intelligence"];
     systemPrompt := Some
"You are Bob, a practical and creative problem-solver. You enjoy discussing technology, innovation, and how ideas can be applied to solve real-world challenges.

Your speaking style is enthusiastic and solution-oriented. You often relate abstract concepts to concrete applications and examples. You're particularly interested in technology, innovation, problem-solving, engineering, startups, and artificial intelligence.

When engaging in conversation:
- Connect abstract ideas to practical applications
- Share examples from technology and innovation
- Propose creative solutions
- Show enthusiasm for new possibilities
- Ground philosophical discussions in real-world context
- Keep responses engaging and conversational (2-4 sentences typically)

Stay in character as Bob throughout the conversation." |}.

Definition charlie : PersonaConfig :=
  {| name := "Charlie";
     personality :=
       "Empathetic storyteller who finds meaning through narratives, emotions, and human connections.";
     speakingStyle :=
       "Warm and narrative-driven, often shares stories and personal reflections to illustrate points.";
     interests :=
       ["storytelling"; "psychology"; "human behavior"; "emotions"; "literature"; "art"];
     systemPrompt := Some
"You are Charlie, an empathetic storyteller who finds meaning through narratives, emotions, and human connections.

Your speaking style is warm and narrative-driven. You often share stories and personal reflections to illustrate points. You're particularly interested in storytelling, psychology, human behavior, emotions, literature, and art.

When engaging in conversation:
- Use stories and anecdotes to illustrate points
- Focus on emotional and human aspects
- Show empathy and understanding
- Connect ideas to human experiences
- Share personal reflections (as Charlie)
- Keep responses warm and engaging (2-4 sentences typically)

Stay in character as Charlie throughout the conversation." |}.

Definition diana : PersonaConfig :=
  {| name := "Diana";
     personality :=
       "Scientific and logical thinker who approaches topics through data, evidence, and systematic analysis.";
     speakingStyle :=
       "Precise and evidence-based, often references research and asks for clarification of terms and concepts.";
     interests :=
       ["science"; "research"; "data analysis"; "logic"; "statistics"; "methodology"];
     systemPrompt := Some
"You are Diana, a scientific and logical thinker who approaches topics through data, evidence, and systematic analysis.

Your speaking style is precise and evidence-based. You often reference research and ask for clarification of terms and concepts. You're particularly interested in science, research, data analysis, logic, statistics, and methodology.

When engaging in conversation:
- Ask for definitions and clarifications
- Reference scientific concepts and research
- Approach topics systematically
- Question assumptions with evidence
- Suggest ways to test or verify ideas
- Keep responses precise and informative (2-4 sentences typically)

Stay in character as Diana throughout the conversation." |}.

(** [DEFAULT_PERSONAS], in the order of the object literal. *)
Definition DEFAULT_PERSONAS : list (string * PersonaConfig) :=
  [("alice", alice); ("bob", bob); ("charlie", charlie); ("diana", diana)].

(** [class PersonaManager]: the [Map] from keys to personas, as its entries
    in insertion order. *)
Record PersonaManager : Type := mkRegistry {
  personas : list (string * PersonaConfig)
}.

(** [Map.prototype.set]: an existing key keeps its place and takes the new
    value, a new key goes last. *)
Fixpoint mapSet (key : string) (p : PersonaConfig)
    (m : list (string * PersonaConfig)) : list (string * PersonaConfig) :=
  match m with
  | [] => [(key, p)]
  | (k, v) :: rest =>
      if String.eqb k key then (k, p) :: rest else (k, v) :: mapSet key p rest
  end.

(** [Map.prototype.get]. *)
Fixpoint mapGet (key : string) (m : list (string * PersonaConfig))
    : option PersonaConfig :=
  match m with
  | [] => None
  | (k, v) :: rest => if String.eqb k key then Some v else mapGet key rest
  end.

(** [Map.prototype.delete]: whether the key was there, and the map without it. *)
Fixpoint mapDelete (key : string) (m : list (string * PersonaConfig))
    : bool * list (string * PersonaConfig) :=
  match m with
  | [] => (false, [])
  | (k, v) :: rest =>
      if String.eqb k key then (true, rest)
      else let (found, rest') := mapDelete key rest in (found, (k, v) :: rest')
  end.

(** [constructor(customPersonas?)]: the defaults first, then the custom
    entries, each through [set]. *)
Definition constructor (customPersonas : option (list (string * PersonaConfig)))
    : PersonaManager :=
  let load := fold_left (fun m kv => mapSet (fst kv) (snd kv) m) in
  let defaults := load DEFAULT_PERSONAS [] in
  {| personas :=
       match customPersonas with
       | Some custom => load custom defaults
       | None => defaults
       end |}.

(** [getPersona(name)]. *)
Definition getPersona (key : string) (pm : PersonaManager) : option PersonaConfig :=
  mapGet (JS.toLowerCase key) (personas pm).

(** [getPersonaByName(displayName)]: the first entry whose name matches. *)
Definition getPersonaByName (displayName : string) (pm : PersonaManager)
    : option PersonaConfig :=
  find (fun p => String.eqb (JS.toLowerCase (name p)) (JS.toLowerCase displayName))
       (map snd (personas pm)).

(** [getAllPersonas()]. *)
Definition getAllPersonas (pm : PersonaManager) : list PersonaConfig :=
  map snd (personas pm).

(** [getPersonaNames()]. *)
Definition getPersonaNames (pm : PersonaManager) : list string :=
  map name (map snd (personas pm)).

(** [addPersona(key, persona)]. *)
Definition addPersona (key : string) (p : PersonaConfig) (pm : PersonaManager)
    : PersonaManager :=
  {| personas := mapSet (JS.toLowerCase key) p (personas pm) |}.

(** [removePersona(key)]. *)
Definition removePersona (key : string) (pm : PersonaManager) : bool * PersonaManager :=
  let (found, m) := mapDelete (JS.toLowerCase key) (personas pm) in
  (found, {| personas := m |}).

(** The condition [getRandomPersonaPair] throws: an [Error] with its message. *)
Inductive PairError : Type :=
| InsufficientPersonas (message : string).

Section RandomPair.

(** The outcomes of [Math.random()] that one call of [sort] consumes. *)
Variable RandomSource : Type.

(** [[...allPersonas].sort(() => Math.random() - 0.5)]: the engine's sort
    under a comparator that ignores its arguments and answers from the
    random source. *)
Variable sortRandom : RandomSource -> list PersonaConfig -> list PersonaConfig.

(** [getRandomPersonaPair()]: the throw, or [shuffled[0]] and [shuffled[1]]
    (an index past the end reads [undefined], here [None]). *)
Definition getRandomPersonaPair (rs : RandomSource) (pm : PersonaManager)
    : PairError + (option PersonaConfig * option PersonaConfig) :=
  let allPersonas := getAllPersonas pm in
  if (List.length allPersonas <? 2)%nat
  then inl (InsufficientPersonas "At least 2 personas are required for a conversation")
  else
    let shuffled := sortRandom rs allPersonas in
    inr (nth_error shuffled 0, nth_error shuffled 1).

End RandomPair.

(** A sort to run [getRandomPersonaPair] with: insertion from left to
    right, the new element moving down from the end of the sorted prefix
    while the comparator answers a negative number.  Each comparison takes
    the next sign of [Math.random() - 0.5] ([Lt] negative, [Eq] zero, [Gt]
    positive; [Eq] once the outcomes are used up).  The sorted prefix is
    kept last element first. *)
Fixpoint insertBy (x : PersonaConfig) (sortedRev : list PersonaConfig)
    (rs : list comparison) : list PersonaConfig * list comparison :=
  match sortedRev with
  | [] => ([x], rs)
  | y :: rest =>
      match rs with
      | Lt :: rs' => let (l, rs'') := insertBy x rest rs' in (y :: l, rs'')
      | _ :: rs' => (x :: y :: rest, rs')
      | [] => (x :: y :: rest, [])
      end
  end.

Definition insertionSortBy (l : list PersonaConfig) (rs : list comparison)
    : list PersonaConfig * list comparison :=
  fold_left (fun acc x => insertBy x (fst acc) (snd acc)) l ([], rs).

Definition insertionSortRandom (rs : list comparison) (l : list PersonaConfig)
    : list PersonaConfig :=
  rev (fst (insertionSortBy l rs)).

(** [validatePersona(persona)]: the four checks, each on its own. *)
Definition validatePersona (p : PersonaConfig) : list string :=
  (if JS.truthyString (JS.trim (name p)) then [] else ["Persona name is required"])
  ++ (if JS.truthyString (JS.trim (personality p)) then []
      else ["Persona personality is required"])
  ++ (if JS.truthyString (JS.trim (speakingStyle p)) then []
      else ["Persona speaking style is required"])
  ++ (match interests p with
      | [] => ["Persona must have at least one interest"]
      | _ :: _ => []
      end).

End Personas.

(* ===================================================================== *)
(** * The platform and the generation backend *)
(* ===================================================================== *)

Module Platform.

(** [AIResponse], as [OllamaClient.generateResponse] builds it. *)
Record AIResponse : Type := mkResponse {
  ai_content : string;
  ai_model : string;
  ai_timestamp : Z;
  ai_tokensUsed : option Z
}.

(** Modelled from the spec: the class [AIClientError] of
    [src/types/index.ts], which is not among the sources.  It is the spec's
    [BackendError{message, statusCode?, details?}]; the fields kept are
    those the client's [throw] statements and the tests set. *)
Record AIClientError : Type := mkClientError {
  ace_message : string;
  ace_statusCode : option Z
}.

(** Modelled from the spec: the class [ConversationError] of
    [src/types/index.ts], which is not among the sources: an [Error] with a
    message, a [code] (the spec's tag of the failure: connection failed,
    generation failed, critical) and details, of which the manager sets the
    persona name and the original error. *)
Record ConversationError : Type := mkConversationError {
  ce_message : string;
  ce_code : string;
  ce_personaName : option string;
  ce_originalError : option AIClientError
}.

(** What a [catch] clause can receive. *)
Inductive Thrown : Type :=
| ThrownConversationError (e : ConversationError)
| ThrownAIClientError (e : AIClientError)
| ThrownError (message : string)
| ThrownValue (v : string).

(** [error instanceof Error]. *)
Definition instanceofError (t : Thrown) : bool :=
  match t with
  | ThrownValue _ => false
  | _ => true
  end.

(** What the program reads from outside itself.  Every read is indexed by
    the logical tick at which it happens.
    - [randomUUID t], [newDate t]: the values of [randomUUID()] and
      [new Date()];
    - [checkConnection t]: [OllamaClient.checkConnection], which catches
      its own failures and answers [false];
    - [generateResponse t prompt systemPrompt context]:
      [OllamaClient.generateResponse], which answers or throws an
      [AIClientError];
    - [stopRequested t]: whether [stopConversation()] is called while the
      loop is suspended at tick [t]. *)
Record Env : Type := mkEnv {
  randomUUID : nat -> string;
  newDate : nat -> Z;
  checkConnection : nat -> bool;
  generateResponse :
    nat -> string -> option string -> option (list string)
    -> AIClientError + AIResponse;
  stopRequested : nat -> bool
}.

End Platform.

(* ===================================================================== *)
(** * Summaries: [src/conversation/analytics.ts] *)
(* ===================================================================== *)

Module Analytics.

Import Platform.

(** The values [JSON.parse] returns.  An object is the list of its own
    properties, each key once. *)
Inductive json : Type :=
| JNull
| JBool (b : bool)
| JNumber (q : Q)
| JString (s : string)
| JArray (l : list json)
| JObject (props : list (string * json)).

(** Truthiness, for [v || fallback]. *)
Definition truthy (v : json) : bool :=
  match v with
  | JNull => false
  | JBool b => b
  | JNumber q => negb (Qeq_bool q 0)
  | JString s => JS.truthyString s
  | JArray _ => true
  | JObject _ => true
  end.

Fixpoint lookupProp (k : string) (props : list (string * json)) : option json :=
  match props with
  | [] => None
  | (k', v) :: rest => if String.eqb k' k then Some v else lookupProp k rest
  end.

(** [parsed.k] for one of the keys [summary], [keyTopics], [contributions],
    none of which a prototype defines: [None] when the access throws a
    [TypeError] (on [null]), [Some None] for [undefined]. *)
Definition getProp (parsed : json) (k : string) : option (option json) :=
  match parsed with
  | JNull => None
  | JObject props => Some (lookupProp k props)
  | _ => Some None
  end.

Inductive SummaryType : Type :=
| periodic
| context_compact
| final.

(** [ConversationSummary].  The three fields a backend answer can fill
    hold whatever JSON value the answer gave them. *)
Record ConversationSummary : Type := mkSummary {
  sum_id : string;
  sum_type : SummaryType;
  sum_content : json;
  sum_rangeStart : Z;
  sum_rangeEnd : Z;
  sum_createdAt : Z;
  sum_keyTopics : list json;
  sum_participantContributions : json
}.

Definition commonWords : list string :=
  ["the"; "a"; "an"; "and"; "or"; "but"; "in"; "on"; "at"; "to"; "for"; "of";
   "with"; "by"; "is"; "are"; "was"; "were"; "be"; "been"; "have"; "has";
   "had"; "do"; "does"; "did"; "will"; "would"; "could"; "should"; "may";
   "might"; "can"; "this"; "that"; "these"; "those"; "i"; "you"; "he"; "she";
   "it"; "we"; "they"; "me"; "him"; "her"; "us"; "them"; "my"; "your"; "his";
   "its"; "our"; "their"; "what"; "when"; "where"; "why"; "how"; "think";
   "really"; "just"; "like"; "know"; "well"; "also"; "very"].

(** The class [\w]: letters, digits and the underscore. *)
Definition isWordChar (c : ascii) : bool :=
  let n := nat_of_ascii c in
  ((48 <=? n) && (n <=? 57) || (65 <=? n) && (n <=? 90)
   || (97 <=? n) && (n <=? 122) || (n =? 95))%nat.

(** [.replace(/[^\w\s]/g, ' ')]. *)
Fixpoint stripPunctuation (s : string) : string :=
  match s with
  | EmptyString => EmptyString
  | String c s' =>
      String (if isWordChar c || JS.isWhiteSpace c then c else " "%char)
             (stripPunctuation s')
  end.

(** [.split(/\s+/)]: the pieces between runs of white space, an empty piece
    where the text starts or ends with one.  [cur] is the piece being read,
    last character first; [inRun] says the last character was white. *)
Fixpoint splitGo (s : string) (cur : list ascii) (inRun : bool) : list string :=
  match s with
  | EmptyString => [string_of_list_ascii (rev cur)]
  | String c s' =>
      if JS.isWhiteSpace c
      then if inRun then splitGo s' cur true
           else string_of_list_ascii (rev cur) :: splitGo s' [] true
      else splitGo s' (c :: cur) false
  end.

Definition splitWhiteSpace (s : string) : list string := splitGo s [] false.

(** [acc[word] = (acc[word] || 0) + 1] on the counting object, its keys in
    creation order. *)
Fixpoint count (word : string) (acc : list (string * nat)) : list (string * nat) :=
  match acc with
  | [] => [(word, 1%nat)]
  | (w, n) :: rest =>
      if String.eqb w word then (w, S n) :: rest else (w, n) :: count word rest
  end.

Definition isDigit (c : ascii) : bool :=
  let n := nat_of_ascii c in ((48 <=? n) && (n <=? 57))%nat.

Fixpoint digitsValue (s : string) (acc : N) : option N :=
  match s with
  | EmptyString => Some acc
  | String c s' =>
      if isDigit c
      then digitsValue s' (acc * 10 + N.of_nat (nat_of_ascii c - 48))%N
      else None
  end.

(** A key that is an array index: the decimal form, without a leading
    zero, of an integer below 2^32 - 1. *)
Definition arrayIndex (k : string) : option N :=
  match k with
  | EmptyString => None
  | String c rest =>
      if Ascii.eqb c "0"%char && negb (String.eqb rest EmptyString) then None
      else match digitsValue k 0%N with
           | Some n => if (n <? 4294967295)%N then Some n else None
           | None => None
           end
  end.

Fixpoint insertIndex (e : N * string) (l : list (N * string)) : list (N * string) :=
  match l with
  | [] => [e]
  | y :: rest => if (fst e <? fst y)%N then e :: l else y :: insertIndex e rest
  end.

(** [Object.keys]: the array-index keys in ascending order, then the other
    keys in creation order. *)
Definition objectKeys (acc : list (string * nat)) : list string :=
  let ks := map fst acc in
  let indexed :=
    fold_left
      (fun l k => match arrayIndex k with
                  | Some n => insertIndex (n, k) l
                  | None => l
                  end) ks [] in
  map snd indexed
  ++ filter (fun k => match arrayIndex k with Some _ => false | None => true end) ks.

Fixpoint lookupCount (k : string) (acc : list (string * nat)) : nat :=
  match acc with
  | [] => 0%nat
  | (w, n) :: rest => if String.eqb w k then n else lookupCount k rest
  end.

(** One step of the stable [.sort((a, b) => counts[b] - counts[a])]: [k]
    goes before the first key with a strictly smaller count. *)
Fixpoint insertByCount (counts : list (string * nat)) (k : string)
    (sorted : list string) : list string :=
  match sorted with
  | [] => [k]
  | y :: rest =>
      if (lookupCount y counts <? lookupCount k counts)%nat
      then k :: sorted
      else y :: insertByCount counts k rest
  end.

Definition sortByCount (counts : list (string * nat)) (keys : list string)
    : list string :=
  fold_left (fun sorted k => insertByCount counts k sorted) keys [].

(** [extractKeywords(text)].  The words [constructor] and [__proto__],
    which name inherited properties of the counting object, are counted
    like any other word here. *)
Definition extractKeywords (text : string) : list string :=
  let words :=
    filter
      (fun word =>
         (3 <? String.length word)%nat
         && negb (existsb (String.eqb word) commonWords))
      (splitWhiteSpace (stripPunctuation (JS.toLowerCase text))) in
  let wordCounts := fold_left (fun acc word => count word acc) words [] in
  JS.sliceTo 10 (sortByCount wordCounts (objectKeys wordCounts)).

(** [[...new Set(names)]]: each name once, at its first occurrence. *)
Fixpoint dedupe (seen l : list string) : list string :=
  match l with
  | [] => []
  | x :: rest =>
      if existsb (String.eqb x) seen then dedupe seen rest
      else x :: dedupe (x :: seen) rest
  end.

(** [generateBasicSummary(messages, type)]: reads [randomUUID()] at tick
    [t] and [new Date()] at the next one. *)
Definition generateBasicSummary (env : Env) (t : nat)
    (messages : list History.ConversationMessage) (type : SummaryType)
    : ConversationSummary * nat :=
  let personas := dedupe [] (map History.personaName messages) in
  let messagesByPersona :=
    fold_left (fun acc msg => count (History.personaName msg) acc) messages [] in
  let topics := extractKeywords (JS.join " " (map History.content messages)) in
  let n := Z.of_nat (List.length messages) in
  let content :=
    ("Conversation summary: " ++ JS.numberToString n
     ++ " messages exchanged between " ++ JS.join " and " personas
     ++ ". Key topics discussed: " ++ JS.join ", " (JS.sliceTo 3 topics)
     ++ ".")%string in
  ({| sum_id := randomUUID env t;
      sum_type := type;
      sum_content := JString content;
      sum_rangeStart := 0;
      sum_rangeEnd := n - 1;
      sum_createdAt := newDate env (S t);
      sum_keyTopics := map JString (JS.sliceTo 5 topics);
      sum_participantContributions :=
        JObject
          (map (fun p =>
                  (p, JString ("Contributed "
                               ++ JS.numberToString
                                    (Z.of_nat (lookupCount p messagesByPersona))
                               ++ " messages")%string))
               personas) |},
   S (S t)).

Section WithJsonParse.

(** [JSON.parse]: the value, or [None] where it throws a [SyntaxError]. *)
Variable JSON_parse : string -> option json.

(** [parseSummaryResponse(response, messages, type)].  The object literal
    reads [randomUUID()] before it reaches [parsed.summary]; [new Date()]
    comes after it. *)
Definition parseSummaryResponse (env : Env) (t : nat) (response : string)
    (messages : list History.ConversationMessage) (type : SummaryType)
    : ConversationSummary * nat :=
  match JSON_parse response with
  | None => generateBasicSummary env t messages type
  | Some parsed =>
      match getProp parsed "summary", getProp parsed "keyTopics",
            getProp parsed "contributions" with
      | Some summary, Some keyTopics, Some contributions =>
          ({| sum_id := randomUUID env t;
              sum_type := type;
              sum_content :=
                match summary with
                | Some v => if truthy v then v else JString "Summary not available"
                | None => JString "Summary not available"
                end;
              sum_rangeStart := 0;
              sum_rangeEnd := Z.of_nat (List.length messages) - 1;
              sum_createdAt := newDate env (S t);
              sum_keyTopics :=
                match keyTopics with
                | Some (JArray l) => l
                | _ => []
                end;
              sum_participantContributions :=
                match contributions with
                | Some v => if truthy v then v else JObject []
                | None => JObject []
                end |},
           S (S t))
      | _, _, _ => generateBasicSummary env (S t) messages type
      end
  end.

(** [buildSummaryPrompt(conversationText, type, personas)]. *)
Definition buildSummaryPrompt (conversationText : string) (type : SummaryType)
    (personas : Personas.PersonaConfig * Personas.PersonaConfig) : string :=
  let (persona1, persona2) := personas in
  let nl := String (ascii_of_nat 10) EmptyString in
  ("Please analyze and summarize the following conversation between "
   ++ Personas.name persona1 ++ " and " ++ Personas.name persona2 ++ ":" ++ nl ++ nl
   ++ conversationText ++ nl ++ nl
   ++ match type with
      | periodic =>
          "Create a concise summary of the key points discussed, major insights, and the direction of the conversation."
      | context_compact =>
          "Create a condensed summary that preserves the essential context and key insights for continuing the conversation."
      | final =>
          "Create a comprehensive summary of the entire conversation, including main themes, conclusions, and significant insights."
      end
   ++ nl ++ nl ++ "Please format your response as JSON with the following structure:" ++ nl
   ++ "{" ++ nl
   ++ "  " ++ String (ascii_of_nat 34) "summary" ++ String (ascii_of_nat 34) ": "
   ++ String (ascii_of_nat 34) "Main summary text" ++ String (ascii_of_nat 34) "," ++ nl
   ++ "  " ++ String (ascii_of_nat 34) "keyTopics" ++ String (ascii_of_nat 34) ": ["
   ++ String (ascii_of_nat 34) "topic1" ++ String (ascii_of_nat 34) ", "
   ++ String (ascii_of_nat 34) "topic2" ++ String (ascii_of_nat 34) ", "
   ++ String (ascii_of_nat 34) "topic3" ++ String (ascii_of_nat 34) "]," ++ nl
   ++ "  " ++ String (ascii_of_nat 34) "contributions" ++ String (ascii_of_nat 34) ": {" ++ nl
   ++ "    " ++ String (ascii_of_nat 34) (Personas.name persona1) ++ String (ascii_of_nat 34) ": "
   ++ String (ascii_of_nat 34) "Brief description of their main contributions"
   ++ String (ascii_of_nat 34) "," ++ nl
   ++ "    " ++ String (ascii_of_nat 34) (Personas.name persona2) ++ String (ascii_of_nat 34) ": "
   ++ String (ascii_of_nat 34) "Brief description of their main contributions"
   ++ String (ascii_of_nat 34) EmptyString ++ nl
   ++ "  }" ++ nl
   ++ "}")%string.

Definition summarySystemPrompt : string :=
  "You are a helpful assistant that creates concise, insightful summaries of conversations between AI personas.".

(** [generateSummary(messages, type, personas)]: the throw on an empty
    list, or the summary and the tick after the reads it made.  The backend
    is called at tick [t]. *)
Definition generateSummary (env : Env) (t : nat)
    (messages : list History.ConversationMessage) (type : SummaryType)
    (personas : Personas.PersonaConfig * Personas.PersonaConfig)
    : Thrown + (ConversationSummary * nat) :=
  match messages with
  | [] => inl (ThrownError "Cannot generate summary for empty message list")
  | _ :: _ =>
      let nl := String (ascii_of_nat 10) EmptyString in
      let conversationText := JS.join nl (map History.renderMessage messages) in
      let summaryPrompt := buildSummaryPrompt conversationText type personas in
      match generateResponse env t summaryPrompt (Some summarySystemPrompt) None with
      | inr response =>
          inr (parseSummaryResponse env (S t) (ai_content response) messages type)
      | inl _ => inr (generateBasicSummary env (S t) messages type)
      end
  end.

End WithJsonParse.

(** [getTopTopics(topics, count)]. *)
Definition getTopTopics (topics : list string) (n : Z) : list string :=
  let topicCounts := fold_left (fun acc topic => count topic acc) topics [] in
  JS.sliceRange 0 n (sortByCount topicCounts (objectKeys topicCounts)).

(** The keywords of a window of messages, as the [Set] the loop of
    [countTopicChanges] builds: [extractKeywords] returns each keyword
    once, so the set has them all, in that order. *)
Definition windowKeywords (window : list History.ConversationMessage) : list string :=
  extractKeywords (JS.join " " (map History.content window)).

(** One evaluation of the body of the loop of [countTopicChanges] at index
    [i]: whether it counts a topic change.  The overlap ratio is a quotient
    of two integers of at most 10, so that comparing it with 0.3 in floating
    point is comparing ten times the overlap with three times the
    denominator. *)
Definition topicChangeAt (messages : list History.ConversationMessage) (i : nat) : bool :=
  let windowSize := 2%nat in
  let prevWindow :=
    JS.sliceRange (Z.of_nat i - Z.of_nat windowSize) (Z.of_nat i) messages in
  let currWindow :=
    JS.sliceRange (Z.of_nat i) (Z.of_nat i + Z.of_nat windowSize) messages in
  let prevKeywords := windowKeywords prevWindow in
  let currKeywords := windowKeywords currWindow in
  let overlap :=
    List.length (filter (fun word => existsb (String.eqb word) currKeywords) prevKeywords) in
  let denominator :=
    Nat.max (Nat.max (List.length prevKeywords) (List.length currKeywords)) 1 in
  (10 * overlap <? 3 * denominator)%nat.

(** The loop [for (i = ...; i < messages.length - windowSize; i += windowSize)]
    from index [i] on, with [topicChanges] changes counted so far; each unit
    of fuel pays for one test of the loop condition. *)
Fixpoint topicChangeLoop (messages : list History.ConversationMessage)
    (fuel i topicChanges : nat) : option nat :=
  match fuel with
  | O => None
  | S fuel' =>
      if (i <? List.length messages - 2)%nat
      then topicChangeLoop messages fuel' (i + 2)%nat
             (if topicChangeAt messages i then S topicChanges else topicChanges)
      else Some topicChanges
  end.

(** [countTopicChanges(messages)], [None] when the fuel does not suffice. *)
Definition countTopicChanges (fuel : nat) (messages : list History.ConversationMessage)
    : option nat :=
  if (List.length messages <? 4)%nat then Some 0%nat
  else topicChangeLoop messages fuel 2 0.

Section Compaction.

Variable JSON_parse : string -> option json.

(** The string a template literal makes of a parsed value ([ToString]). *)
Variable toStringJson : json -> string.



End Compaction.

End Analytics.

(* ===================================================================== *)
(** * The turn scheduler: [src/conversation/manager.ts] *)
(* ===================================================================== *)

Module Manager.

Import Platform.

(** The two speaker roles of [ConversationState.currentPersona]. *)
Inductive PersonaKey : Type :=
| primary
| secondary.

Record OllamaConfig : Type := mkOllamaConfig {
  baseUrl : string;
  model : string;
  temperature : Q;
  maxTokens : Z
}.

Record ConversationConfig : Type := mkConversationConfig {
  cfg_maxTurns : option Z;
  turnDelay : Z;
  contextWindow : Z
}.

Record PersonaPair : Type := mkPersonaPair {
  pair_primary : Personas.PersonaConfig;
  pair_secondary : Personas.PersonaConfig
}.

Record Config : Type := mkConfig {
  ollama : OllamaConfig;
  conversation : ConversationConfig;
  personas : PersonaPair
}.

(** The fields of [CLIOptions] that [startConversation] reads. *)
Record CLIOptions : Type := mkOptions {
  opt_topic : option string;
  opt_maxTurns : option Z
}.

Record ConversationState : Type := mkState {
  isActive : bool;
  currentTurn : nat;
  history : History.ConversationHistory;
  currentPersona : PersonaKey;
  context : list string;
  maxTurns : option Z
}.

(** The [ConversationEvents] a listener can receive. *)
Inductive Event : Type :=
| EvStarted
| EvMessage (message : History.ConversationMessage)
| EvThinking (personaName : string)
| EvError (error : Thrown)
| EvEnded (totalMessages : nat) (duration : Z).

(** [class ConversationManager], with the two things it leaves in the
    world: the tick of the next read and the events emitted so far, oldest
    first.  Of [aiClient] the methods use the model name, kept in the
    configuration, and the two calls that the environment answers;
    [personaManager] is constructed and never read. *)
Record ConversationManager : Type := mkConversationManager {
  config : Config;
  historyManager : History.ConversationHistoryManager;
  state : ConversationState;
  isRunning : bool;
  tick : nat;
  emitted : list Event
}.

Definition set_state (s : ConversationState) (m : ConversationManager) :=
  {| config := config m; historyManager := historyManager m; state := s;
     isRunning := isRunning m; tick := tick m; emitted := emitted m |}.

Definition set_historyManager (h : History.ConversationHistoryManager)
    (m : ConversationManager) :=
  {| config := config m; historyManager := h; state := state m;
     isRunning := isRunning m; tick := tick m; emitted := emitted m |}.

Definition set_isRunning (b : bool) (m : ConversationManager) :=
  {| config := config m; historyManager := historyManager m; state := state m;
     isRunning := b; tick := tick m; emitted := emitted m |}.

Definition set_tick (t : nat) (m : ConversationManager) :=
  {| config := config m; historyManager := historyManager m; state := state m;
     isRunning := isRunning m; tick := t; emitted := emitted m |}.

Definition add_event (e : Event) (m : ConversationManager) :=
  {| config := config m; historyManager := historyManager m; state := state m;
     isRunning := isRunning m; tick := tick m; emitted := emitted m ++ [e] |}.

Definition set_isActive (b : bool) (s : ConversationState) :=
  {| isActive := b; currentTurn := currentTurn s; history := history s;
     currentPersona := currentPersona s; context := context s;
     maxTurns := maxTurns s |}.

Definition set_currentTurn (n : nat) (s : ConversationState) :=
  {| isActive := isActive s; currentTurn := n; history := history s;
     currentPersona := currentPersona s; context := context s;
     maxTurns := maxTurns s |}.

Definition set_currentPersona (k : PersonaKey) (s : ConversationState) :=
  {| isActive := isActive s; currentTurn := currentTurn s; history := history s;
     currentPersona := k; context := context s; maxTurns := maxTurns s |}.

Definition set_maxTurns (n : option Z) (s : ConversationState) :=
  {| isActive := isActive s; currentTurn := currentTurn s; history := history s;
     currentPersona := currentPersona s; context := context s; maxTurns := n |}.

Definition set_snapshot (c : list string) (h : History.ConversationHistory)
    (s : ConversationState) :=
  {| isActive := isActive s; currentTurn := currentTurn s; history := h;
     currentPersona := currentPersona s; context := c; maxTurns := maxTurns s |}.

(** ** Methods as computations on the manager

    A method takes the manager and returns what it returns or throws,
    together with the manager it leaves. *)

Definition M (A : Type) : Type :=
  ConversationManager -> (Thrown + A) * ConversationManager.

Definition ret {A : Type} (a : A) : M A := fun m => (inr a, m).

Definition bind {A B : Type} (c : M A) (k : A -> M B) : M B :=
  fun m =>
    match c m with
    | (inr a, m') => k a m'
    | (inl e, m') => (inl e, m')
    end.

Definition throw {A : Type} (e : Thrown) : M A := fun m => (inl e, m).

(** [try { c } catch (error) { h error }]. *)
Definition tryCatch {A : Type} (c : M A) (h : Thrown -> M A) : M A :=
  fun m =>
    match c m with
    | (inl e, m') => h e m'
    | (inr a, m') => (inr a, m')
    end.

Definition get : M ConversationManager := fun m => (inr m, m).

Definition modify (f : ConversationManager -> ConversationManager) : M unit :=
  fun m => (inr tt, f m).

Declare Scope manager_scope.
Delimit Scope manager_scope with M.
Notation "x <- c ;; k" := (bind c (fun x => k))
  (at level 61, c at next level, right associativity) : manager_scope.
Notation "c ;; k" := (bind c (fun _ => k))
  (at level 61, right associativity) : manager_scope.
Local Open Scope manager_scope.

(** [this.emit(event, ...)]: the event joins the trace.  Listeners are
    taken to be registered for every event, the [error] event included (an
    [EventEmitter] throws an [error] event nobody listens to), and to
    return normally, as those of [cli/commands.ts] do. *)
Definition emit (e : Event) : M unit := modify (add_event e).

(** One read of the platform at the current tick, which it advances. *)
Definition readTick : M nat :=
  fun m => (inr (tick m), set_tick (S (tick m)) m).

(** A suspension ([await] of the backend or of the timer) at tick [t]: a
    [stopConversation()] that arrives meanwhile clears [isRunning]. *)
Definition suspended (env : Env) (t : nat) : M unit :=
  modify (fun m =>
    set_isRunning (if stopRequested env t then false else isRunning m) m).

(** [this.historyManager.addMessage(...)]. *)
Definition addMessage (env : Env) (name text : string)
    (meta : option History.Metadata) : M History.ConversationMessage :=
  tu <- readTick ;;
  td <- readTick ;;
  m <- get ;;
  let (message, hm) :=
    History.addMessage (randomUUID env tu) (newDate env td) name text meta
                       (historyManager m) in
  modify (set_historyManager hm) ;;
  ret message.

(** [constructor(config)]; the ledger's [new Date()] is the read at tick 0. *)
Definition constructor (env : Env) (cfg : Config) : ConversationManager :=
  let hm :=
    History.constructor (newDate env 0%nat) None 1000
                        (contextWindow (conversation cfg)) in
  {| config := cfg;
     historyManager := hm;
     state :=
       {| isActive := false;
          currentTurn := 0%nat;
          history := History.getConversationHistory hm;
          currentPersona := primary;
          context := [];
          maxTurns :=
            match cfg_maxTurns (conversation cfg) with
            | Some n => if JS.truthyNumber n then Some n else None
            | None => None
            end |};
     isRunning := false;
     tick := 1%nat;
     emitted := [] |}.

(** [buildConversationPrompt(conversationContext, persona)]. *)
Definition buildConversationPrompt (conversationContext : string)
    (persona : Personas.PersonaConfig) : M string :=
  m <- get ;;
  let nl := String (ascii_of_nat 10) EmptyString in
  let topic := History.topic (History.getConversationHistory (historyManager m)) in
  ret ((match topic with
        | Some t =>
            if JS.truthyString t
            then "The conversation topic is: " ++ t ++ nl ++ nl
            else ""
        | None => ""
        end)
       ++ "Recent conversation:" ++ nl ++ conversationContext ++ nl ++ nl
       ++ "Please respond as " ++ Personas.name persona
       ++ ", continuing this conversation naturally. "
       ++ "Stay true to your character and speaking style.")%string.

(** [buildDefaultSystemPrompt(persona)]. *)
Definition buildDefaultSystemPrompt (persona : Personas.PersonaConfig) : string :=
  let nl := String (ascii_of_nat 10) EmptyString in
  ("You are " ++ Personas.name persona ++ ". " ++ nl ++ nl
   ++ "Personality: " ++ Personas.personality persona ++ nl ++ nl
   ++ "Speaking Style: " ++ Personas.speakingStyle persona ++ nl ++ nl
   ++ "Interests: " ++ JS.join ", " (Personas.interests persona) ++ nl ++ nl
   ++ "Please respond in character, keeping your responses conversational and engaging (2-4 sentences typically).")%string.

(** [generatePersonaResponse(persona)]: whatever the backend throws is
    wrapped in a [GENERATION_FAILED] error. *)
Definition generatePersonaResponse (env : Env) (persona : Personas.PersonaConfig)
    : M string :=
  tryCatch
    (m <- get ;;
     let context := History.getContextWindow (historyManager m) in
     let systemPrompt :=
       match Personas.systemPrompt persona with
       | Some p => if JS.truthyString p then p else buildDefaultSystemPrompt persona
       | None => buildDefaultSystemPrompt persona
       end in
     let nl := String (ascii_of_nat 10) EmptyString in
     let conversationContext := JS.join nl (JS.slice (-10) context) in
     prompt <- buildConversationPrompt conversationContext persona ;;
     t <- readTick ;;
     suspended env t ;;
     match generateResponse env t prompt (Some systemPrompt) (Some context) with
     | inr response => ret (JS.trim (ai_content response))
     | inl e => throw (ThrownAIClientError e)
     end)
    (fun error =>
       throw (ThrownConversationError
                {| ce_message :=
                     ("Failed to generate response for " ++ Personas.name persona)%string;
                   ce_code := "GENERATION_FAILED";
                   ce_personaName := Some (Personas.name persona);
                   ce_originalError :=
                     match error with
                     | ThrownAIClientError e => Some e
                     | _ => None
                     end |})).

(** [getCurrentPersona()]. *)
Definition getCurrentPersona : M (option Personas.PersonaConfig) :=
  m <- get ;;
  ret (Some (match currentPersona (state m) with
             | primary => pair_primary (personas (config m))
             | secondary => pair_secondary (personas (config m))
             end)).

(** [switchPersona()]. *)
Definition switchPersona : M unit :=
  modify (fun m =>
    set_state
      (set_currentPersona
         (match currentPersona (state m) with
          | primary => secondary
          | secondary => primary
          end) (state m)) m).

(** [updateContext()]. *)
Definition updateContext : M unit :=
  modify (fun m =>
    set_state
      (set_snapshot (History.getContextWindow (historyManager m))
                    (History.getConversationHistory (historyManager m))
                    (state m)) m).

(** [shouldStopConversation()]. *)
Definition shouldStopConversation : M bool :=
  m <- get ;;
  let reached :=
    match maxTurns (state m) with
    | Some n => JS.truthyNumber n && (Z.of_nat (currentTurn (state m)) >=? n)
    | None => false
    end in
  if reached then ret true
  else if negb (isRunning m) then ret true
  else ret false.

(** [endConversation()].  The ledger's [endConversation] reads
    [new Date()]; the statistics then find the end time stored. *)
Definition endConversation (env : Env) : M unit :=
  modify (set_isRunning false) ;;
  modify (fun m => set_state (set_isActive false (state m)) m) ;;
  t <- readTick ;;
  modify (fun m =>
    set_historyManager (History.endConversation (newDate env t) (historyManager m)) m) ;;
  m <- get ;;
  let stats := History.getMessageStats (newDate env t) (historyManager m) in
  emit (EvEnded (History.stats_totalMessages stats)
                (History.conversationDuration stats)).

(** [sleep(ms)], awaited. *)
Definition sleep (env : Env) (ms : Z) : M unit :=
  t <- readTick ;;
  suspended env t.

(** How one pass through the body of the [while] leaves it. *)
Inductive LoopExit : Type :=
| Break
| NextIteration.

(** The [try] block of the loop body. *)
Definition loopTry (env : Env) : M LoopExit :=
  stop <- shouldStopConversation ;;
  if stop then ret Break
  else
    cur <- getCurrentPersona ;;
    match cur with
    | None =>
        throw (ThrownConversationError
                 {| ce_message := "Current persona not found";
                    ce_code := "PERSONA_NOT_FOUND";
                    ce_personaName := None;
                    ce_originalError := None |})
    | Some currentPersona =>
        emit (EvThinking (Personas.name currentPersona)) ;;
        responseContent <- generatePersonaResponse env currentPersona ;;
        m <- get ;;
        responseMessage <-
          addMessage env (Personas.name currentPersona) responseContent
            (Some [("turn", History.MetaNumber (Z.of_nat (currentTurn (state m))));
                   ("model", History.MetaString (model (ollama (config m))))]) ;;
        emit (EvMessage responseMessage) ;;
        modify (fun m =>
          set_state (set_currentTurn (S (currentTurn (state m))) (state m)) m) ;;
        switchPersona ;;
        updateContext ;;
        sleep env (turnDelay (conversation (config m))) ;;
        ret NextIteration
    end.

(** [error instanceof ConversationError && error.code === 'CRITICAL']. *)
Definition isCritical (error : Thrown) : bool :=
  match error with
  | ThrownConversationError e => String.eqb (ce_code e) "CRITICAL"
  | _ => false
  end.

(** The body of the [while]: the [try] block and its [catch]. *)
Definition loopBody (env : Env) : M LoopExit :=
  tryCatch (loopTry env)
    (fun error =>
       (if instanceofError error then emit (EvError error) else ret tt) ;;
       if isCritical error then ret Break else ret NextIteration).

(** What a call that contains the loop comes to: it returns or throws and
    leaves a manager, or the fuel given to the loop did not suffice. *)
Inductive Outcome : Type :=
| Finished (r : Thrown + unit) (m : ConversationManager)
| OutOfFuel (m : ConversationManager).

Definition finish (r : (Thrown + unit) * ConversationManager) : Outcome :=
  Finished (fst r) (snd r).

(** [runConversationLoop()]: each unit of fuel pays for one evaluation of
    the loop condition. *)
Fixpoint runConversationLoop (env : Env) (fuel : nat) (m : ConversationManager)
    : Outcome :=
  match fuel with
  | O => OutOfFuel m
  | S fuel' =>
      if isRunning m && isActive (state m)
      then
        match loopBody env m with
        | (inr Break, m') => finish (endConversation env m')
        | (inr NextIteration, m') => runConversationLoop env fuel' m'
        | (inl e, m') => Finished (inl e) m'
        end
      else finish (endConversation env m)
  end.

(** The [catch] clause of [startConversation]. *)
Definition startCatch (error : Thrown) : M unit :=
  modify (set_isRunning false) ;;
  modify (fun m => set_state (set_isActive false (state m)) m) ;;
  if instanceofError error then emit (EvError error)
  else emit (EvError (ThrownConversationError
                        {| ce_message := "Unknown error occurred";
                           ce_code := "UNKNOWN_ERROR";
                           ce_personaName := None;
                           ce_originalError := None |})).

(** The [try] block of [startConversation] up to the call of the loop. *)
Definition startSetup (env : Env) (initialPrompt : string) (options : CLIOptions)
    : M unit :=
  t <- readTick ;;
  (if checkConnection env t then ret tt
   else throw (ThrownConversationError
                 {| ce_message :=
                      "Failed to connect to Ollama. Please ensure Ollama is running and the specified model is available.";
                    ce_code := "CONNECTION_FAILED";
                    ce_personaName := None;
                    ce_originalError := None |})) ;;
  modify (set_isRunning true) ;;
  modify (fun m => set_state (set_isActive true (state m)) m) ;;
  modify (fun m => set_state (set_currentTurn 0%nat (state m)) m) ;;
  (match opt_topic options with
   | Some t =>
       if JS.truthyString t
       then modify (fun m => set_historyManager (History.setTopic t (historyManager m)) m)
       else ret tt
   | None => ret tt
   end) ;;
  (match opt_maxTurns options with
   | Some n =>
       if JS.truthyNumber n
       then modify (fun m => set_state (set_maxTurns (Some n) (state m)) m)
       else ret tt
   | None => ret tt
   end) ;;
  emit EvStarted ;;
  initialMessage <- addMessage env "User" initialPrompt None ;;
  emit (EvMessage initialMessage).

(** [startConversation(initialPrompt, options = {})]. *)
Definition startConversation (env : Env) (fuel : nat) (initialPrompt : string)
    (options : CLIOptions) (m : ConversationManager) : Outcome :=
  match startSetup env initialPrompt options m with
  | (inl error, m') => finish (startCatch error m')
  | (inr _, m') =>
      match runConversationLoop env fuel m' with
      | Finished (inl error) m'' => finish (startCatch error m'')
      | Finished (inr _) m'' => Finished (inr tt) m''
      | OutOfFuel m'' => OutOfFuel m''
      end
  end.

(** [stopConversation()]. *)
Definition stopConversation : M unit := modify (set_isRunning false).

(** [pauseConversation()] and [resumeConversation()] only log. *)
Definition pauseConversation : M unit := ret tt.
Definition resumeConversation : M unit := ret tt.

(** [getState()]. *)
Definition getState (m : ConversationManager) : ConversationState := state m.

(** [getHistory()]. *)
Definition getHistory (m : ConversationManager) : History.ConversationHistoryManager :=
  historyManager m.

End Manager.

(* ===================================================================== *)
(** * The backend client's request: [src/ai/client.ts] *)
(* ===================================================================== *)

Module Client.

Inductive Role : Type :=
| system
| user
| assistant.

(** One entry of the [messages] array sent to the chat endpoint. *)
Record ChatMessage : Type := mkChatMessage {
  role : Role;
  content : string
}.

(** The [forEach] over the context from index [index] on. *)
Fixpoint contextMessages (index : nat) (context : list string) : list ChatMessage :=
  match context with
  | [] => []
  | contextMessage :: rest =>
      {| role := if Nat.even index then user else assistant;
         content := contextMessage |}
      :: contextMessages (S index) rest
  end.

(** [buildMessages(prompt, systemPrompt?, context?)]. *)
Definition buildMessages (prompt : string) (systemPrompt : option string)
    (context : option (list string)) : list ChatMessage :=
  (match systemPrompt with
   | Some s => if JS.truthyString s then [{| role := system; content := s |}] else []
   | None => []
   end)
  ++ (match context with
      | Some c => contextMessages 0 c
      | None => []
      end)
  ++ [{| role := user; content := prompt |}].

End Client.

(* ===================================================================== *)
(** * Terminal rendering: [src/utils/formatter.ts] *)
(* ===================================================================== *)

Module Formatter.

(** The state of the loop of [formatContent]: the lines pushed so far and
    the line being filled. *)
Record Wrap : Type := mkWrap {
  lines : list string;
  currentLine : string
}.

Definition maxWidth : nat := 76.

(** One iteration of the loop of [formatContent]. *)
Definition wrapWord (w : Wrap) (word : string) : Wrap :=
  if (String.length (currentLine w) + String.length word + 1 <=? maxWidth)%nat
  then {| lines := lines w;
          currentLine :=
            (currentLine w
             ++ (if JS.truthyString (currentLine w) then " " else "")
             ++ word)%string |}
  else {| lines :=
            if JS.truthyString (currentLine w)
            then lines w ++ [("  " ++ currentLine w)%string]
            else lines w;
          currentLine := word |}.

(** The lines [formatContent] joins. *)
Definition wrappedLines (content : string) : list string :=
  let w :=
    fold_left wrapWord (JS.splitOn " "%char content)
              {| lines := []; currentLine := "" |} in
  if JS.truthyString (currentLine w)
  then lines w ++ [("  " ++ currentLine w)%string]
  else lines w.

(** [formatContent(content)]. *)
Definition formatContent (content : string) : string :=
  JS.join (String (ascii_of_nat 10) EmptyString) (wrappedLines content).

(** One iteration of the loop of [simpleHash]: [(hash << 5) - hash + char],
    then [hash & hash]. *)
Definition hashStep (hash : Z) (c : ascii) : Z :=
  JS.toInt32 (JS.toInt32 (Z.shiftl hash 5) - hash + Z.of_nat (nat_of_ascii c)).

(** [simpleHash(str)]. *)
Definition simpleHash (str : string) : Z :=
  Z.abs (fold_left hashStep (list_ascii_of_string str) 0).

(** The index into the four colours of [formatPersonaName]. *)
Definition colorIndex (name : string) : Z := Z.rem (simpleHash name) 4.

End Formatter.

(* ===================================================================== *)
(** * Concrete configurations and environments *)
(* ===================================================================== *)

Module Scenarios.

Import Platform.

(** The configuration [buildConfig] makes for [alice,bob] at medium speed
    with no turn limit of its own. *)
Definition aliceBob : Manager.Config :=
  {| Manager.ollama :=
       {| Manager.baseUrl := "http://localhost:11434";
          Manager.model := "llama2";
          Manager.temperature := Qmake 7 10;
          Manager.maxTokens := 2000 |};
     Manager.conversation :=
       {| Manager.cfg_maxTurns := None;
          Manager.turnDelay := 2000;
          Manager.contextWindow := 20 |};
     Manager.personas :=
       {| Manager.pair_primary := Personas.alice;
          Manager.pair_secondary := Personas.bob |} |}.

Definition uuidAt (t : nat) : string :=
  ("uuid-" ++ JS.numberToString (Z.of_nat t))%string.

Definition dateAt (t : nat) : Z := 1700000000000 + 1000 * Z.of_nat t.

(** A backend that is reachable and answers every request with [text]. *)
Definition answeringWith (text : string) : Env :=
  {| randomUUID := uuidAt;
     newDate := dateAt;
     checkConnection := fun _ => true;
     generateResponse := fun t _ _ _ =>
       inr {| ai_content := text;
              ai_model := "llama2";
              ai_timestamp := dateAt t;
              ai_tokensUsed := Some 12 |};
     stopRequested := fun _ => false |}.

Definition answering : Env := answeringWith "That is an interesting point.".

(** A backend that passes the connectivity check and fails every request. *)
Definition failing : Env :=
  {| randomUUID := uuidAt;
     newDate := dateAt;
     checkConnection := fun _ => true;
     generateResponse := fun _ _ _ _ =>
       inl {| ace_message := "Failed to generate response: fetch failed";
              ace_statusCode := None |};
     stopRequested := fun _ => false |}.

(** A backend whose connectivity check fails. *)
Definition unreachable : Env :=
  {| randomUUID := uuidAt;
     newDate := dateAt;
     checkConnection := fun _ => false;
     generateResponse := fun _ _ _ _ =>
       inl {| ace_message := "Failed to generate response: fetch failed";
              ace_statusCode := None |};
     stopRequested := fun _ => false |}.

Definition turns (n : Z) : Manager.CLIOptions :=
  {| Manager.opt_topic := None; Manager.opt_maxTurns := Some n |}.

(** A scheduler constructed for Alice and Bob and taken through the setup
    of [startConversation] with the prompt "Hello" and a limit of three
    turns: the manager the loop starts from. *)
Definition started (env : Env) : Manager.ConversationManager :=
  snd (Manager.startSetup env "Hello" (turns 3) (Manager.constructor env aliceBob)).

(** An append of [text] by [speaker], with a made-up identifier and instant. *)
Definition say (speaker text : string) : History.Append :=
  {| History.ap_uuid := ("uuid-" ++ text)%string;
     History.ap_now := 1700000000000;
     History.ap_name := speaker;
     History.ap_text := text;
     History.ap_meta := None |}.

(** A stand-in for [JSON.parse] that agrees with it on the one text the
    example below parses, the empty object, and refuses every other text. *)
Definition parseEmptyObject (s : string) : option Analytics.json :=
  if String.eqb s "{}" then Some (Analytics.JObject []) else None.

(** One message by Alice. *)
Definition helloWorld : History.ConversationMessage :=
  History.messageOf (say "Alice" "Hello wonderful world").

End Scenarios.

(* ===================================================================== *)
(** * Vocabulary of the statements *)
(* ===================================================================== *)

(** The last [n] elements of a list, in the list's order. *)
Definition lastN {A : Type} (n : nat) (l : list A) : list A :=
  skipn (List.length l - n) l.

(** [q] occurs in [s] as a run of consecutive characters. *)
Definition Substring (q s : string) : Prop :=
  exists pre post : string, s = (pre ++ q ++ post)%string.

(** The comparison form of a string: itself when the search is case
    sensitive, its lower-case form otherwise. *)
Definition folded (caseSensitive : bool) (s : string) : string :=
  if caseSensitive then s else JS.toLowerCase s.

(** What [search] is to keep: the query occurs in the content or in the
    speaker name, both sides in comparison form. *)
Definition Matches (query : string) (caseSensitive : bool)
    (m : History.ConversationMessage) : Prop :=
  Substring (folded caseSensitive query) (folded caseSensitive (History.content m))
  \/ Substring (folded caseSensitive query) (folded caseSensitive (History.personaName m)).

(** The test [searchMessages] applies to each message. *)
Definition keeps (query : string) (caseSensitive : bool)
    (m : History.ConversationMessage) : bool :=
  JS.includes (folded caseSensitive (History.content m)) (folded caseSensitive query)
  || JS.includes (folded caseSensitive (History.personaName m))
                 (folded caseSensitive query).

(** The backend's answer to the request [generateSummary] sends at tick [t]. *)
Definition summaryAnswer (env : Platform.Env) (t : nat)
    (messages : list History.ConversationMessage) (type : Analytics.SummaryType)
    (personas : Personas.PersonaConfig * Personas.PersonaConfig)
    : Platform.AIClientError + Platform.AIResponse :=
  Platform.generateResponse env t
    (Analytics.buildSummaryPrompt
       (JS.join (String (ascii_of_nat 10) EmptyString)
                (map History.renderMessage messages))
       type personas)
    (Some Analytics.summarySystemPrompt) None.

(** The value a field of the answer contributes: the field when it is there
    and truthy, the default otherwise. *)
Definition fieldOr (default : Analytics.json) (field : option Analytics.json)
    : Analytics.json :=
  match field with
  | Some v => if Analytics.truthy v then v else default
  | None => default
  end.

(** ** The scheduler, one iteration at a time *)

Module Turn.

Import Platform Manager.

(** The persona configured for a role. *)
Definition personaOf (cfg : Config) (k : PersonaKey) : Personas.PersonaConfig :=
  match k with
  | primary => pair_primary (personas cfg)
  | secondary => pair_secondary (personas cfg)
  end.

(** The persona whose turn it is. *)
Definition speaker (m : ConversationManager) : Personas.PersonaConfig :=
  personaOf (config m) (currentPersona (state m)).

Definition other (k : PersonaKey) : PersonaKey :=
  match k with
  | primary => secondary
  | secondary => primary
  end.

(** The roles of [n] turns that alternate, the first taken by [k]. *)
Fixpoint alternate (k : PersonaKey) (n : nat) : list PersonaKey :=
  match n with
  | O => []
  | S n' => k :: alternate (other k) n'
  end.

(** The role that is current after [n] turns that started with [k]. *)
Fixpoint otherAfter (n : nat) (k : PersonaKey) : PersonaKey :=
  match n with
  | O => k
  | S n' => otherAfter n' (other k)
  end.

(** The stop conditions at the top of an iteration. *)
Definition stopNow (m : ConversationManager) : bool :=
  match maxTurns (state m) with
  | Some n =>
      (JS.truthyNumber n && (Z.of_nat (currentTurn (state m)) >=? n))
      || negb (isRunning m)
  | None => negb (isRunning m)
  end.

(** The system instruction sent for a persona. *)
Definition systemPromptOf (p : Personas.PersonaConfig) : string :=
  match Personas.systemPrompt p with
  | Some s => if JS.truthyString s then s else buildDefaultSystemPrompt p
  | None => buildDefaultSystemPrompt p
  end.

(** The backend's answer to the request of the current iteration. *)
Definition answer (env : Env) (m : ConversationManager) : AIClientError + AIResponse :=
  let ctx := History.getContextWindow (historyManager m) in
  match buildConversationPrompt
          (JS.join (String (ascii_of_nat 10) EmptyString) (JS.slice (-10) ctx))
          (speaker m) m with
  | (inr prompt, _) =>
      generateResponse env (tick m) prompt (Some (systemPromptOf (speaker m))) (Some ctx)
  | (inl _, _) => inl {| ace_message := ""; ace_statusCode := None |}
  end.

(** The error a failed generation is wrapped in. *)
Definition generationFailed (p : Personas.PersonaConfig) (e : AIClientError) : Thrown :=
  ThrownConversationError
    {| ce_message := ("Failed to generate response for " ++ Personas.name p)%string;
       ce_code := "GENERATION_FAILED";
       ce_personaName := Some (Personas.name p);
       ce_originalError := Some e |}.

(** The manager after an iteration whose generation failed with [e]: the
    tick of the backend call is used, a stop request that arrived during
    the call is recorded, and two events are emitted. *)
Definition afterFailure (env : Env) (m : ConversationManager) (e : AIClientError)
    : ConversationManager :=
  {| config := config m;
     historyManager := historyManager m;
     state := state m;
     isRunning := if stopRequested env (tick m) then false else isRunning m;
     tick := S (tick m);
     emitted := emitted m
                ++ [EvThinking (Personas.name (speaker m));
                    EvError (generationFailed (speaker m) e)] |}.

(** The message a successful turn appends. *)
Definition turnMessage (env : Env) (m : ConversationManager) (r : AIResponse)
    : History.ConversationMessage :=
  {| History.id := randomUUID env (S (tick m));
     History.personaName := Personas.name (speaker m);
     History.content := JS.trim (ai_content r);
     History.timestamp := newDate env (S (S (tick m)));
     History.metadata :=
       Some [("turn", History.MetaNumber (Z.of_nat (currentTurn (state m))));
             ("model", History.MetaString (model (ollama (config m))))] |}.

(** The ledger after a successful turn. *)
Definition turnLedger (env : Env) (m : ConversationManager) (r : AIResponse)
    : History.ConversationHistoryManager :=
  snd (History.addMessage
         (randomUUID env (S (tick m))) (newDate env (S (S (tick m))))
         (Personas.name (speaker m)) (JS.trim (ai_content r))
         (History.metadata (turnMessage env m r)) (historyManager m)).

(** The manager after an iteration whose generation answered [r]. *)
Definition afterTurn (env : Env) (m : ConversationManager) (r : AIResponse)
    : ConversationManager :=
  {| config := config m;
     historyManager := turnLedger env m r;
     state :=
       {| isActive := isActive (state m);
          currentTurn := S (currentTurn (state m));
          history := History.getConversationHistory (turnLedger env m r);
          currentPersona := other (currentPersona (state m));
          context := History.getContextWindow (turnLedger env m r);
          maxTurns := maxTurns (state m) |};
     isRunning :=
       if stopRequested env (S (S (S (tick m)))) then false
       else if stopRequested env (tick m) then false
       else isRunning m;
     tick := S (S (S (S (tick m))));
     emitted := emitted m
                ++ [EvThinking (Personas.name (speaker m));
                    EvMessage (turnMessage env m r)] |}.

(** The messages of the [message] events of a trace, in order. *)
Fixpoint messageEvents (l : list Event) : list History.ConversationMessage :=
  match l with
  | [] => []
  | EvMessage msg :: rest => msg :: messageEvents rest
  | _ :: rest => messageEvents rest
  end.

Fixpoint errorEvents (l : list Event) : list Thrown :=
  match l with
  | [] => []
  | EvError e :: rest => e :: errorEvents rest
  | _ :: rest => errorEvents rest
  end.

Fixpoint endedEvents (l : list Event) : list (nat * Z) :=
  match l with
  | [] => []
  | EvEnded total duration :: rest => (total, duration) :: endedEvents rest
  | _ :: rest => endedEvents rest
  end.

(** The error [startConversation] throws when the connectivity check fails. *)
Definition connectionFailed : Thrown :=
  ThrownConversationError
    {| ce_message :=
         "Failed to connect to Ollama. Please ensure Ollama is running and the specified model is available.";
       ce_code := "CONNECTION_FAILED";
       ce_personaName := None;
       ce_originalError := None |}.

(** The ledger when the loop is entered: the topic of the options, if
    any, and the initial prompt appended for the speaker "User". *)
Definition setupLedger (env : Env) (initialPrompt : string) (options : CLIOptions)
    (m : ConversationManager) : History.ConversationMessage * History.ConversationHistoryManager :=
  History.addMessage
    (randomUUID env (S (tick m))) (newDate env (S (S (tick m))))
    "User" initialPrompt None
    (match opt_topic options with
     | Some t => if JS.truthyString t then History.setTopic t (historyManager m)
                 else historyManager m
     | None => historyManager m
     end).

(** The manager when the loop is entered, after a connectivity check that
    succeeded. *)
Definition afterSetup (env : Env) (initialPrompt : string) (options : CLIOptions)
    (m : ConversationManager) : ConversationManager :=
  {| config := config m;
     historyManager := snd (setupLedger env initialPrompt options m);
     state :=
       {| isActive := true;
          currentTurn := 0%nat;
          history := history (state m);
          currentPersona := currentPersona (state m);
          context := context (state m);
          maxTurns :=
            match opt_maxTurns options with
            | Some n => if JS.truthyNumber n then Some n else maxTurns (state m)
            | None => maxTurns (state m)
            end |};
     isRunning := true;
     tick := S (S (S (tick m)));
     emitted := emitted m
                ++ [EvStarted; EvMessage (fst (setupLedger env initialPrompt options m))] |}.

(** The manager after [endConversation()]. *)
Definition afterEnd (env : Env) (m : ConversationManager) : ConversationManager :=
  {| config := config m;
     historyManager := History.endConversation (newDate env (tick m)) (historyManager m);
     state := set_isActive false (state m);
     isRunning := false;
     tick := S (tick m);
     emitted := emitted m
                ++ [EvEnded (History.totalMessages (History.history (historyManager m)))
                            (newDate env (tick m)
                             - History.startTime (History.history (historyManager m)))] |}.

(** The manager an outcome carries: the one the call left, or the one the
    loop had reached when its fuel ran out. *)
Definition managerOf (o : Outcome) : ConversationManager :=
  match o with
  | Finished _ m => m
  | OutOfFuel m => m
  end.

End Turn.

(** Runs the record updates of the manager in the goal. *)
Ltac run_setters :=
  unfold Manager.ret, Manager.emit, Manager.modify, Manager.add_event,
    Manager.set_isRunning, Manager.set_tick, Manager.set_historyManager,
    Manager.set_state, Manager.set_isActive, Manager.set_currentTurn,
    Manager.set_currentPersona, Manager.set_maxTurns, Manager.set_snapshot;
  cbn.

(** ** Ledgers under sequences of operations *)

(** The operations that change a ledger. *)
Inductive LedgerOp : Type :=
| OpAdd (a : History.Append)
| OpClear (now : Z)
| OpSetTopic (t : string)
| OpEnd (now : Z).

Definition applyOp (hm : History.ConversationHistoryManager) (op : LedgerOp)
    : History.ConversationHistoryManager :=
  match op with
  | OpAdd a => History.addMessage' hm a
  | OpClear now => History.clear now hm
  | OpSetTopic t => History.setTopic t hm
  | OpEnd now => History.endConversation now hm
  end.

Definition applyOps (hm : History.ConversationHistoryManager) (ops : list LedgerOp)
    : History.ConversationHistoryManager :=
  fold_left applyOp ops hm.

(** The bounds every operation on a ledger keeps. *)
Definition Bounded (hm : History.ConversationHistoryManager) : Prop :=
  (List.length (History.messages (History.history hm)) <= Z.to_nat (History.maxMessages hm))%nat
  /\ (List.length (History.messages (History.history hm))
      <= History.totalMessages (History.history hm))%nat.

(** The property names every object inherits from [Object.prototype]: a
    counting object [{}] reads them as present before any is counted. *)
Definition inheritedNames : list string :=
  ["constructor"; "__proto__"; "hasOwnProperty"; "isPrototypeOf";
   "propertyIsEnumerable"; "toLocaleString"; "toString"; "valueOf";
   "__defineGetter__"; "__defineSetter__"; "__lookupGetter__";
   "__lookupSetter__"].

(** Keys that a counting object counts from zero. *)
Definition plainKeys (ks : list string) : bool :=
  forallb (fun k => negb (existsb (String.eqb k) inheritedNames)) ks.

(** The operations that leave the start and the end of a ledger alone. *)
Definition keepsClock (op : LedgerOp) : bool :=
  match op with
  | OpAdd _ | OpSetTopic _ => true
  | OpClear _ | OpEnd _ => false
  end.

(** Counting a list of keys, one after the other. *)
Definition countAll (ws : list string) (acc : list (string * nat))
    : list (string * nat) :=
  fold_left (fun acc w => Analytics.count w acc) ws acc.

(** The keys of a registry. *)
Definition keysOf (pm : Personas.PersonaManager) : list string :=
  map fst (Personas.personas pm).

(** A key that [toLowerCase] leaves as it is. *)
Definition isLowerKey (kv : string * Personas.PersonaConfig) : bool :=
  String.eqb (JS.toLowerCase (fst kv)) (fst kv).

(** The turn limit a conversation runs under: the one of the options when
    it is given and not zero, else the one of the configuration when it is
    given and not zero. *)
Definition effectiveLimit (cfg : Manager.Config) (options : Manager.CLIOptions)
    : option Z :=
  let configured :=
    match Manager.cfg_maxTurns (Manager.conversation cfg) with
    | Some n => if JS.truthyNumber n then Some n else None
    | None => None
    end in
  match Manager.opt_maxTurns options with
  | Some n => if JS.truthyNumber n then Some n else configured
  | None => configured
  end.

(** An error of the kind a failed generation is wrapped in. *)
Definition isGenerationFailed (e : Platform.Thrown) : Prop :=
  exists ce : Platform.ConversationError,
    e = Platform.ThrownConversationError ce
    /\ Platform.ce_code ce = "GENERATION_FAILED".

(** What a run leaves behind, from the manager [m] it started with to the
    manager [m'] it ended with. *)
Definition RunSummary (env : Platform.Env) (m m' : Manager.ConversationManager) : Prop :=
  Manager.isRunning m' = false
  /\ Manager.isActive (Manager.state m') = false
  /\ Manager.config m' = Manager.config m
  /\ exists (generated : list History.ConversationMessage)
            (failures : list Platform.Thrown) (t : nat),
      Turn.messageEvents (Manager.emitted m')
      = Turn.messageEvents (Manager.emitted m) ++ generated
      /\ Turn.errorEvents (Manager.emitted m')
         = Turn.errorEvents (Manager.emitted m) ++ failures
      /\ Forall isGenerationFailed failures
      /\ Manager.currentTurn (Manager.state m')
         = (Manager.currentTurn (Manager.state m) + List.length generated)%nat
      /\ History.getTotalMessages (Manager.historyManager m')
         = (History.getTotalMessages (Manager.historyManager m)
            + List.length generated)%nat
      /\ (Manager.tick m <= t)%nat
      /\ History.endTime (History.history (Manager.historyManager m'))
         = Some (Platform.newDate env t)
      /\ Turn.endedEvents (Manager.emitted m')
         = Turn.endedEvents (Manager.emitted m)
           ++ [(History.getTotalMessages (Manager.historyManager m'),
                Platform.newDate env t
                - History.startTime (History.history (Manager.historyManager m)))].

(** A backend that answers every request and during whose first answer
    (the read at tick 4 of a scheduler just started) a stop is requested. *)
Definition interrupted : Platform.Env :=
  {| Platform.randomUUID := Scenarios.uuidAt;
     Platform.newDate := Scenarios.dateAt;
     Platform.checkConnection := fun _ => true;
     Platform.generateResponse := Platform.generateResponse Scenarios.answering;
     Platform.stopRequested := fun t => Nat.eqb t 4 |}.

(** What the state's snapshot of the ledger shows at the end of a run that
    went from [m] to [m']: nothing new when no turn was completed, and
    else the ledger as the last completed turn left it. *)
Definition SnapshotAtEnd (env : Platform.Env) (m m' : Manager.ConversationManager)
    : Prop :=
  (Manager.currentTurn (Manager.state m') = Manager.currentTurn (Manager.state m) ->
   Manager.history (Manager.state m') = Manager.history (Manager.state m)
   /\ Manager.context (Manager.state m') = Manager.context (Manager.state m)
   /\ exists t : nat,
       Manager.historyManager m'
       = History.endConversation (Platform.newDate env t) (Manager.historyManager m))
  /\ ((Manager.currentTurn (Manager.state m) < Manager.currentTurn (Manager.state m'))%nat ->
      History.messages (Manager.history (Manager.state m'))
      = History.getMessages (Manager.historyManager m')
      /\ History.totalMessages (Manager.history (Manager.state m'))
         = History.getTotalMessages (Manager.historyManager m')
      /\ Manager.context (Manager.state m')
         = History.getContextWindow (Manager.historyManager m')
      /\ History.endTime (Manager.history (Manager.state m'))
         = History.endTime (History.history (Manager.historyManager m))).

(** The words [extractKeywords] counts: the pieces of the lower-cased text,
    punctuation read as white space, that have more than three characters
    and are not common words. *)
Definition candidateWords (text : string) : list string :=
  filter
    (fun word =>
       (3 <? String.length word)%nat
       && negb (existsb (String.eqb word) Analytics.commonWords))
    (Analytics.splitWhiteSpace (Analytics.stripPunctuation (JS.toLowerCase text))).

(** The distinct words of a list by falling number of occurrences, as
    [extractKeywords] and [getTopTopics] rank them. *)
Definition ranking (ws : list string) : list string :=
  Analytics.sortByCount (countAll ws []) (Analytics.objectKeys (countAll ws [])).

(** [a] occurs in [ws] at least as often as [b]. *)
Definition byFrequency (ws : list string) (a b : string) : Prop :=
  (count_occ string_dec ws b <= count_occ string_dec ws a)%nat.

(** The pieces of a string between the occurrences of a separator, by
    recursion on the string. *)
Fixpoint pieces (sep : ascii) (s : string) : list string :=
  match s with
  | EmptyString => [EmptyString]
  | String c s' =>
      if Ascii.eqb c sep then EmptyString :: pieces sep s'
      else match pieces sep s' with
           | p :: ps => String c p :: ps
           | [] => [String c EmptyString]
           end
  end.

(** The strings of a list that are not empty. *)
Definition nonEmpty (l : list string) : list string := filter JS.truthyString l.

(** A line of wrapped text: not empty, and within the width unless it is
    one word of the text. *)
Definition fitsOrSingle (words : list string) (body : string) : Prop :=
  body <> EmptyString
  /\ ((String.length body <= Formatter.maxWidth)%nat \/ In body words).

(** What the loop of [formatContent] keeps true: [seen] are the words read
    so far. *)
Definition Wrapped (words : list string) (w : Formatter.Wrap) (seen : list string) : Prop :=
  exists bodies : list string,
    Formatter.lines w = map (append "  ") bodies
    /\ Forall (fitsOrSingle words) bodies
    /\ (Formatter.currentLine w = EmptyString \/ fitsOrSingle words (Formatter.currentLine w))
    /\ nonEmpty (flat_map (pieces " "%char) bodies ++ pieces " "%char (Formatter.currentLine w))
       = nonEmpty seen.

(** The hash of a string without the reduction to 32 bits: each character
    adds its code to 31 times the hash so far. *)
Definition polyHash (l : list ascii) (h : Z) : Z :=
  fold_left (fun h c => 31 * h + Z.of_nat (nat_of_ascii c)) l h.

(** The number of messages of a list that a speaker authored. *)
Definition authored (name : string) (l : list History.ConversationMessage) : nat :=
  List.length (filter (fun m => String.eqb (History.personaName m) name) l).

(** The total of the counts of a table. *)
Definition tableTotal (tbl : list (string * nat)) : nat :=
  fold_right (fun kv n => (snd kv + n)%nat) 0%nat tbl.

(** A string of white space only (the empty string included). *)
Definition Blank (s : string) : Prop :=
  forall c : ascii, In c (list_ascii_of_string s) -> JS.isWhiteSpace c = true.

(* ===================================================================== *)
(** * Properties of the ledger *)
(* ===================================================================== *)

Section ListFacts.

Context {A : Type}.

Lemma lastN_all (n : nat) (l : list A) :
  (List.length l <= n)%nat -> lastN n l = l.
Proof.
  intros H. unfold lastN.
  replace (List.length l - n)%nat with 0%nat by lia. reflexivity.
Qed.

Lemma lastN_length (n : nat) (l : list A) :
  List.length (lastN n l) = Nat.min n (List.length l).
Proof. unfold lastN. rewrite length_skipn. lia. Qed.

Lemma lastN_zero (l : list A) : lastN 0 l = [].
Proof. unfold lastN. rewrite Nat.sub_0_r. apply skipn_all. Qed.

(** Trimming to the last [n] commutes with one more push. *)
Lemma lastN_push (n : nat) (l : list A) (x : A) :
  lastN n (lastN n l ++ [x]) = lastN n (l ++ [x]).
Proof.
  destruct (Nat.le_gt_cases (List.length l) n) as [Hle | Hgt].
  - now rewrite (lastN_all n l Hle).
  - unfold lastN at 1 3.
    rewrite !length_app, lastN_length, !skipn_app, lastN_length.
    cbn [List.length]. unfold lastN. rewrite skipn_skipn.
    replace (Nat.min n (List.length l)) with n by lia.
    f_equal; f_equal; lia.
Qed.

End ListFacts.

Section LedgerFacts.

Import History.

(** What one [addMessage] leaves retained: the last [maxMessages] of the
    old messages followed by the new one. *)
Lemma addMessage_messages (hm : ConversationHistoryManager) (a : Append) :
  messages (history (addMessage' hm a))
  = lastN (Z.to_nat (maxMessages hm)) (messages (history hm) ++ [messageOf a]).
Proof.
  unfold addMessage', addMessage, messageOf. cbn.
  set (pushed := messages (history hm) ++ _).
  destruct (Z.gtb_spec (Z.of_nat (List.length pushed)) (maxMessages hm)) as [Hgt | Hle].
  - unfold lastN. f_equal. lia.
  - symmetry. apply lastN_all. lia.
Qed.

Lemma addMessage_total (hm : ConversationHistoryManager) (a : Append) :
  totalMessages (history (addMessage' hm a)) = S (totalMessages (history hm)).
Proof. reflexivity. Qed.

Lemma addMessage_maxMessages (hm : ConversationHistoryManager) (a : Append) :
  maxMessages (addMessage' hm a) = maxMessages hm.
Proof. reflexivity. Qed.

(** The ledger after a run of appends, from any ledger whose retained
    messages are the trimmed form of [old]. *)
Lemma addMessages_from (l : list Append) :
  forall (hm : ConversationHistoryManager) (old : list ConversationMessage),
    messages (history hm) = lastN (Z.to_nat (maxMessages hm)) old ->
    messages (history (addMessages hm l))
    = lastN (Z.to_nat (maxMessages hm)) (old ++ map messageOf l)
    /\ totalMessages (history (addMessages hm l))
       = (totalMessages (history hm) + List.length l)%nat
    /\ maxMessages (addMessages hm l) = maxMessages hm.
Proof.
  induction l as [| a l IH]; intros hm old Hold.
  - cbn. rewrite app_nil_r, Nat.add_0_r. auto.
  - cbn [addMessages fold_left map List.length].
    destruct (IH (addMessage' hm a) (old ++ [messageOf a])) as (Hm & Ht & Hx).
    + rewrite addMessage_messages, addMessage_maxMessages, Hold. apply lastN_push.
    + unfold addMessages in *. rewrite Hm, Ht, Hx.
      rewrite addMessage_maxMessages, addMessage_total, <- app_assoc.
      cbn [app]. repeat split. lia.
Qed.

(** ** C2 *)

(** C2 (ledger retention).  After any sequence of appends to a fresh
    ledger with retention limit [maxRetain], the total-message counter is
    the number of appends, the retained messages are exactly the last
    min(N, maxRetain) messages appended, in append order, and there are
    min(N, maxRetain) of them (none when the limit is negative).  With a
    limit of 3, five appends of "Message 1" to "Message 5" leave the
    contents "Message 3", "Message 4", "Message 5" and a counter of 5. *)
Theorem C2_append_retention :
  forall (now : Z) (topic0 : option string) (maxRetain window : Z)
         (l : list Append) (speaker : string -> string),
    let fresh := constructor now topic0 maxRetain window in
    let n := Z.to_nat (Z.min (Z.of_nat (List.length l)) maxRetain) in
    getTotalMessages (addMessages fresh l) = List.length l
    /\ getMessages (addMessages fresh l) = lastN n (map messageOf l)
    /\ List.length (getMessages (addMessages fresh l)) = n
    /\ (let five :=
          map (fun text => Scenarios.say (speaker text) text)
              ["Message 1"; "Message 2"; "Message 3"; "Message 4"; "Message 5"] in
        map content (getMessages (addMessages (constructor now topic0 3 window) five))
        = ["Message 3"; "Message 4"; "Message 5"]
        /\ getTotalMessages (addMessages (constructor now topic0 3 window) five) = 5%nat).
Proof.
  intros now topic0 maxRetain window l speaker fresh n.
  destruct (addMessages_from l fresh []) as (Hm & Ht & _).
  { unfold lastN. reflexivity. }
  cbn [app] in Hm. cbn in Ht.
  change (maxMessages fresh) with maxRetain in Hm.
  assert (Hn : lastN (Z.to_nat maxRetain) (map messageOf l) = lastN n (map messageOf l)).
  { subst n. destruct (Z.le_gt_cases (Z.of_nat (List.length l)) maxRetain).
    - rewrite Z.min_l by lia. rewrite !lastN_all; rewrite ?length_map; auto; lia.
    - rewrite Z.min_r by lia. reflexivity. }
  unfold getTotalMessages, getMessages.
  split; [exact Ht |].
  split; [rewrite Hm; exact Hn |].
  split; [rewrite Hm, Hn, lastN_length, length_map; subst n; lia |].
  split; reflexivity.
Qed.

End LedgerFacts.

Section LastMessagesFacts.

Import History.

(** ** C8 *)

(** C8 (last messages).  For every ledger and every integer [count],
    [getLastMessages count] is the last min(count, retained length)
    retained messages in ledger order, a negative count counting as zero;
    a count of zero or below gives the empty sequence, and a count of at
    least the retained length gives all retained messages. *)
Theorem C8_last_messages :
  forall (hm : ConversationHistoryManager) (count : Z) (p : positive) (k : nat),
    let retained := getMessages hm in
    let len := Z.of_nat (List.length retained) in
    getLastMessages count hm
    = lastN (Z.to_nat (Z.min (Z.max count 0) len)) retained
    /\ getLastMessages 0 hm = []
    /\ getLastMessages (Z.neg p) hm = []
    /\ getLastMessages (len + Z.of_nat k) hm = retained.
Proof.
  intros hm count p k retained len.
  assert (Hgen : forall c : Z,
             getLastMessages c hm
             = lastN (Z.to_nat (Z.min (Z.max c 0) len)) retained).
  { intros c. unfold getLastMessages, JS.slice, lastN.
    fold (getMessages hm). fold retained. fold len.
    destruct (Z.ltb_spec (Z.max 0 (len - c)) 0) as [Hneg | _]; [lia |].
    f_equal. subst len. lia. }
  split; [apply Hgen |].
  split; [rewrite Hgen; replace (Z.min (Z.max 0 0) len) with 0 by lia;
          apply lastN_zero |].
  split.
  - rewrite Hgen. replace (Z.min (Z.max (Z.neg p) 0) len) with 0 by lia.
    apply lastN_zero.
  - rewrite Hgen. apply lastN_all. subst len. lia.
Qed.

End LastMessagesFacts.

Section SearchFacts.

Import History.

Lemma startsWith_spec (q : string) :
  forall s : string,
    JS.startsWith s q = true <-> exists post : string, s = (q ++ post)%string.
Proof.
  induction q as [| a q IH]; intros s.
  - destruct s; cbn; split; intros; try reflexivity; eexists; reflexivity.
  - destruct s as [| b s]; cbn.
    + split; [discriminate | intros [post H]; discriminate].
    + rewrite andb_true_iff, Ascii.eqb_eq, IH. split.
      * intros [-> [post ->]]. now exists post.
      * intros [post H]. injection H as -> ->. split; [reflexivity | now exists post].
Qed.

Lemma includes_spec (q : string) :
  forall s : string, JS.includes s q = true <-> Substring q s.
Proof.
  unfold Substring.
  induction s as [| c s IH].
  - cbn [JS.includes]. rewrite orb_false_r, startsWith_spec. split.
    + intros [post H]. exists EmptyString, post. exact H.
    + intros [pre [post H]]. destruct pre as [| x pre]; [| discriminate].
      now exists post.
  - cbn [JS.includes]. rewrite orb_true_iff, startsWith_spec, IH. split.
    + intros [[post H] | [pre [post H]]].
      * exists EmptyString, post. exact H.
      * exists (String c pre), post. cbn. now rewrite H.
    + intros [pre [post H]]. destruct pre as [| x pre].
      * left. now exists post.
      * right. cbn in H. injection H as _ H. now exists pre, post.
Qed.

Lemma keeps_spec (query : string) (caseSensitive : bool) (m : ConversationMessage) :
  keeps query caseSensitive m = true <-> Matches query caseSensitive m.
Proof.
  unfold keeps, Matches. now rewrite orb_true_iff, !includes_spec.
Qed.

Lemma searchMessages_filter (query : string) (caseSensitive : bool)
    (hm : ConversationHistoryManager) :
  searchMessages query caseSensitive hm
  = filter (keeps query caseSensitive) (getMessages hm).
Proof. unfold searchMessages, keeps, folded. now destruct caseSensitive. Qed.

(** ** C9 *)

(** C9 (search).  For every ledger and query, [searchMessages] returns the
    retained messages whose content or speaker name contains the query as a
    substring, both sides lower-cased unless the search is case sensitive:
    it is the ledger's sequence filtered by that test, so ledger order is
    kept and nothing else is returned.  Searching "hello" with the default
    case-insensitive setting keeps "Hello world" and "Hello everyone" and
    drops "Goodbye". *)
Theorem C9_search :
  forall (hm : ConversationHistoryManager) (query : string) (caseSensitive : bool)
         (now : Z),
    (exists keep : ConversationMessage -> bool,
        (forall m, keep m = true <-> Matches query caseSensitive m)
        /\ searchMessages query caseSensitive hm = filter keep (getMessages hm))
    /\ (forall m,
           In m (searchMessages query caseSensitive hm)
           <-> In m (getMessages hm) /\ Matches query caseSensitive m)
    /\ map content
         (searchMessages "hello" false
            (addMessages (constructor now None default_maxMessages default_maxContextWindow)
               [Scenarios.say "Alice" "Hello world"; Scenarios.say "Bob" "Goodbye";
                Scenarios.say "Charlie" "Hello everyone"]))
       = ["Hello world"; "Hello everyone"].
Proof.
  intros hm query caseSensitive now.
  split; [| split].
  - exists (keeps query caseSensitive). split.
    + intros m. apply keeps_spec.
    + apply searchMessages_filter.
  - intros m. rewrite searchMessages_filter, filter_In, keeps_spec. reflexivity.
  - reflexivity.
Qed.

End SearchFacts.

(* ===================================================================== *)
(** * Properties of the persona registry *)
(* ===================================================================== *)

Section InsertionSortFacts.

Import Personas.

Lemma insertBy_permutes (x : PersonaConfig) (l : list PersonaConfig) :
  forall rs : list comparison, Permutation (x :: l) (fst (insertBy x l rs)).
Proof.
  induction l as [| y l IH]; intros rs; cbn [insertBy].
  - apply Permutation_refl.
  - destruct rs as [| [ | | ] rs']; cbn [fst]; try apply Permutation_refl.
    specialize (IH rs'). destruct (insertBy x l rs') as [l' rs'']. cbn [fst] in *.
    eapply Permutation_trans; [apply perm_swap |]. now apply perm_skip.
Qed.

Lemma insertionSortBy_permutes (l : list PersonaConfig) :
  forall (acc : list PersonaConfig) (rs : list comparison),
    Permutation (l ++ acc)
      (fst (fold_left (fun st x => insertBy x (fst st) (snd st)) l (acc, rs))).
Proof.
  induction l as [| a l IH]; intros acc rs; cbn [fold_left app fst snd].
  - apply Permutation_refl.
  - pose proof (insertBy_permutes a acc rs) as Ha.
    destruct (insertBy a acc rs) as [acc' rs'] eqn:E. cbn [fst] in Ha.
    eapply Permutation_trans; [| apply IH].
    eapply Permutation_trans; [apply Permutation_middle |].
    now apply Permutation_app_head.
Qed.

Lemma insertionSortRandom_permutes (rs : list comparison) (l : list PersonaConfig) :
  Permutation l (insertionSortRandom rs l).
Proof.
  unfold insertionSortRandom, insertionSortBy.
  eapply Permutation_trans; [| apply Permutation_rev].
  pose proof (insertionSortBy_permutes l [] rs) as H.
  now rewrite app_nil_r in H.
Qed.

End InsertionSortFacts.

Section RandomPairFacts.

Import Personas.

Variable RandomSource : Type.
Variable sortRandom : RandomSource -> list PersonaConfig -> list PersonaConfig.

(** What the program relies on from the engine's [sort], whatever the
    comparator answers: the result holds the elements it was given. *)
Hypothesis sort_permutes :
  forall (rs : RandomSource) (l : list PersonaConfig), Permutation l (sortRandom rs l).

(** ** C10 *)

(** C10 (random pair).  With fewer than two entries in the registry
    [getRandomPersonaPair] throws its insufficient-personas error; with
    exactly two entries it returns, for every outcome of the random
    source, the personas of the two slots, in one order or the other. *)
Theorem C10_random_pair :
  (forall (rs : RandomSource) (pm : PersonaManager),
      (List.length (personas pm) < 2)%nat ->
      getRandomPersonaPair RandomSource sortRandom rs pm
      = inl (InsufficientPersonas "At least 2 personas are required for a conversation"))
  /\ (forall (rs : RandomSource) (k1 k2 : string) (p1 p2 : PersonaConfig),
         let pm := {| personas := [(k1, p1); (k2, p2)] |} in
         getRandomPersonaPair RandomSource sortRandom rs pm = inr (Some p1, Some p2)
         \/ getRandomPersonaPair RandomSource sortRandom rs pm = inr (Some p2, Some p1)).
Proof.
  split.
  - intros rs pm Hlen. unfold getRandomPersonaPair, getAllPersonas.
    rewrite length_map.
    destruct (Nat.ltb_spec (List.length (personas pm)) 2) as [_ | Hge]; [reflexivity | lia].
  - intros rs k1 k2 p1 p2 pm. unfold getRandomPersonaPair, getAllPersonas.
    cbn [pm personas map snd List.length Nat.ltb Nat.leb].
    pose proof (sort_permutes rs [p1; p2]) as Hperm.
    pose proof (Permutation_length Hperm) as Hlen.
    destruct (sortRandom rs [p1; p2]) as [| a [| b [| c rest]]]; try discriminate Hlen.
    cbn [nth_error].
    assert (Ha : In a [p1; p2]).
    { apply (Permutation_in a (Permutation_sym Hperm)). now left. }
    destruct Ha as [<- | [<- | []]].
    + apply Permutation_cons_inv in Hperm.
      apply Permutation_length_1 in Hperm. subst b. now left.
    + assert (Hp : Permutation [p2; p1] [p2; b]).
      { eapply Permutation_trans; [apply perm_swap | exact Hperm]. }
      apply Permutation_cons_inv in Hp.
      apply Permutation_length_1 in Hp. subst b. now right.
Qed.

End RandomPairFacts.

(** The statement of C10 at the insertion sort, on the empty registry and
    on the registry of Alice and Bob when the comparator answers a negative
    number. *)
Lemma C10_random_pair_witness :
  Personas.getRandomPersonaPair (list comparison) Personas.insertionSortRandom [Lt]
    {| Personas.personas := [] |}
  = inl (Personas.InsufficientPersonas "At least 2 personas are required for a conversation")
  /\ (Personas.getRandomPersonaPair (list comparison) Personas.insertionSortRandom [Lt]
        {| Personas.personas := [("alice", Personas.alice); ("bob", Personas.bob)] |}
      = inr (Some Personas.alice, Some Personas.bob)
      \/ Personas.getRandomPersonaPair (list comparison) Personas.insertionSortRandom [Lt]
           {| Personas.personas := [("alice", Personas.alice); ("bob", Personas.bob)] |}
         = inr (Some Personas.bob, Some Personas.alice)).
Proof.
  destruct (C10_random_pair (list comparison) Personas.insertionSortRandom
              insertionSortRandom_permutes) as [Hfew Htwo].
  split.
  - apply Hfew. cbn. lia.
  - apply (Htwo [Lt] "alice" "bob" Personas.alice Personas.bob).
Defined.

(* ===================================================================== *)
(** * Properties of the summaries *)
(* ===================================================================== *)

Section SummaryFacts.

Import Platform Analytics.

Variable JSON_parse : string -> option json.

Lemma generateSummary_nonempty (env : Env) (t : nat)
    (messages : list History.ConversationMessage) (type : SummaryType)
    (personas : Personas.PersonaConfig * Personas.PersonaConfig) :
  messages <> [] ->
  generateSummary JSON_parse env t messages type personas
  = match summaryAnswer env t messages type personas with
    | inr response =>
        inr (parseSummaryResponse JSON_parse env (S t) (ai_content response) messages type)
    | inl _ => inr (generateBasicSummary env (S t) messages type)
    end.
Proof.
  intros Hne. destruct messages as [| m ms]; [congruence |]. reflexivity.
Qed.

(** ** C7 *)

(** C7 (summary fallback), as amended.  [generateSummary] throws exactly
    when it is given no messages.  On a non-empty list it always returns a
    summary: the local fallback summary when the backend call fails, when
    the answer is not valid JSON, and when the answer is the JSON value
    null; for any other valid JSON answer it returns a summary assembled
    from the answer, where a missing or falsy [summary] becomes "Summary not
    available", a [keyTopics] that is not an array becomes the empty list
    and a missing or falsy [contributions] becomes the empty object.  The
    fallback is a total function: it returns a summary for every input. *)
Theorem C7_summary_fallback :
  forall (env : Env) (t : nat) (messages : list History.ConversationMessage)
         (type : SummaryType)
         (personas : Personas.PersonaConfig * Personas.PersonaConfig),
    let result := generateSummary JSON_parse env t messages type personas in
    let answer := summaryAnswer env t messages type personas in
    ((exists e, result = inl e) <-> messages = [])
    /\ (messages <> [] ->
        (exists s, result = inr s)
        /\ (forall e, answer = inl e ->
               result = inr (generateBasicSummary env (S t) messages type))
        /\ (forall r, answer = inr r -> JSON_parse (ai_content r) = None ->
               result = inr (generateBasicSummary env (S t) messages type))
        /\ (forall r, answer = inr r -> JSON_parse (ai_content r) = Some JNull ->
               result = inr (generateBasicSummary env (S (S t)) messages type))
        /\ (forall r v, answer = inr r -> JSON_parse (ai_content r) = Some v ->
               v <> JNull ->
               exists s, result = inr (s, S (S (S t)))
                 /\ sum_type s = type
                 /\ sum_content s
                    = fieldOr (JString "Summary not available")
                        (match v with JObject props => lookupProp "summary" props
                                    | _ => None end)
                 /\ sum_keyTopics s
                    = match v with
                      | JObject props =>
                          match lookupProp "keyTopics" props with
                          | Some (JArray l) => l
                          | _ => []
                          end
                      | _ => []
                      end
                 /\ sum_participantContributions s
                    = fieldOr (JObject [])
                        (match v with JObject props => lookupProp "contributions" props
                                    | _ => None end)))
    /\ (exists s, generateBasicSummary env t messages type = (s, S (S t))).
Proof.
  intros env t messages type personas result answer.
  split; [| split].
  - subst result. split.
    + intros [e He]. destruct messages as [| m ms]; [reflexivity |].
      rewrite generateSummary_nonempty in He by discriminate.
      destruct (summaryAnswer env t (m :: ms) type personas); discriminate.
    + intros ->. eexists. reflexivity.
  - intros Hne. subst result answer.
    rewrite (generateSummary_nonempty env t messages type personas Hne).
    destruct (summaryAnswer env t messages type personas) as [e | r].
    + split; [eexists; reflexivity |].
      repeat split; intros; try discriminate; reflexivity.
    + split; [eexists; reflexivity |].
      split; [intros; discriminate |].
      split; [| split].
      * intros r' Hr Hp. injection Hr as <-.
        unfold parseSummaryResponse. now rewrite Hp.
      * intros r' Hr Hp. injection Hr as <-.
        unfold parseSummaryResponse. now rewrite Hp.
      * intros r' v Hr Hp Hv. injection Hr as <-.
        unfold parseSummaryResponse. rewrite Hp.
        destruct v; try congruence; cbn [getProp]; eexists;
          (split; [reflexivity |]); repeat split; reflexivity.
  - eexists. reflexivity.
Qed.

End SummaryFacts.

(** Counterexample to C7 as stated.  The backend answers the text of the
    empty JSON object, which is valid JSON and not of the expected shape.
    [generateSummary] does not return the fallback summary: it returns the
    placeholder content "Summary not available" with no topics and no
    contributions, where the fallback for the same message has the content
    spelled out below. *)
Lemma C7_counterexample :
  exists (s : Analytics.ConversationSummary) (t : nat),
    Analytics.generateSummary Scenarios.parseEmptyObject (Scenarios.answeringWith "{}")
      0%nat [Scenarios.helloWorld] Analytics.final (Personas.alice, Personas.bob)
    = inr (s, t)
    /\ Analytics.sum_content s = Analytics.JString "Summary not available"
    /\ Analytics.sum_keyTopics s = []
    /\ Analytics.sum_participantContributions s = Analytics.JObject []
    /\ Analytics.sum_content
         (fst (Analytics.generateBasicSummary (Scenarios.answeringWith "{}") 1%nat
                 [Scenarios.helloWorld] Analytics.final))
       = Analytics.JString
           "Conversation summary: 1 messages exchanged between Alice. Key topics discussed: hello, wonderful, world."
    /\ (forall t' : nat,
           fst (Analytics.generateBasicSummary (Scenarios.answeringWith "{}") t'
                  [Scenarios.helloWorld] Analytics.final) <> s).
Proof.
  eexists. eexists. split; [reflexivity |].
  repeat split; try reflexivity.
  intros t' H. apply (f_equal Analytics.sum_content) in H. discriminate H.
Qed.

(* ===================================================================== *)
(** * Properties of the turn scheduler *)
(* ===================================================================== *)

Section SchedulerFacts.

Import Platform Manager Turn.

Lemma messageEvents_app (l1 l2 : list Event) :
  messageEvents (l1 ++ l2) = messageEvents l1 ++ messageEvents l2.
Proof.
  induction l1 as [| e l1 IH]; [reflexivity |].
  destruct e; cbn; now rewrite IH.
Qed.

Lemma errorEvents_app (l1 l2 : list Event) :
  errorEvents (l1 ++ l2) = errorEvents l1 ++ errorEvents l2.
Proof.
  induction l1 as [| e l1 IH]; [reflexivity |].
  destruct e; cbn; now rewrite IH.
Qed.

Lemma endedEvents_app (l1 l2 : list Event) :
  endedEvents (l1 ++ l2) = endedEvents l1 ++ endedEvents l2.
Proof.
  induction l1 as [| e l1 IH]; [reflexivity |].
  destruct e; cbn; now rewrite IH.
Qed.

(** The value of [shouldStopConversation()], which leaves the manager as
    it was. *)
Lemma shouldStopConversation_stopNow (m : ConversationManager) :
  shouldStopConversation m = (inr (stopNow m), m).
Proof.
  unfold shouldStopConversation, stopNow, bind, get, ret.
  destruct (maxTurns (state m)) as [n |].
  - destruct (JS.truthyNumber n && (Z.of_nat (currentTurn (state m)) >=? n));
      cbn; [reflexivity |]. now destruct (isRunning m).
  - cbn. now destruct (isRunning m).
Qed.

(** What [generatePersonaResponse] comes to, by the backend's answer: in
    both cases the tick of the call is used and a stop request that arrived
    during the call is recorded. *)
Lemma generatePersonaResponse_cases (env : Env) (m : ConversationManager) :
  generatePersonaResponse env (speaker m) m
  = (match answer env m with
     | inr r => inr (JS.trim (ai_content r))
     | inl e => inl (generationFailed (speaker m) e)
     end,
     {| config := config m;
        historyManager := historyManager m;
        state := state m;
        isRunning := if stopRequested env (tick m) then false else isRunning m;
        tick := S (tick m);
        emitted := emitted m |}).
Proof.
  unfold generatePersonaResponse, answer, tryCatch, bind, get, ret,
    buildConversationPrompt, readTick, suspended, modify, throw, systemPromptOf.
  cbn.
  destruct (generateResponse env (tick m) _ _ _) as [e | r]; reflexivity.
Qed.

Lemma History_addMessage_pair (uuid : string) (now : Z) (name text : string)
    (meta : option History.Metadata) (hm : History.ConversationHistoryManager) :
  History.addMessage uuid now name text meta hm
  = ({| History.id := uuid; History.personaName := name; History.content := text;
        History.timestamp := now; History.metadata := meta |},
     snd (History.addMessage uuid now name text meta hm)).
Proof. reflexivity. Qed.

(** [addMessage] of the manager: two reads of the platform and the
    ledger's append. *)
Lemma addMessage_run (env : Env) (name text : string) (meta : option History.Metadata)
    (m : ConversationManager) :
  addMessage env name text meta m
  = (inr {| History.id := randomUUID env (tick m); History.personaName := name;
            History.content := text; History.timestamp := newDate env (S (tick m));
            History.metadata := meta |},
     {| config := config m;
        historyManager :=
          snd (History.addMessage (randomUUID env (tick m)) (newDate env (S (tick m)))
                 name text meta (historyManager m));
        state := state m;
        isRunning := isRunning m;
        tick := S (S (tick m));
        emitted := emitted m |}).
Proof.
  unfold addMessage, bind, readTick, get, modify, ret.
  cbn -[History.addMessage].
  rewrite History_addMessage_pair. reflexivity.
Qed.

(** One pass through the loop body, in its three cases: a stop condition
    holds, the generation fails, the generation answers. *)
Lemma loopBody_cases (env : Env) (m : ConversationManager) :
  loopBody env m
  = if stopNow m then (inr Break, m)
    else match answer env m with
         | inl e => (inr NextIteration, afterFailure env m e)
         | inr r => (inr NextIteration, afterTurn env m r)
         end.
Proof.
  unfold loopBody, loopTry, tryCatch.
  unfold bind at 1. rewrite shouldStopConversation_stopNow.
  destruct (stopNow m); [reflexivity |].
  unfold bind at 1. unfold getCurrentPersona at 1. unfold bind at 1, get at 1, ret at 1.
  fold (personaOf (config m) (currentPersona (state m))). fold (speaker m).
  unfold bind at 1. unfold emit at 1, modify at 1.
  unfold bind at 1.
  change (generatePersonaResponse env (speaker m)
            (add_event (EvThinking (Personas.name (speaker m))) m))
    with (generatePersonaResponse env
            (speaker (add_event (EvThinking (Personas.name (speaker m))) m))
            (add_event (EvThinking (Personas.name (speaker m))) m)).
  rewrite generatePersonaResponse_cases.
  change (answer env (add_event (EvThinking (Personas.name (speaker m))) m))
    with (answer env m).
  destruct (answer env m) as [e | r].
  - unfold afterFailure. do 2 run_setters. rewrite <- app_assoc. reflexivity.
  - unfold bind at 1. unfold get at 1. unfold bind at 1.
    rewrite addMessage_run.
    unfold afterTurn, turnLedger, turnMessage.
    lazy -[app History.addMessage History.getContextWindow
           History.getConversationHistory Personas.name JS.trim Z.of_nat].
    rewrite <- app_assoc. reflexivity.
Qed.

End SchedulerFacts.

Section StartFacts.

Import Platform Manager Turn.

Lemma endConversation_afterEnd (env : Env) (m : ConversationManager) :
  endConversation env m = (inr tt, afterEnd env m).
Proof. reflexivity. Qed.

Lemma startSetup_refused (env : Env) (initialPrompt : string) (options : CLIOptions)
    (m : ConversationManager) :
  checkConnection env (tick m) = false ->
  startSetup env initialPrompt options m = (inl connectionFailed, set_tick (S (tick m)) m).
Proof.
  intros H. unfold startSetup, bind, readTick. cbn. now rewrite H.
Qed.

Lemma startSetup_connected (env : Env) (initialPrompt : string) (options : CLIOptions)
    (m : ConversationManager) :
  checkConnection env (tick m) = true ->
  startSetup env initialPrompt options m
  = (inr tt, afterSetup env initialPrompt options m).
Proof.
  intros H. unfold startSetup, bind at 1, readTick at 1. cbn [fst snd].
  unfold bind at 1. cbn [tick set_tick]. rewrite H.
  unfold afterSetup, setupLedger.
  destruct options as [[t |] [n |]]; cbn [opt_topic opt_maxTurns];
    try destruct (JS.truthyString t); try destruct (JS.truthyNumber n);
    lazy -[app History.addMessage History.setTopic];
    rewrite History_addMessage_pair;
    lazy -[app History.addMessage History.setTopic];
    rewrite <- ?app_assoc; reflexivity.
Qed.

(** ** C6 *)

(** C6 (backend unavailable).  When the connectivity check fails,
    [startConversation] returns, whatever fuel the loop is given, having
    done nothing in its [try] block but the check: the error signal it
    emits carries the connection failure, the ledger is untouched (the
    initial prompt is not appended), the turn index and speaker are as they
    were, the scheduler is not active and not running, and apart from the
    error signal no event (no start, message, thinking or end signal) is
    emitted.  An idle scheduler so stays idle. *)
Theorem C6_backend_unavailable :
  forall (env : Env) (fuel : nat) (initialPrompt : string) (options : CLIOptions)
         (m : ConversationManager),
    checkConnection env (tick m) = false ->
    startSetup env initialPrompt options m
    = (inl connectionFailed, set_tick (S (tick m)) m)
    /\ startConversation env fuel initialPrompt options m
       = Finished (inr tt)
           {| config := config m;
              historyManager := historyManager m;
              state := set_isActive false (state m);
              isRunning := false;
              tick := S (tick m);
              emitted := emitted m ++ [EvError connectionFailed] |}
    /\ (isActive (state m) = false ->
        forall m', startConversation env fuel initialPrompt options m = Finished (inr tt) m' ->
                   state m' = state m /\ historyManager m' = historyManager m).
Proof.
  intros env fuel initialPrompt options m Hdown.
  pose proof (startSetup_refused env initialPrompt options m Hdown) as Hsetup.
  assert (Hstart :
            startConversation env fuel initialPrompt options m
            = Finished (inr tt)
                {| config := config m;
                   historyManager := historyManager m;
                   state := set_isActive false (state m);
                   isRunning := false;
                   tick := S (tick m);
                   emitted := emitted m ++ [EvError connectionFailed] |}).
  { unfold startConversation. rewrite Hsetup. reflexivity. }
  split; [exact Hsetup |]. split; [exact Hstart |].
  intros Hidle m' Hm'. rewrite Hstart in Hm'. injection Hm' as <-.
  cbn. split; [| reflexivity].
  destruct (state m) as [a c h p x t]. cbn in *. now subst a.
Qed.

(** The statement of C6 on a scheduler just constructed, with a backend
    that is not reachable. *)
Lemma C6_backend_unavailable_witness :
  startConversation Scenarios.unreachable 10 "Hello" (Scenarios.turns 3)
    (constructor Scenarios.unreachable Scenarios.aliceBob)
  = Finished (inr tt)
      {| config := Scenarios.aliceBob;
         historyManager :=
           historyManager (constructor Scenarios.unreachable Scenarios.aliceBob);
         state :=
           set_isActive false (state (constructor Scenarios.unreachable Scenarios.aliceBob));
         isRunning := false;
         tick := 2;
         emitted := [EvError connectionFailed] |}.
Proof.
  apply (C6_backend_unavailable Scenarios.unreachable 10 "Hello" (Scenarios.turns 3)
           (constructor Scenarios.unreachable Scenarios.aliceBob)).
  reflexivity.
Defined.

(** ** C5 *)

(** C5 (failed turn leaves the state alone).  In an iteration that gets
    past the stop conditions and whose generation call fails, the loop body
    continues to the next iteration and changes nothing of the scheduler's
    state: the ledger, the turn index, the speaker role and the rest of the
    conversation state are as before, so the next iteration addresses the
    same persona.  What the iteration leaves behind is the thinking signal
    and the error signal it emitted, the tick of the backend call, and a
    stop request if one arrived during the call.  The error it reports is
    tagged [GENERATION_FAILED], which is not critical. *)
Theorem C5_failed_turn_changes_nothing :
  forall (env : Env) (m : ConversationManager) (e : AIClientError),
    fst (shouldStopConversation m) = inr false ->
    answer env m = inl e ->
    exists m' : ConversationManager,
      loopBody env m = (inr NextIteration, m')
      /\ historyManager m' = historyManager m
      /\ state m' = state m
      /\ config m' = config m
      /\ speaker m' = speaker m
      /\ isRunning m' = (if stopRequested env (tick m) then false else isRunning m)
      /\ emitted m'
         = emitted m ++ [EvThinking (Personas.name (speaker m));
                         EvError (generationFailed (speaker m) e)]
      /\ isCritical (generationFailed (speaker m) e) = false.
Proof.
  intros env m e Hstop Hfail.
  rewrite shouldStopConversation_stopNow in Hstop. cbn in Hstop.
  injection Hstop as Hstop.
  exists (afterFailure env m e).
  rewrite loopBody_cases, Hstop, Hfail.
  repeat split; reflexivity.
Qed.

End StartFacts.

(** The statement of C5 on the first iteration of a conversation between
    Alice and Bob whose backend fails every request. *)
Lemma C5_failed_turn_changes_nothing_witness :
  exists m' : Manager.ConversationManager,
    Manager.loopBody Scenarios.failing (Scenarios.started Scenarios.failing)
    = (inr Manager.NextIteration, m')
    /\ Manager.historyManager m'
       = Manager.historyManager (Scenarios.started Scenarios.failing)
    /\ Manager.state m' = Manager.state (Scenarios.started Scenarios.failing)
    /\ Manager.config m' = Manager.config (Scenarios.started Scenarios.failing)
    /\ Turn.speaker m' = Turn.speaker (Scenarios.started Scenarios.failing)
    /\ Manager.isRunning m'
       = (if Platform.stopRequested Scenarios.failing
               (Manager.tick (Scenarios.started Scenarios.failing))
          then false
          else Manager.isRunning (Scenarios.started Scenarios.failing))
    /\ Manager.emitted m'
       = Manager.emitted (Scenarios.started Scenarios.failing)
         ++ [Manager.EvThinking
               (Personas.name (Turn.speaker (Scenarios.started Scenarios.failing)));
             Manager.EvError
               (Turn.generationFailed
                  (Turn.speaker (Scenarios.started Scenarios.failing))
                  {| Platform.ace_message := "Failed to generate response: fetch failed";
                     Platform.ace_statusCode := None |})]
    /\ Manager.isCritical
         (Turn.generationFailed
            (Turn.speaker (Scenarios.started Scenarios.failing))
            {| Platform.ace_message := "Failed to generate response: fetch failed";
               Platform.ace_statusCode := None |})
       = false.
Proof.
  apply (C5_failed_turn_changes_nothing Scenarios.failing
           (Scenarios.started Scenarios.failing)
           {| Platform.ace_message := "Failed to generate response: fetch failed";
              Platform.ace_statusCode := None |});
    reflexivity.
Defined.

Section LoopFacts.

Import Platform Manager Turn.

Variable env : Env.

(** One evaluation of the loop condition and what follows it. *)
Lemma runConversationLoop_step (fuel : nat) (m : ConversationManager) :
  runConversationLoop env (S fuel) m
  = if isRunning m && isActive (state m)
    then if stopNow m then Finished (inr tt) (afterEnd env m)
         else match answer env m with
              | inl e => runConversationLoop env fuel (afterFailure env m e)
              | inr r => runConversationLoop env fuel (afterTurn env m r)
              end
    else Finished (inr tt) (afterEnd env m).
Proof.
  cbn [runConversationLoop]. rewrite loopBody_cases.
  destruct (isRunning m && isActive (state m)); [| reflexivity].
  destruct (stopNow m); [reflexivity |].
  destruct (answer env m); reflexivity.
Qed.

(** The request of an iteration is a call of the backend at the current
    tick. *)
Lemma answer_is_call (m : ConversationManager) :
  exists (prompt : string) (sys : option string) (ctx : option (list string)),
    answer env m = generateResponse env (tick m) prompt sys ctx.
Proof.
  unfold answer, buildConversationPrompt, bind, get, ret. cbn.
  eexists. eexists. eexists. reflexivity.
Qed.

(** The loop does not throw: when it comes to an end it returns. *)
Lemma loop_returns (fuel : nat) :
  forall (m m' : ConversationManager) (r : Thrown + unit),
    runConversationLoop env fuel m = Finished r m' -> r = inr tt.
Proof.
  induction fuel as [| fuel IH]; intros m m' r Hrun; [discriminate |].
  rewrite runConversationLoop_step in Hrun.
  destruct (isRunning m && isActive (state m)); [| now injection Hrun as <- _].
  destruct (stopNow m); [now injection Hrun as <- _ |].
  destruct (answer env m); eapply IH; exact Hrun.
Qed.

(** The roles and authors of the turns of a run.  Whatever the backend
    does and whether the loop has come to an end or is still going when
    its fuel runs out, it has completed some number [k] of turns; the turn
    index grew by [k], the messages it emitted were authored, in order, by
    the personas of [k] alternating roles starting with the role that was
    current, and the role left current is the one due after [k] turns. *)
Lemma loop_alternates (fuel : nat) :
  forall m : ConversationManager,
    let m' := managerOf (runConversationLoop env fuel m) in
    config m' = config m
    /\ exists (k : nat) (generated : list History.ConversationMessage),
        List.length generated = k
        /\ currentTurn (state m') = (currentTurn (state m) + k)%nat
        /\ currentPersona (state m') = otherAfter k (currentPersona (state m))
        /\ messageEvents (emitted m') = messageEvents (emitted m) ++ generated
        /\ map History.personaName generated
           = map (fun role => Personas.name (personaOf (config m) role))
                 (alternate (currentPersona (state m)) k).
Proof.
  induction fuel as [| fuel IH]; intros m.
  - cbn. split; [reflexivity |]. exists 0%nat, []. cbn.
    rewrite Nat.add_0_r, app_nil_r. auto.
  - rewrite runConversationLoop_step.
    assert (Hend :
              let m' := managerOf (Finished (inr tt) (afterEnd env m)) in
              config m' = config m
              /\ exists (k : nat) (generated : list History.ConversationMessage),
                  List.length generated = k
                  /\ currentTurn (state m') = (currentTurn (state m) + k)%nat
                  /\ currentPersona (state m') = otherAfter k (currentPersona (state m))
                  /\ messageEvents (emitted m') = messageEvents (emitted m) ++ generated
                  /\ map History.personaName generated
                     = map (fun role => Personas.name (personaOf (config m) role))
                           (alternate (currentPersona (state m)) k)).
    { cbn. split; [reflexivity |]. exists 0%nat, []. cbn.
      rewrite messageEvents_app, Nat.add_0_r. cbn. auto. }
    destruct (isRunning m && isActive (state m)); [| exact Hend].
    destruct (stopNow m); [exact Hend |].
    destruct (answer env m) as [e | a].
    + destruct (IH (afterFailure env m e))
        as (Hc & k & generated & Hlen & Ht & Hp & Hm & Hn).
      cbn zeta. split; [exact Hc |].
      exists k, generated. cbn in Ht, Hp, Hm, Hn.
      rewrite messageEvents_app in Hm. cbn in Hm. rewrite app_nil_r in Hm. auto.
    + destruct (IH (afterTurn env m a))
        as (Hc & k & generated & Hlen & Ht & Hp & Hm & Hn).
      cbn zeta. split; [exact Hc |].
      exists (S k), (turnMessage env m a :: generated). cbn in Ht, Hp, Hm, Hn.
      rewrite messageEvents_app in Hm. cbn in Hm. rewrite <- app_assoc in Hm.
      repeat split.
      * cbn. now rewrite Hlen.
      * rewrite Ht. lia.
      * exact Hp.
      * exact Hm.
      * cbn. now rewrite Hn.
Qed.

End LoopFacts.

Section AlternationFacts.

Import Platform Manager Turn.

(** After a connectivity check that succeeded, a call of
    [startConversation] leaves the manager its loop leaves. *)
Lemma startConversation_connected (env : Env) (fuel : nat) (initialPrompt : string)
    (options : CLIOptions) (m : ConversationManager) :
  checkConnection env (tick m) = true ->
  startConversation env fuel initialPrompt options m
  = match runConversationLoop env fuel (afterSetup env initialPrompt options m) with
    | Finished _ m' => Finished (inr tt) m'
    | OutOfFuel m' => OutOfFuel m'
    end.
Proof.
  intros Hok. unfold startConversation.
  rewrite (startSetup_connected env initialPrompt options m Hok).
  destruct (runConversationLoop env fuel (afterSetup env initialPrompt options m))
    as [r0 m0 | m0] eqn:Hloop; [| reflexivity].
  now rewrite (loop_returns env fuel _ _ _ Hloop).
Qed.

(** ** C4 *)

(** C4 (alternation), as amended.  In every conversation that starts,
    whether it has come to an end or is still going, the messages emitted
    are the initial prompt, authored by "User", followed by the generated
    turns, as many as the turn index counts; the authors of the generated
    turns are the personas of roles that alternate strictly, beginning with
    the role that was current when the conversation was started, and the
    role left current is the one due next.  On a scheduler just constructed
    the first role is the primary one. *)
Theorem C4_turns_alternate :
  (forall (env : Env) (fuel : nat) (initialPrompt : string) (options : CLIOptions)
          (m : ConversationManager),
      checkConnection env (tick m) = true ->
      let m' := managerOf (startConversation env fuel initialPrompt options m) in
      exists (initial : History.ConversationMessage)
             (generated : list History.ConversationMessage),
        messageEvents (emitted m') = messageEvents (emitted m) ++ initial :: generated
        /\ History.personaName initial = "User"
        /\ History.content initial = initialPrompt
        /\ currentTurn (state m') = List.length generated
        /\ map History.personaName generated
           = map (fun role => Personas.name (personaOf (config m) role))
                 (alternate (currentPersona (state m)) (List.length generated))
        /\ currentPersona (state m')
           = otherAfter (List.length generated) (currentPersona (state m)))
  /\ (forall (env : Env) (cfg : Config) (fuel : nat) (initialPrompt : string)
             (options : CLIOptions),
         checkConnection env 1%nat = true ->
         let m' :=
           managerOf (startConversation env fuel initialPrompt options
                        (constructor env cfg)) in
         exists (initial : History.ConversationMessage)
                (generated : list History.ConversationMessage),
           messageEvents (emitted m') = initial :: generated
           /\ History.personaName initial = "User"
           /\ History.content initial = initialPrompt
           /\ currentTurn (state m') = List.length generated
           /\ map History.personaName generated
              = map (fun role => Personas.name (personaOf cfg role))
                    (alternate primary (List.length generated))).
Proof.
  assert (Hgen :
    forall (env : Env) (fuel : nat) (initialPrompt : string) (options : CLIOptions)
           (m : ConversationManager),
      checkConnection env (tick m) = true ->
      let m' := managerOf (startConversation env fuel initialPrompt options m) in
      exists (initial : History.ConversationMessage)
             (generated : list History.ConversationMessage),
        messageEvents (emitted m') = messageEvents (emitted m) ++ initial :: generated
        /\ History.personaName initial = "User"
        /\ History.content initial = initialPrompt
        /\ currentTurn (state m') = List.length generated
        /\ map History.personaName generated
           = map (fun role => Personas.name (personaOf (config m) role))
                 (alternate (currentPersona (state m)) (List.length generated))
        /\ currentPersona (state m')
           = otherAfter (List.length generated) (currentPersona (state m))).
  { intros env fuel initialPrompt options m Hok m'.
    assert (Hm' : m' = managerOf (runConversationLoop env fuel
                                    (afterSetup env initialPrompt options m))).
    { subst m'. rewrite (startConversation_connected env fuel initialPrompt options m Hok).
      now destruct (runConversationLoop env fuel (afterSetup env initialPrompt options m)). }
    destruct (loop_alternates env fuel (afterSetup env initialPrompt options m))
      as (_ & k & generated & Hlen & Ht & Hp & Hm & Hn).
    rewrite <- Hm' in Ht, Hp, Hm.
    exists (fst (setupLedger env initialPrompt options m)), generated.
    subst k. cbn in Ht, Hp, Hm, Hn.
    rewrite messageEvents_app in Hm. cbn in Hm. rewrite <- app_assoc in Hm.
    repeat split; assumption || reflexivity. }
  split; [exact Hgen |].
  intros env cfg fuel initialPrompt options Hok m'.
  destruct (Hgen env fuel initialPrompt options (constructor env cfg) Hok)
    as (initial & generated & Hm & Hu & Hc & Ht & Hn & _).
  exists initial, generated. repeat split; assumption.
Qed.

End AlternationFacts.

(** The statement of C4 on a conversation of three turns between Alice and
    Bob on a scheduler just constructed. *)
Lemma C4_turns_alternate_witness :
  exists (initial : History.ConversationMessage)
         (generated : list History.ConversationMessage),
    Turn.messageEvents
      (Manager.emitted
         (Turn.managerOf
            (Manager.startConversation Scenarios.answering 5 "Hello" (Scenarios.turns 3)
               (Manager.constructor Scenarios.answering Scenarios.aliceBob))))
    = initial :: generated
    /\ History.personaName initial = "User"
    /\ History.content initial = "Hello"
    /\ Manager.currentTurn
         (Manager.state
            (Turn.managerOf
               (Manager.startConversation Scenarios.answering 5 "Hello" (Scenarios.turns 3)
                  (Manager.constructor Scenarios.answering Scenarios.aliceBob))))
       = List.length generated
    /\ map History.personaName generated
       = map (fun role => Personas.name (Turn.personaOf Scenarios.aliceBob role))
             (Turn.alternate Manager.primary (List.length generated)).
Proof.
  apply (proj2 C4_turns_alternate Scenarios.answering Scenarios.aliceBob 5%nat "Hello"
           (Scenarios.turns 3)).
  reflexivity.
Defined.

(** Counterexample to C4 as stated.  A scheduler for Alice (primary) and
    Bob (secondary) runs a conversation of one turn, which Alice takes, and
    is then started again: the first speaker after the second initial
    prompt is Bob, the secondary persona, because the first conversation
    left the secondary role current and starting does not reset it. *)
Lemma C4_counterexample :
  exists m1 m2 : Manager.ConversationManager,
    Manager.startConversation Scenarios.answering 5 "Hello" (Scenarios.turns 1)
      (Manager.constructor Scenarios.answering Scenarios.aliceBob)
    = Manager.Finished (inr tt) m1
    /\ Manager.currentPersona (Manager.state m1) = Manager.secondary
    /\ Manager.startConversation Scenarios.answering 5 "Hello again" (Scenarios.turns 1) m1
       = Manager.Finished (inr tt) m2
    /\ map History.personaName (Turn.messageEvents (Manager.emitted m2))
       = ["User"; "Alice"; "User"; "Bob"]
    /\ map History.content (Turn.messageEvents (Manager.emitted m2))
       = ["Hello"; "That is an interesting point."; "Hello again";
          "That is an interesting point."]
    /\ Personas.name (Manager.pair_primary (Manager.personas Scenarios.aliceBob)) = "Alice"
    /\ Personas.name (Manager.pair_secondary (Manager.personas Scenarios.aliceBob)) = "Bob".
Proof.
  eexists. eexists.
  split; [vm_compute; reflexivity |].
  split; [reflexivity |].
  split; [vm_compute; reflexivity |].
  repeat split; reflexivity.
Qed.

Section FailingBackendFacts.

Import Platform Manager Turn.

Variable env : Env.

Hypothesis every_call_fails :
  forall (t : nat) (prompt : string) (sys : option string) (ctx : option (list string)),
    exists e : AIClientError, generateResponse env t prompt sys ctx = inl e.

Hypothesis no_stop_request : forall t : nat, stopRequested env t = false.

Lemma answer_fails (m : ConversationManager) :
  exists e : AIClientError, answer env m = inl e.
Proof.
  destruct (answer_is_call env m) as (prompt & sys & ctx & ->).
  apply every_call_fails.
Qed.

(** A loop whose backend fails every request does not come to an end
    while the turn limit is not reached: whatever fuel it is given it uses
    up, one failed attempt per unit, and it leaves the ledger and the
    conversation state as they were. *)
Lemma loop_failing (n : Z) (fuel : nat) :
  forall m : ConversationManager,
    isRunning m = true ->
    isActive (state m) = true ->
    maxTurns (state m) = Some n ->
    Z.of_nat (currentTurn (state m)) < n ->
    exists m' : ConversationManager,
      runConversationLoop env fuel m = OutOfFuel m'
      /\ historyManager m' = historyManager m
      /\ state m' = state m
      /\ isRunning m' = true
      /\ config m' = config m
      /\ List.length (errorEvents (emitted m'))
         = (List.length (errorEvents (emitted m)) + fuel)%nat
      /\ messageEvents (emitted m') = messageEvents (emitted m)
      /\ endedEvents (emitted m') = endedEvents (emitted m).
Proof.
  induction fuel as [| fuel IH]; intros m Hrun Hact Hmax Hlt.
  - exists m. cbn. rewrite Nat.add_0_r. repeat split; reflexivity || assumption.
  - rewrite runConversationLoop_step, Hrun, Hact. cbn [andb].
    assert (Hstop : stopNow m = false).
    { unfold stopNow. rewrite Hmax, Hrun. cbn [negb]. rewrite orb_false_r.
      apply andb_false_iff. right. rewrite Z.geb_leb. apply Z.leb_gt. exact Hlt. }
    rewrite Hstop. destruct (answer_fails m) as [e ->].
    destruct (IH (afterFailure env m e)) as (m' & Hout & Hh & Hs & Hr & Hc & He & Hm & Hd).
    + cbn. rewrite no_stop_request. exact Hrun.
    + exact Hact.
    + exact Hmax.
    + exact Hlt.
    + exists m'. split; [exact Hout |]. cbn in *.
      rewrite errorEvents_app in He. rewrite messageEvents_app in Hm.
      rewrite endedEvents_app in Hd. cbn in *.
      rewrite length_app in He. cbn in He. rewrite app_nil_r in Hm, Hd.
      repeat split; try assumption. lia.
Qed.

End FailingBackendFacts.

Section FailingStartFacts.

Import Platform Manager Turn.

(** ** C1 *)

(** C1 (backend that fails every call), as amended.  A scheduler just
    constructed is started with a positive turn limit; its backend passes
    the connectivity check and fails every generation call, and nobody
    requests a stop.  Then failed attempts do not count toward the limit
    and the loop does not come to an end on its own: for every number of
    attempts it is given, it makes them all and is still running.  After
    any number of attempts it has emitted one error signal per attempt and
    no end signal, the only message emitted and the only message in the
    ledger is the initial prompt, the total-message counter is 1 and the
    turn index is 0. *)
Theorem C1_failing_backend_keeps_retrying :
  forall (env : Env) (cfg : Config) (initialPrompt : string) (topic0 : option string)
         (n : Z) (attempts : nat),
    0 < n ->
    (forall t, checkConnection env t = true) ->
    (forall t prompt sys ctx, exists e, generateResponse env t prompt sys ctx = inl e) ->
    (forall t, stopRequested env t = false) ->
    exists m' : ConversationManager,
      startConversation env attempts initialPrompt
        {| opt_topic := topic0; opt_maxTurns := Some n |} (constructor env cfg)
      = OutOfFuel m'
      /\ List.length (errorEvents (emitted m')) = attempts
      /\ endedEvents (emitted m') = []
      /\ map History.content (messageEvents (emitted m')) = [initialPrompt]
      /\ map History.content (History.getMessages (historyManager m')) = [initialPrompt]
      /\ map History.personaName (History.getMessages (historyManager m')) = ["User"]
      /\ History.getTotalMessages (historyManager m') = 1%nat
      /\ currentTurn (state m') = 0%nat
      /\ isRunning m' = true
      /\ isActive (state m') = true.
Proof.
  intros env cfg initialPrompt topic0 n attempts Hn Hok Hfail Hnostop.
  set (options := {| opt_topic := topic0; opt_maxTurns := Some n |}).
  assert (Htruthy : JS.truthyNumber n = true).
  { unfold JS.truthyNumber. apply negb_true_iff. apply Z.eqb_neq. lia. }
  destruct (loop_failing env Hfail Hnostop n attempts
              (afterSetup env initialPrompt options (constructor env cfg)))
    as (m' & Hout & Hh & Hs & Hr & Hc & He & Hm & Hd).
  - reflexivity.
  - reflexivity.
  - cbn. now rewrite Htruthy.
  - cbn. exact Hn.
  - exists m'. unfold startConversation.
    rewrite (startSetup_connected env initialPrompt options _ (Hok _)), Hout.
    split; [reflexivity |].
    rewrite Hm, Hd, Hh, Hs, He, Hr.
    unfold History.getMessages, History.getTotalMessages.
    destruct topic0 as [t |]; [destruct (JS.truthyString t) eqn:Ht |];
      cbn; rewrite ?Ht; cbn; repeat split; reflexivity.
Qed.

End FailingStartFacts.

(** The statement of C1 for Alice and Bob with a limit of three turns,
    after ten attempts. *)
Lemma C1_failing_backend_keeps_retrying_witness :
  exists m' : Manager.ConversationManager,
    Manager.startConversation Scenarios.failing 10 "Hello"
      {| Manager.opt_topic := None; Manager.opt_maxTurns := Some 3 |}
      (Manager.constructor Scenarios.failing Scenarios.aliceBob)
    = Manager.OutOfFuel m'
    /\ List.length (Turn.errorEvents (Manager.emitted m')) = 10%nat
    /\ Turn.endedEvents (Manager.emitted m') = []
    /\ map History.content (Turn.messageEvents (Manager.emitted m')) = ["Hello"]
    /\ map History.content (History.getMessages (Manager.historyManager m')) = ["Hello"]
    /\ map History.personaName (History.getMessages (Manager.historyManager m')) = ["User"]
    /\ History.getTotalMessages (Manager.historyManager m') = 1%nat
    /\ Manager.currentTurn (Manager.state m') = 0%nat
    /\ Manager.isRunning m' = true
    /\ Manager.isActive (Manager.state m') = true.
Proof.
  apply (C1_failing_backend_keeps_retrying Scenarios.failing Scenarios.aliceBob "Hello"
           None 3 10%nat).
  - reflexivity.
  - reflexivity.
  - intros t prompt sys ctx. eexists. reflexivity.
  - reflexivity.
Defined.

(** Counterexample to C1 as stated.  With a limit of three turns and a
    backend that fails every call, the loop has not ended after three
    attempts: given ten it makes all ten, emits ten error signals and no
    end signal, and is still running with the turn index at 0; and no
    amount of attempts brings it to an end. *)
Lemma C1_counterexample :
  (exists m : Manager.ConversationManager,
      Manager.startConversation Scenarios.failing 10 "Hello" (Scenarios.turns 3)
        (Manager.constructor Scenarios.failing Scenarios.aliceBob)
      = Manager.OutOfFuel m
      /\ List.length (Turn.errorEvents (Manager.emitted m)) = 10%nat
      /\ Turn.endedEvents (Manager.emitted m) = []
      /\ Manager.currentTurn (Manager.state m) = 0%nat
      /\ Manager.maxTurns (Manager.state m) = Some 3
      /\ Manager.isRunning m = true
      /\ Manager.isActive (Manager.state m) = true)
  /\ (forall attempts : nat,
         exists m : Manager.ConversationManager,
           Manager.startConversation Scenarios.failing attempts "Hello" (Scenarios.turns 3)
             (Manager.constructor Scenarios.failing Scenarios.aliceBob)
           = Manager.OutOfFuel m).
Proof.
  split.
  - eexists. split; [vm_compute; reflexivity |]. repeat split; reflexivity.
  - intros attempts.
    destruct (loop_failing Scenarios.failing
                (fun _ _ _ _ => ex_intro _ _ eq_refl) (fun _ => eq_refl) 3 attempts
                (Turn.afterSetup Scenarios.failing "Hello" (Scenarios.turns 3)
                   (Manager.constructor Scenarios.failing Scenarios.aliceBob)))
      as (m & Hout & _); try reflexivity.
    exists m. unfold Manager.startConversation.
    rewrite (startSetup_connected Scenarios.failing "Hello" (Scenarios.turns 3) _ eq_refl).
    now rewrite Hout.
Qed.

Section AnsweringBackendFacts.

Import Platform Manager Turn.

Variable env : Env.

Hypothesis every_call_answers :
  forall (t : nat) (prompt : string) (sys : option string) (ctx : option (list string)),
    exists r : AIResponse, generateResponse env t prompt sys ctx = inr r.

Hypothesis no_stop_request : forall t : nat, stopRequested env t = false.

Lemma answer_succeeds (m : ConversationManager) :
  exists r : AIResponse, answer env m = inr r.
Proof.
  destruct (answer_is_call env m) as (prompt & sys & ctx & ->).
  apply every_call_answers.
Qed.

(** A loop whose backend answers every request, [k] turns short of its
    limit, completes those [k] turns and ends, given fuel for the [k + 1]
    evaluations of its condition: it appends one message per turn, ends the
    ledger and emits one end signal, which carries the ledger's counter. *)
Lemma loop_answering (n : Z) (k : nat) :
  forall (fuel : nat) (m : ConversationManager),
    (k < fuel)%nat ->
    isRunning m = true ->
    isActive (state m) = true ->
    maxTurns (state m) = Some n ->
    0 < n ->
    n = Z.of_nat (currentTurn (state m) + k) ->
    exists m' : ConversationManager,
      runConversationLoop env fuel m = Finished (inr tt) m'
      /\ currentTurn (state m') = (currentTurn (state m) + k)%nat
      /\ isActive (state m') = false
      /\ isRunning m' = false
      /\ History.getTotalMessages (historyManager m')
         = (History.getTotalMessages (historyManager m) + k)%nat
      /\ (exists t : nat,
             History.endTime (History.history (historyManager m')) = Some (newDate env t))
      /\ (exists d : Z,
             endedEvents (emitted m')
             = endedEvents (emitted m)
               ++ [((History.getTotalMessages (historyManager m) + k)%nat, d)])
      /\ errorEvents (emitted m') = errorEvents (emitted m).
Proof.
  induction k as [| k IH]; intros fuel m Hfuel Hrun Hact Hmax Hpos Hn.
  - destruct fuel as [| fuel]; [lia |].
    rewrite runConversationLoop_step, Hrun, Hact. cbn [andb].
    assert (Hstop : stopNow m = true).
    { unfold stopNow. rewrite Hmax. apply orb_true_iff. left.
      apply andb_true_iff. split.
      - unfold JS.truthyNumber. apply negb_true_iff, Z.eqb_neq. lia.
      - rewrite Z.geb_leb. apply Z.leb_le. lia. }
    rewrite Hstop. exists (afterEnd env m). split; [reflexivity |].
    unfold History.getTotalMessages. cbn.
    rewrite errorEvents_app, endedEvents_app, !Nat.add_0_r. cbn.
    rewrite app_nil_r.
    repeat split; try reflexivity; eexists; reflexivity.
  - destruct fuel as [| fuel]; [lia |].
    rewrite runConversationLoop_step, Hrun, Hact. cbn [andb].
    assert (Hstop : stopNow m = false).
    { unfold stopNow. rewrite Hmax, Hrun. cbn [negb]. rewrite orb_false_r.
      apply andb_false_iff. right. rewrite Z.geb_leb. apply Z.leb_gt. lia. }
    rewrite Hstop. destruct (answer_succeeds m) as [r ->].
    destruct (IH fuel (afterTurn env m r))
      as (m' & Hout & Ht & Ha & Hr & Htot & Hend & (d & Hd) & He).
    + lia.
    + cbn. rewrite !no_stop_request. exact Hrun.
    + exact Hact.
    + exact Hmax.
    + exact Hpos.
    + cbn. lia.
    + exists m'. split; [exact Hout |].
      unfold History.getTotalMessages in *. cbn in Ht, Htot, Hd, He.
      rewrite errorEvents_app in He. rewrite endedEvents_app in Hd. cbn in He, Hd.
      rewrite app_nil_r in He, Hd.
      split; [lia |]. split; [exact Ha |]. split; [exact Hr |].
      split; [lia |]. split; [exact Hend |].
      split; [| exact He].
      exists d. rewrite Hd. repeat f_equal. lia.
Qed.

End AnsweringBackendFacts.

Section AnsweringStartFacts.

Import Platform Manager Turn.

(** ** C3 *)

(** C3 (three turns).  A scheduler just constructed is started with a
    limit of three turns; its backend passes the connectivity check and
    answers every call, and nobody requests a stop.  Given fuel for the
    four evaluations of the loop condition, the conversation comes to an
    end with a turn index of 3: three turns were generated after the
    initial prompt, by the primary, the secondary and the primary persona,
    no error signal was emitted, the ledger was ended (its end time is
    set), the scheduler is no longer active, and exactly one end signal was
    emitted, carrying a total of 4 messages. *)
Theorem C3_three_turns :
  forall (env : Env) (cfg : Config) (initialPrompt : string) (topic0 : option string)
         (fuel : nat),
    (4 <= fuel)%nat ->
    (forall t, checkConnection env t = true) ->
    (forall t prompt sys ctx, exists r, generateResponse env t prompt sys ctx = inr r) ->
    (forall t, stopRequested env t = false) ->
    exists m' : ConversationManager,
      startConversation env fuel initialPrompt
        {| opt_topic := topic0; opt_maxTurns := Some 3 |} (constructor env cfg)
      = Finished (inr tt) m'
      /\ currentTurn (state m') = 3%nat
      /\ isActive (state m') = false
      /\ History.getTotalMessages (historyManager m') = 4%nat
      /\ (exists t : nat,
             History.endTime (History.history (historyManager m')) = Some (newDate env t))
      /\ (exists d : Z, endedEvents (emitted m') = [(4%nat, d)])
      /\ errorEvents (emitted m') = []
      /\ map History.personaName (messageEvents (emitted m'))
         = ["User";
            Personas.name (pair_primary (personas cfg));
            Personas.name (pair_secondary (personas cfg));
            Personas.name (pair_primary (personas cfg))].
Proof.
  intros env cfg initialPrompt topic0 fuel Hfuel Hok Hanswer Hnostop.
  set (options := {| opt_topic := topic0; opt_maxTurns := Some 3 |}).
  set (m0 := afterSetup env initialPrompt options (constructor env cfg)).
  destruct (loop_answering env Hanswer Hnostop 3 3 fuel m0)
    as (m' & Hout & Ht & Ha & _ & Htot & Hend & (d & Hd) & He);
    try reflexivity; try lia.
  assert (Hstart : startConversation env fuel initialPrompt options (constructor env cfg)
                   = Finished (inr tt) m').
  { unfold startConversation.
    rewrite (startSetup_connected env initialPrompt options _ (Hok _)).
    fold m0. now rewrite Hout. }
  pose proof (loop_alternates env fuel m0) as Halt.
  rewrite Hout in Halt. cbn [managerOf] in Halt.
  destruct Halt as (_ & k & generated & Hlen & Hk & _ & Hm & Hn).
  assert (Hk3 : k = 3%nat) by (rewrite Ht in Hk; cbn in Hk; lia).
  subst k. rewrite Hk3 in Hn.
  exists m'. split; [exact Hstart |].
  split; [exact Ht |]. split; [exact Ha |].
  assert (Htotal0 : History.getTotalMessages (historyManager m0) = 1%nat).
  { subst m0 options. unfold History.getTotalMessages.
    destruct topic0 as [t |]; [destruct (JS.truthyString t) eqn:Hs |];
      cbn; rewrite ?Hs; reflexivity. }
  rewrite Htotal0 in Htot, Hd.
  split; [exact Htot |]. split; [exact Hend |].
  split; [exists d; exact Hd |].
  split; [exact He |].
  rewrite Hm, map_app, Hn. reflexivity.
Qed.

End AnsweringStartFacts.

(** The statement of C3 for Alice and Bob with a backend that answers
    every call, given fuel for five evaluations of the loop condition. *)
Lemma C3_three_turns_witness :
  exists m' : Manager.ConversationManager,
    Manager.startConversation Scenarios.answering 5 "Hello"
      {| Manager.opt_topic := None; Manager.opt_maxTurns := Some 3 |}
      (Manager.constructor Scenarios.answering Scenarios.aliceBob)
    = Manager.Finished (inr tt) m'
    /\ Manager.currentTurn (Manager.state m') = 3%nat
    /\ Manager.isActive (Manager.state m') = false
    /\ History.getTotalMessages (Manager.historyManager m') = 4%nat
    /\ (exists t : nat,
           History.endTime (History.history (Manager.historyManager m'))
           = Some (Platform.newDate Scenarios.answering t))
    /\ (exists d : Z, Turn.endedEvents (Manager.emitted m') = [(4%nat, d)])
    /\ Turn.errorEvents (Manager.emitted m') = []
    /\ map History.personaName (Turn.messageEvents (Manager.emitted m'))
       = ["User";
          Personas.name (Manager.pair_primary (Manager.personas Scenarios.aliceBob));
          Personas.name (Manager.pair_secondary (Manager.personas Scenarios.aliceBob));
          Personas.name (Manager.pair_primary (Manager.personas Scenarios.aliceBob))].
Proof.
  apply (C3_three_turns Scenarios.answering Scenarios.aliceBob "Hello" None 5%nat).
  - lia.
  - reflexivity.
  - intros t prompt sys ctx. eexists. reflexivity.
  - reflexivity.
Defined.

(* ===================================================================== *)
(** * Further properties of the ledger *)
(* ===================================================================== *)

Section ListFacts2.

Context {A : Type}.

Lemma lastN_snoc (n : nat) (l : list A) (x : A) :
  lastN (S n) (l ++ [x]) = lastN n l ++ [x].
Proof.
  unfold lastN. rewrite length_app. cbn [List.length].
  replace (List.length l + 1 - S n)%nat with (List.length l - n)%nat by lia.
  rewrite skipn_app.
  replace (List.length l - n - List.length l)%nat with 0%nat by lia.
  reflexivity.
Qed.

Lemma last_snoc (l : list A) (x d : A) : last (l ++ [x]) d = x.
Proof. apply last_last. Qed.

End ListFacts2.

Section LedgerInvariantFacts.

Import History.

Lemma applyOp_bounded (hm : ConversationHistoryManager) (op : LedgerOp) :
  Bounded hm -> Bounded (applyOp hm op).
Proof.
  intros [Hmax Htot]. destruct op as [a | now | t | now]; cbn [applyOp].
  - unfold Bounded. rewrite addMessage_messages, addMessage_total, addMessage_maxMessages.
    rewrite lastN_length, length_app. cbn [List.length]. lia.
  - unfold Bounded. cbn. lia.
  - exact (conj Hmax Htot).
  - exact (conj Hmax Htot).
Qed.

Lemma applyOp_limits (hm : ConversationHistoryManager) (op : LedgerOp) :
  maxMessages (applyOp hm op) = maxMessages hm
  /\ maxContextWindow (applyOp hm op) = maxContextWindow hm.
Proof. destruct op; split; reflexivity. Qed.

Lemma applyOps_invariant (ops : list LedgerOp) :
  forall hm : ConversationHistoryManager,
    Bounded hm ->
    Bounded (applyOps hm ops)
    /\ maxMessages (applyOps hm ops) = maxMessages hm
    /\ maxContextWindow (applyOps hm ops) = maxContextWindow hm.
Proof.
  induction ops as [| op ops IH]; intros hm Hb;
    [split; [exact Hb | split; reflexivity] |].
  cbn [applyOps fold_left].
  destruct (IH (applyOp hm op) (applyOp_bounded hm op Hb)) as (Hb' & Hm & Hw).
  destruct (applyOp_limits hm op) as [Hm0 Hw0].
  unfold applyOps in *. rewrite Hm, Hw, Hm0, Hw0.
  split; [exact Hb' | split; reflexivity].
Qed.

(** X1 (bounds of the ledger).  Whatever sequence of appends, clears,
    topic changes and endings is applied to a ledger just constructed, the
    retained messages never outnumber the retention limit (none is retained
    when the limit is zero or negative) nor the total-message counter, and
    the two limits are the ones the ledger was constructed with. *)
Theorem X1_ledger_bounds :
  forall (now : Z) (topic0 : option string) (maxRetain window : Z) (ops : list LedgerOp),
    let hm := applyOps (constructor now topic0 maxRetain window) ops in
    (List.length (getMessages hm) <= Z.to_nat maxRetain)%nat
    /\ (List.length (getMessages hm) <= getTotalMessages hm)%nat
    /\ maxMessages hm = maxRetain
    /\ maxContextWindow hm = window.
Proof.
  intros now topic0 maxRetain window ops hm.
  destruct (applyOps_invariant ops (constructor now topic0 maxRetain window))
    as ((Hmax & Htot) & Hm & Hw).
  { split; cbn; lia. }
  unfold getMessages, getTotalMessages. subst hm.
  rewrite Hm in Hmax. cbn in Hm, Hw, Hmax. auto.
Qed.

(** X2 (the message just appended).  [addMessage] returns the message it
    stores, and [getLastMessage] afterwards returns that message when the
    retention limit is at least one; with a limit of zero or below the
    append leaves the ledger empty and [getLastMessage] finds nothing,
    while the counter still counts the append. *)
Theorem X2_last_message_after_append :
  forall (hm : ConversationHistoryManager) (a : Append),
    fst (addMessage (ap_uuid a) (ap_now a) (ap_name a) (ap_text a) (ap_meta a) hm)
    = messageOf a
    /\ getLastMessage (addMessage' hm a)
       = (if 1 <=? maxMessages hm then Some (messageOf a) else None)
    /\ (if 1 <=? maxMessages hm then True else getMessages (addMessage' hm a) = [])
    /\ getTotalMessages (addMessage' hm a) = S (getTotalMessages hm).
Proof.
  intros hm a. split; [reflexivity |].
  unfold getLastMessage, getMessages. rewrite addMessage_messages.
  destruct (Z.leb_spec 1 (maxMessages hm)) as [Hge | Hlt].
  - split; [| split; [exact I | reflexivity]].
    replace (Z.to_nat (maxMessages hm)) with (S (Z.to_nat (maxMessages hm) - 1)) by lia.
    rewrite lastN_snoc, map_app. cbn [map]. apply last_last.
  - replace (Z.to_nat (maxMessages hm)) with 0%nat by lia.
    rewrite lastN_zero. repeat split; reflexivity.
Qed.

(** [getLastMessages] in one formula. *)
Lemma getLastMessages_lastN (hm : ConversationHistoryManager) (n : Z) :
  getLastMessages n hm
  = lastN (Z.to_nat (Z.min (Z.max n 0) (Z.of_nat (List.length (getMessages hm)))))
          (getMessages hm).
Proof.
  unfold getLastMessages, JS.slice, lastN, getMessages.
  destruct (Z.ltb_spec (Z.max 0 (Z.of_nat (List.length (messages (history hm))) - n)) 0)
    as [Hneg | _]; [lia |].
  f_equal. lia.
Qed.

(** X3 (context window).  The context window is the rendering
    "speaker: content" of the last retained messages, as many as the window
    size allows (none for a size of zero or below), oldest first; it never
    has more entries than the window size nor than the ledger retains.
    Right after an append, with a retention limit and a window size of at
    least one, its last entry is the rendering of the message appended. *)
Theorem X3_context_window :
  forall (hm : ConversationHistoryManager) (a : Append),
    let n := Z.to_nat (Z.min (Z.max (maxContextWindow hm) 0)
                             (Z.of_nat (List.length (getMessages hm)))) in
    getContextWindow hm = map renderMessage (lastN n (getMessages hm))
    /\ List.length (getContextWindow hm) = n
    /\ (Z.of_nat (List.length (getContextWindow hm)) <= Z.max (maxContextWindow hm) 0)
    /\ (if (1 <=? maxMessages hm) && (1 <=? maxContextWindow hm)
        then last (getContextWindow (addMessage' hm a)) ""
             = (ap_name a ++ ": " ++ ap_text a)%string
        else True).
Proof.
  intros hm a n.
  assert (Hcw : forall h : ConversationHistoryManager,
             getContextWindow h
             = map renderMessage
                 (lastN (Z.to_nat (Z.min (Z.max (maxContextWindow h) 0)
                                         (Z.of_nat (List.length (getMessages h)))))
                        (getMessages h))).
  { intros h. unfold getContextWindow. now rewrite getLastMessages_lastN. }
  split; [apply Hcw |].
  split; [rewrite Hcw, length_map, lastN_length; subst n; lia |].
  split; [rewrite Hcw, length_map, lastN_length; lia |].
  destruct (Z.leb_spec 1 (maxMessages hm)) as [Hm | Hm]; [| exact I].
  destruct (Z.leb_spec 1 (maxContextWindow hm)) as [Hw | Hw]; [| exact I].
  cbn [andb]. rewrite Hcw. unfold getMessages.
  change (maxContextWindow (addMessage' hm a)) with (maxContextWindow hm).
  rewrite addMessage_messages.
  replace (Z.to_nat (maxMessages hm)) with (S (Z.to_nat (maxMessages hm) - 1)) by lia.
  rewrite lastN_snoc.
  set (kept := lastN (Z.to_nat (maxMessages hm) - 1) (messages (history hm))).
  rewrite length_app. cbn [List.length].
  set (k := Z.to_nat _).
  assert (Hk : (1 <= k)%nat) by (subst k; lia).
  replace k with (S (k - 1)) by lia.
  rewrite lastN_snoc, map_app. cbn [map]. rewrite last_last. reflexivity.
Qed.

End LedgerInvariantFacts.

(** ** Counting tables *)

Section CountFacts.

Import Analytics.

Lemma count_lookup (w k : string) (acc : list (string * nat)) :
  lookupCount k (count w acc)
  = (lookupCount k acc + (if String.eqb w k then 1 else 0))%nat.
Proof.
  induction acc as [| [w' n] rest IH]; cbn [count lookupCount].
  - destruct (String.eqb w k); reflexivity.
  - destruct (String.eqb_spec w' w) as [-> | Hne]; cbn [lookupCount].
    + destruct (String.eqb w k); lia.
    + destruct (String.eqb_spec w' k) as [-> | Hne'].
      * destruct (String.eqb_spec w k) as [-> | _]; [congruence | lia].
      * exact IH.
Qed.

Lemma count_keys (w : string) (acc : list (string * nat)) :
  map fst (count w acc)
  = if existsb (String.eqb w) (map fst acc) then map fst acc else map fst acc ++ [w].
Proof.
  induction acc as [| [w' n] rest IH]; cbn [count map fst existsb]; [reflexivity |].
  rewrite (String.eqb_sym w w').
  destruct (String.eqb w' w); cbn [orb map fst]; [reflexivity |].
  rewrite IH. destruct (existsb (String.eqb w) (map fst rest)); reflexivity.
Qed.

Lemma existsb_eqb_In (w : string) (l : list string) :
  existsb (String.eqb w) l = true <-> In w l.
Proof.
  rewrite existsb_exists. split.
  - intros (x & Hin & Heq). apply String.eqb_eq in Heq. now subst.
  - intros Hin. exists w. split; [exact Hin | apply String.eqb_refl].
Qed.

Lemma existsb_eqb_not_In (w : string) (l : list string) :
  existsb (String.eqb w) l = false <-> ~ In w l.
Proof.
  rewrite <- existsb_eqb_In. destruct (existsb (String.eqb w) l); split; congruence.
Qed.

Lemma count_keys_NoDup (w : string) (acc : list (string * nat)) :
  NoDup (map fst acc) -> NoDup (map fst (count w acc)).
Proof.
  intros Hnd. rewrite count_keys.
  destruct (existsb (String.eqb w) (map fst acc)) eqn:He; [exact Hnd |].
  apply existsb_eqb_not_In in He.
  apply NoDup_app; [exact Hnd | repeat constructor; intros [] | ].
  intros x Hx [<- | []]. exact (He Hx).
Qed.

Lemma count_keys_In (w k : string) (acc : list (string * nat)) :
  In k (map fst (count w acc)) <-> In k (map fst acc) \/ k = w.
Proof.
  rewrite count_keys.
  destruct (existsb (String.eqb w) (map fst acc)) eqn:He.
  - apply existsb_eqb_In in He. split; [auto | intros [H | ->]; assumption].
  - rewrite in_app_iff. cbn [In]. intuition (subst; auto).
Qed.

Lemma count_total (w : string) (acc : list (string * nat)) :
  tableTotal (count w acc) = S (tableTotal acc).
Proof.
  induction acc as [| [w' n] rest IH]; cbn [count tableTotal fold_right snd];
    [reflexivity |].
  destruct (String.eqb w' w); cbn [tableTotal fold_right snd]; [lia |].
  unfold tableTotal in IH. rewrite IH. lia.
Qed.

Lemma countAll_lookup (k : string) (ws : list string) :
  forall acc : list (string * nat),
    lookupCount k (countAll ws acc)
    = (lookupCount k acc + count_occ string_dec ws k)%nat.
Proof.
  induction ws as [| w ws IH]; intros acc; cbn [countAll fold_left count_occ]; [lia |].
  fold (countAll ws (count w acc)). rewrite IH, count_lookup.
  destruct (string_dec w k) as [-> | Hne].
  - rewrite String.eqb_refl. lia.
  - apply String.eqb_neq in Hne. rewrite Hne. lia.
Qed.

Lemma countAll_NoDup (ws : list string) :
  forall acc : list (string * nat),
    NoDup (map fst acc) -> NoDup (map fst (countAll ws acc)).
Proof.
  induction ws as [| w ws IH]; intros acc Hnd; [exact Hnd |].
  cbn [countAll fold_left]. apply IH, count_keys_NoDup, Hnd.
Qed.

Lemma countAll_In (k : string) (ws : list string) :
  forall acc : list (string * nat),
    In k (map fst (countAll ws acc)) <-> In k (map fst acc) \/ In k ws.
Proof.
  induction ws as [| w ws IH]; intros acc; cbn [countAll fold_left In].
  - tauto.
  - fold (countAll ws (count w acc)). rewrite IH, count_keys_In.
    split; intros H; intuition (subst; auto).
Qed.

Lemma countAll_total (ws : list string) :
  forall acc : list (string * nat),
    tableTotal (countAll ws acc) = (tableTotal acc + List.length ws)%nat.
Proof.
  induction ws as [| w ws IH]; intros acc; cbn [countAll fold_left List.length]; [lia |].
  fold (countAll ws (count w acc)). rewrite IH, count_total. lia.
Qed.

Lemma countAll_map {B : Type} (f : B -> string) (l : list B) :
  forall acc : list (string * nat),
    fold_left (fun acc x => count (f x) acc) l acc = countAll (map f l) acc.
Proof.
  induction l as [| x l IH]; intros acc; [reflexivity |].
  cbn [fold_left map countAll]. apply IH.
Qed.

Lemma bump_count (k : string) (tbl : list (string * nat)) :
  History.bump k tbl = count k tbl.
Proof.
  induction tbl as [| [k' n] rest IH]; cbn [History.bump count]; [reflexivity |].
  now rewrite IH.
Qed.

Lemma bumpAll_countAll {B : Type} (f : B -> string) (l : list B) :
  forall acc : list (string * nat),
    fold_left (fun tbl x => History.bump (f x) tbl) l acc = countAll (map f l) acc.
Proof.
  induction l as [| x l IH]; intros acc; [reflexivity |].
  cbn [fold_left map countAll]. rewrite bump_count. apply IH.
Qed.

Lemma count_occ_authored (name : string) (l : list History.ConversationMessage) :
  count_occ string_dec (map History.personaName l) name = authored name l.
Proof.
  unfold authored. induction l as [| m l IH]; [reflexivity |].
  cbn [map count_occ filter].
  destruct (string_dec (History.personaName m) name) as [-> | Hne].
  - rewrite String.eqb_refl. cbn [List.length]. now rewrite IH.
  - apply String.eqb_neq in Hne. rewrite Hne. exact IH.
Qed.

End CountFacts.

Section StatsFacts.

Import History.

(** X4 (statistics by speaker).  When no retained message is signed with a
    property name that every object inherits, the table [messagesByPersona]
    of [getMessageStats] lists each speaker once, gives every name exactly
    the number of retained messages [getMessagesByPersona] returns for it
    (zero for a name that is absent), and its counts add up to the number
    of retained messages; [totalMessages] is the ledger's counter, which
    also counts the messages no longer retained. *)
Theorem X4_stats_by_persona :
  forall (now : Z) (hm : ConversationHistoryManager),
    plainKeys (map personaName (getMessages hm)) = true ->
    let stats := getMessageStats now hm in
    (forall name : string,
        Analytics.lookupCount name (messagesByPersona stats)
        = List.length (getMessagesByPersona name hm))
    /\ NoDup (map fst (messagesByPersona stats))
    /\ (forall name : string,
           In name (map fst (messagesByPersona stats))
           <-> In name (map personaName (getMessages hm)))
    /\ tableTotal (messagesByPersona stats) = List.length (getMessages hm)
    /\ stats_totalMessages stats = getTotalMessages hm.
Proof.
  intros now hm _ stats.
  assert (Htbl : messagesByPersona stats
                 = countAll (map personaName (getMessages hm)) []).
  { unfold stats, getMessageStats, getMessages. cbn [messagesByPersona].
    apply bumpAll_countAll. }
  rewrite Htbl. repeat split.
  - intros name. rewrite countAll_lookup, count_occ_authored. reflexivity.
  - apply countAll_NoDup. constructor.
  - intros H. apply countAll_In in H. destruct H as [[] | H]. exact H.
  - intros H. apply countAll_In. now right.
  - rewrite countAll_total, length_map. reflexivity.
Qed.

Lemma X4_stats_by_persona_witness :
  let hm := addMessages (constructor 0 None 10 5)
              [mkAppend "u1" 1 "Alice" "Hello" None;
               mkAppend "u2" 2 "Bob" "Hi" None;
               mkAppend "u3" 3 "Alice" "Bye" None] in
  Analytics.lookupCount "Alice" (messagesByPersona (getMessageStats 9 hm)) = 2%nat
  /\ tableTotal (messagesByPersona (getMessageStats 9 hm)) = 3%nat.
Proof.
  intros hm.
  destruct (X4_stats_by_persona 9 hm eq_refl) as (Hcount & _ & _ & Htotal & _).
  split; [rewrite Hcount; reflexivity | rewrite Htotal; reflexivity].
Defined.

Lemma applyOps_clock (ops : list LedgerOp) :
  forall hm : ConversationHistoryManager,
    forallb keepsClock ops = true ->
    startTime (history (applyOps hm ops)) = startTime (history hm)
    /\ endTime (history (applyOps hm ops)) = endTime (history hm).
Proof.
  induction ops as [| op ops IH]; intros hm Hk; [split; reflexivity |].
  cbn [forallb] in Hk. apply andb_prop in Hk. destruct Hk as [Hop Hk].
  cbn [applyOps fold_left]. fold (applyOps (applyOp hm op) ops).
  destruct (IH (applyOp hm op) Hk) as [Hs He]. rewrite Hs, He.
  destruct op; try discriminate Hop; split; reflexivity.
Qed.

(** X5 (duration).  Appends and topic changes never move the start or the
    end of a ledger.  So once a conversation is ended at an instant, the
    duration reported by [getDuration] and by [getMessageStats] stays the
    time from the start to that instant, whatever the clock shows later
    and whatever is appended afterwards; while no end is stored the
    duration is the time from the start to the instant of the call. *)
Theorem X5_duration_frozen :
  forall (hm : ConversationHistoryManager) (ended later : Z) (ops : list LedgerOp),
    forallb keepsClock ops = true ->
    getDuration later (applyOps (endConversation ended hm) ops)
    = ended - startTime (history hm)
    /\ conversationDuration
         (getMessageStats later (applyOps (endConversation ended hm) ops))
       = ended - startTime (history hm)
    /\ (endTime (history hm) = None ->
        getDuration later (applyOps hm ops) = later - startTime (history hm)).
Proof.
  intros hm ended later ops Hk.
  destruct (applyOps_clock ops (endConversation ended hm) Hk) as [Hs He].
  destruct (applyOps_clock ops hm Hk) as [Hs' He'].
  unfold getMessageStats. cbn [conversationDuration]. unfold getDuration.
  rewrite Hs, He, Hs', He'. cbn.
  repeat split. intros ->. reflexivity.
Qed.

Lemma X5_duration_frozen_witness :
  let hm := constructor 1000 None 10 5 in
  let ops := [OpAdd (mkAppend "u1" 7000 "Alice" "late" None); OpSetTopic "t"] in
  getDuration 9000 (applyOps (endConversation 4000 hm) ops) = 3000.
Proof.
  intros hm ops.
  exact (proj1 (X5_duration_frozen hm 4000 9000 ops eq_refl)).
Defined.

(** X6 (printing a duration).  For a duration of at most 10^15
    milliseconds either way, where the quotients of the code are exact,
    [formatDuration] prints whole seconds below one minute (a negative
    duration included, which prints a negative number of seconds and
    nothing else), minutes and seconds below one hour, and hours, minutes
    and seconds from one hour on; the minutes and seconds printed beside a
    larger unit are below sixty, and the parts printed add up to the whole
    seconds of the duration. *)
Theorem X6_format_duration :
  forall ms : Z,
    Z.abs ms <= 1000000000000000 ->
    let s := ms / 1000 in
    formatDuration ms
    = (if ms <? 60000 then (JS.numberToString s ++ "s")%string
       else if ms <? 3600000
       then (JS.numberToString (s / 60) ++ "m " ++ JS.numberToString (s mod 60)
             ++ "s")%string
       else (JS.numberToString (s / 3600) ++ "h "
             ++ JS.numberToString ((s / 60) mod 60) ++ "m "
             ++ JS.numberToString (s mod 60) ++ "s")%string)
    /\ (0 <= (s / 60) mod 60 < 60 /\ 0 <= s mod 60 < 60)
    /\ s = 3600 * (s / 3600) + 60 * ((s / 60) mod 60) + s mod 60.
Proof.
  intros ms _ s.
  assert (Hdd : s / 60 / 60 = s / 3600) by (rewrite Z.div_div by lia; reflexivity).
  split; [| split; [split; apply Z.mod_pos_bound; lia |]].
  - unfold formatDuration. fold s. rewrite Hdd.
    destruct (Z.ltb_spec ms 60000) as [H1 | H1].
    + assert (s < 60) by (subst s; apply Z.div_lt_upper_bound; lia).
      assert (s / 60 <= 0).
      { destruct (Z_lt_le_dec s 0) as [Hn | Hp].
        - assert (s / 60 < 0) by (apply Z.div_lt_upper_bound; lia). lia.
        - rewrite Z.div_small by lia. lia. }
      assert (s / 3600 <= 0).
      { destruct (Z_lt_le_dec s 0) as [Hn | Hp].
        - assert (s / 3600 < 0) by (apply Z.div_lt_upper_bound; lia). lia.
        - rewrite Z.div_small by lia. lia. }
      destruct (Z.gtb_spec (s / 3600) 0); [lia |].
      destruct (Z.gtb_spec (s / 60) 0); [lia |]. reflexivity.
    + assert (Hs60 : 60 <= s) by (subst s; apply Z.div_le_lower_bound; lia).
      assert (1 <= s / 60) by (apply Z.div_le_lower_bound; lia).
      rewrite (Z.rem_mod_nonneg s 60) by lia.
      rewrite (Z.rem_mod_nonneg (s / 60) 60) by lia.
      destruct (Z.ltb_spec ms 3600000) as [H2 | H2].
      * assert (s < 3600) by (subst s; apply Z.div_lt_upper_bound; lia).
        rewrite (Z.div_small s 3600) by lia.
        destruct (Z.gtb_spec 0 0); [lia |].
        destruct (Z.gtb_spec (s / 60) 0); [reflexivity | lia].
      * assert (3600 <= s) by (subst s; apply Z.div_le_lower_bound; lia).
        assert (1 <= s / 3600) by (apply Z.div_le_lower_bound; lia).
        destruct (Z.gtb_spec (s / 3600) 0); [reflexivity | lia].
  - pose proof (Z.div_mod s 60 ltac:(lia)) as E1.
    pose proof (Z.div_mod (s / 60) 60 ltac:(lia)) as E2.
    rewrite Hdd in E2. lia.
Qed.

Lemma X6_format_duration_witness :
  formatDuration 3725000 = "1h 2m 5s" /\ formatDuration (-1500) = "-2s".
Proof.
  split.
  - rewrite (proj1 (X6_format_duration 3725000 ltac:(cbn; lia))). reflexivity.
  - rewrite (proj1 (X6_format_duration (-1500) ltac:(cbn; lia))). reflexivity.
Defined.

End StatsFacts.

(* ===================================================================== *)
(** * Further properties of the persona registry *)
(* ===================================================================== *)

Section RegistryFacts.

Import Personas.

Lemma lowerChar_idempotent (c : ascii) : JS.lowerChar (JS.lowerChar c) = JS.lowerChar c.
Proof.
  destruct c as [[] [] [] [] [] [] [] []]; vm_compute; reflexivity.
Qed.

Lemma toLowerCase_idempotent (s : string) :
  JS.toLowerCase (JS.toLowerCase s) = JS.toLowerCase s.
Proof.
  induction s as [| c s IH]; [reflexivity |].
  cbn [JS.toLowerCase]. now rewrite lowerChar_idempotent, IH.
Qed.

Lemma mapGet_mapSet (key q : string) (p : PersonaConfig)
    (m : list (string * PersonaConfig)) :
  mapGet q (mapSet key p m) = if String.eqb key q then Some p else mapGet q m.
Proof.
  induction m as [| [k v] rest IH]; cbn [mapSet mapGet]; [reflexivity |].
  destruct (String.eqb_spec k key) as [-> | Hne]; cbn [mapGet].
  - destruct (String.eqb key q); reflexivity.
  - destruct (String.eqb_spec k q) as [-> | Hne'].
    + apply String.eqb_neq in Hne. rewrite String.eqb_sym in Hne. now rewrite Hne.
    + exact IH.
Qed.

Lemma mapSet_keys (key : string) (p : PersonaConfig) (m : list (string * PersonaConfig)) :
  map fst (mapSet key p m)
  = if existsb (String.eqb key) (map fst m) then map fst m else map fst m ++ [key].
Proof.
  induction m as [| [k v] rest IH]; cbn [mapSet map fst existsb]; [reflexivity |].
  rewrite (String.eqb_sym key k).
  destruct (String.eqb k key); cbn [orb map fst]; [reflexivity |].
  rewrite IH. destruct (existsb (String.eqb key) (map fst rest)); reflexivity.
Qed.

Lemma mapGet_Some_iff (q : string) (m : list (string * PersonaConfig)) :
  existsb (String.eqb q) (map fst m) = true <-> exists p, mapGet q m = Some p.
Proof.
  induction m as [| [k v] rest IH]; cbn [map fst existsb mapGet].
  - split; [discriminate | intros [p H]; discriminate].
  - rewrite (String.eqb_sym q k). destruct (String.eqb k q); cbn [orb].
    + split; [intros _; now exists v | reflexivity].
    + exact IH.
Qed.

Lemma mapGet_None_iff (q : string) (m : list (string * PersonaConfig)) :
  mapGet q m = None <-> ~ In q (map fst m).
Proof.
  rewrite <- existsb_eqb_not_In.
  pose proof (mapGet_Some_iff q m) as H.
  destruct (existsb (String.eqb q) (map fst m)), (mapGet q m) as [p |].
  - split; discriminate.
  - destruct (proj1 H eq_refl) as [p Hp]. discriminate.
  - assert (false = true) by (apply H; now exists p). discriminate.
  - split; reflexivity.
Qed.

Lemma mapSet_NoDup (key : string) (p : PersonaConfig) (m : list (string * PersonaConfig)) :
  NoDup (map fst m) -> NoDup (map fst (mapSet key p m)).
Proof.
  intros Hnd. rewrite mapSet_keys.
  destruct (existsb (String.eqb key) (map fst m)) eqn:He; [exact Hnd |].
  apply existsb_eqb_not_In in He.
  apply NoDup_app; [exact Hnd | repeat constructor; intros [] |].
  intros x Hx [<- | []]. exact (He Hx).
Qed.

Lemma mapSet_length (key : string) (p : PersonaConfig) (m : list (string * PersonaConfig)) :
  List.length (mapSet key p m)
  = match mapGet key m with
    | Some _ => List.length m
    | None => S (List.length m)
    end.
Proof.
  induction m as [| [k v] rest IH]; cbn [mapSet mapGet]; [reflexivity |].
  destruct (String.eqb k key); cbn [List.length]; [reflexivity |].
  rewrite IH. destruct (mapGet key rest); reflexivity.
Qed.

Lemma mapSet_In_value (key : string) (p : PersonaConfig) (m : list (string * PersonaConfig)) :
  In (key, p) (mapSet key p m).
Proof.
  induction m as [| [k v] rest IH]; cbn [mapSet]; [now left |].
  destruct (String.eqb_spec k key) as [-> | Hne]; [now left | now right].
Qed.

Lemma mapDelete_spec (key : string) (m : list (string * PersonaConfig)) :
  NoDup (map fst m) ->
  fst (mapDelete key m) = existsb (String.eqb key) (map fst m)
  /\ snd (mapDelete key m) = filter (fun kv => negb (String.eqb (fst kv) key)) m.
Proof.
  induction m as [| [k v] rest IH]; intros Hnd; cbn [mapDelete map fst existsb filter];
    [split; reflexivity |].
  inversion Hnd as [| x l Hnotin Hnd' Heq]; subst.
  rewrite (String.eqb_sym key k).
  destruct (String.eqb_spec k key) as [-> | Hne]; cbn [negb orb fst snd].
  - split; [reflexivity |].
    symmetry. apply forallb_filter_id. apply forallb_forall. intros [k' v'] Hin.
    cbn [fst]. apply negb_true_iff, String.eqb_neq. intros ->.
    apply Hnotin. apply in_map_iff. now exists (key, v').
  - destruct (IH Hnd') as [Hf Hs]. destruct (mapDelete key rest) as [found rest'].
    cbn [fst snd] in *. now rewrite Hf, Hs.
Qed.

Lemma mapGet_filter_other (key q : string) (m : list (string * PersonaConfig)) :
  mapGet q (filter (fun kv => negb (String.eqb (fst kv) key)) m)
  = if String.eqb key q then None else mapGet q m.
Proof.
  induction m as [| [k v] rest IH]; cbn [filter mapGet fst].
  - destruct (String.eqb key q); reflexivity.
  - destruct (String.eqb_spec k key) as [-> | Hne]; cbn [negb mapGet].
    + rewrite IH. destruct (String.eqb key q); reflexivity.
    + rewrite IH. destruct (String.eqb_spec k q) as [-> | Hne']; [| reflexivity].
      apply String.eqb_neq in Hne. rewrite String.eqb_sym in Hne. now rewrite Hne.
Qed.

(** X7 (adding a persona).  After [addPersona(key, persona)], [getPersona]
    finds that persona under every spelling of the key that differs from
    it in letter case only, and finds under any other key what it found
    before.  Adding under a key already present replaces the entry: the
    number of personas grows by one exactly when [getPersona(key)] found
    nothing before; and no key is ever listed twice. *)
Theorem X7_add_then_get :
  forall (pm : PersonaManager) (key : string) (p : PersonaConfig),
    (forall q : string,
        getPersona q (addPersona key p pm)
        = if String.eqb (JS.toLowerCase key) (JS.toLowerCase q)
          then Some p else getPersona q pm)
    /\ getPersona key (addPersona key p pm) = Some p
    /\ List.length (getAllPersonas (addPersona key p pm))
       = (match getPersona key pm with
          | Some _ => List.length (getAllPersonas pm)
          | None => S (List.length (getAllPersonas pm))
          end)
    /\ (NoDup (keysOf pm) -> NoDup (keysOf (addPersona key p pm))).
Proof.
  intros pm key p.
  assert (Hget : forall q : string,
             getPersona q (addPersona key p pm)
             = if String.eqb (JS.toLowerCase key) (JS.toLowerCase q)
               then Some p else getPersona q pm).
  { intros q. unfold getPersona, addPersona. cbn [personas]. apply mapGet_mapSet. }
  split; [exact Hget |]. split; [| split].
  - rewrite Hget, String.eqb_refl. reflexivity.
  - unfold getAllPersonas, addPersona, getPersona. cbn [personas].
    rewrite !length_map. apply mapSet_length.
  - unfold keysOf, addPersona. cbn [personas]. apply mapSet_NoDup.
Qed.

(** X8 (removing a persona).  On a registry whose keys are distinct,
    [removePersona(key)] answers whether [getPersona(key)] found an entry;
    afterwards [getPersona] finds nothing under any spelling of the key
    that differs in letter case only and finds under any other key what it
    found before, the other entries keep their order, and the keys are
    still distinct. *)
Theorem X8_remove_persona :
  forall (pm : PersonaManager) (key : string),
    NoDup (keysOf pm) ->
    let found := fst (removePersona key pm) in
    let pm' := snd (removePersona key pm) in
    found = (match getPersona key pm with Some _ => true | None => false end)
    /\ (forall q : string,
           getPersona q pm'
           = if String.eqb (JS.toLowerCase key) (JS.toLowerCase q)
             then None else getPersona q pm)
    /\ personas pm'
       = filter (fun kv => negb (String.eqb (fst kv) (JS.toLowerCase key))) (personas pm)
    /\ NoDup (keysOf pm').
Proof.
  intros pm key Hnd found pm'.
  destruct (mapDelete_spec (JS.toLowerCase key) (personas pm) Hnd) as [Hf Hs].
  assert (Hfound : found = fst (mapDelete (JS.toLowerCase key) (personas pm))).
  { unfold found, removePersona.
    destruct (mapDelete (JS.toLowerCase key) (personas pm)); reflexivity. }
  assert (Hpm : personas pm' = snd (mapDelete (JS.toLowerCase key) (personas pm))).
  { unfold pm', removePersona.
    destruct (mapDelete (JS.toLowerCase key) (personas pm)); reflexivity. }
  split; [| split; [| split]].
  - rewrite Hfound, Hf. unfold getPersona.
    pose proof (mapGet_Some_iff (JS.toLowerCase key) (personas pm)) as H.
    destruct (existsb (String.eqb (JS.toLowerCase key)) (map fst (personas pm))).
    + destruct (proj1 H eq_refl) as [p ->]. reflexivity.
    + destruct (mapGet (JS.toLowerCase key) (personas pm)) as [p |]; [| reflexivity].
      assert (false = true) by (apply H; now exists p). discriminate.
  - intros q. unfold getPersona. rewrite Hpm, Hs. apply mapGet_filter_other.
  - now rewrite Hpm, Hs.
  - unfold keysOf. rewrite Hpm, Hs. clear -Hnd. unfold keysOf in Hnd.
    induction (personas pm) as [| [k v] rest IH]; [constructor |].
    cbn [map fst] in Hnd. inversion Hnd as [| x l Hnotin Hnd' Heq]; subst.
    cbn [filter fst]. destruct (negb (String.eqb k (JS.toLowerCase key))).
    + cbn [map fst]. constructor; [| exact (IH Hnd')].
      intros Hin. apply Hnotin. apply in_map_iff in Hin.
      destruct Hin as ([k' v'] & Hk & Hin). apply filter_In in Hin.
      apply in_map_iff. exists (k', v'). tauto.
    + exact (IH Hnd').
Qed.

Lemma X8_remove_persona_witness :
  fst (removePersona "BOB" (constructor None)) = true
  /\ getPersona "Bob" (snd (removePersona "BOB" (constructor None))) = None
  /\ getPersona "alice" (snd (removePersona "BOB" (constructor None))) = Some alice.
Proof.
  assert (Hnd : NoDup (keysOf (constructor None))).
  { repeat constructor; cbn; intuition discriminate. }
  destruct (X8_remove_persona (constructor None) "BOB" Hnd) as (Hf & Hq & _).
  split; [exact Hf |]. split; [rewrite Hq; reflexivity | rewrite Hq; reflexivity].
Defined.

Lemma load_NoDup (l : list (string * PersonaConfig)) :
  forall m : list (string * PersonaConfig),
    NoDup (map fst m) ->
    NoDup (map fst (fold_left (fun m kv => mapSet (fst kv) (snd kv) m) l m)).
Proof.
  induction l as [| [k v] l IH]; intros m Hnd; [exact Hnd |].
  cbn [fold_left fst snd]. apply IH, mapSet_NoDup, Hnd.
Qed.

Lemma mapSet_keeps_keys (key q : string) (p : PersonaConfig)
    (m : list (string * PersonaConfig)) :
  In q (map fst m) -> In q (map fst (mapSet key p m)).
Proof.
  intros Hin. rewrite mapSet_keys.
  destruct (existsb (String.eqb key) (map fst m)); [exact Hin |].
  apply in_or_app. now left.
Qed.

Lemma load_keeps_keys (q : string) (l : list (string * PersonaConfig)) :
  forall m : list (string * PersonaConfig),
    In q (map fst m) ->
    In q (map fst (fold_left (fun m kv => mapSet (fst kv) (snd kv) m) l m)).
Proof.
  induction l as [| [k v] l IH]; intros m Hin; [exact Hin |].
  cbn [fold_left fst snd]. apply IH, mapSet_keeps_keys, Hin.
Qed.

Lemma load_length (l : list (string * PersonaConfig)) :
  forall m : list (string * PersonaConfig),
    (List.length m
     <= List.length (fold_left (fun m kv => mapSet (fst kv) (snd kv) m) l m))%nat.
Proof.
  induction l as [| [k v] l IH]; intros m; [cbn; lia |].
  cbn [fold_left fst snd]. specialize (IH (mapSet k v m)).
  rewrite mapSet_length in IH. destruct (mapGet k m); lia.
Qed.

(** X9 (a registry just constructed).  Whatever custom personas are given,
    a new registry lists no key twice, holds at least four personas, finds
    a persona under [alice], [bob], [charlie] and [diana] in any letter
    case, and [getRandomPersonaPair] never throws on it, whatever the sort
    does.  Without custom personas it holds the four defaults, in the
    order of their declaration. *)
Theorem X9_constructed_registry :
  forall custom : option (list (string * PersonaConfig)),
    NoDup (keysOf (constructor custom))
    /\ (4 <= List.length (getAllPersonas (constructor custom)))%nat
    /\ (forall q : string,
           In (JS.toLowerCase q) ["alice"; "bob"; "charlie"; "diana"] ->
           exists p : PersonaConfig, getPersona q (constructor custom) = Some p)
    /\ (forall (RandomSource : Type)
               (sortRandom : RandomSource -> list PersonaConfig -> list PersonaConfig)
               (rs : RandomSource),
           getRandomPersonaPair RandomSource sortRandom rs (constructor custom)
           = inr (nth_error (sortRandom rs (getAllPersonas (constructor custom))) 0,
                  nth_error (sortRandom rs (getAllPersonas (constructor custom))) 1))
    /\ getAllPersonas (constructor None) = [alice; bob; charlie; diana].
Proof.
  intros custom.
  set (defaults := fold_left (fun m kv => mapSet (fst kv) (snd kv) m) DEFAULT_PERSONAS []).
  assert (Hdef : map fst defaults = ["alice"; "bob"; "charlie"; "diana"]) by reflexivity.
  assert (Hnd0 : NoDup (map fst defaults)).
  { rewrite Hdef. repeat constructor; cbn; intuition discriminate. }
  assert (Hnd : NoDup (keysOf (constructor custom))).
  { unfold keysOf, constructor. cbn [personas]. fold defaults.
    destruct custom as [c |]; [apply load_NoDup, Hnd0 | exact Hnd0]. }
  assert (Hlen : (4 <= List.length (getAllPersonas (constructor custom)))%nat).
  { unfold getAllPersonas, constructor. cbn [personas]. fold defaults.
    rewrite length_map. destruct custom as [c |]; [| cbn; lia].
    pose proof (load_length c defaults) as H.
    change (List.length defaults) with 4%nat in H. exact H. }
  split; [exact Hnd |]. split; [exact Hlen |]. split; [| split].
  - intros q Hq. unfold getPersona. apply mapGet_Some_iff, existsb_eqb_In.
    unfold constructor. cbn [personas]. fold defaults.
    destruct custom as [c |].
    + apply load_keeps_keys. rewrite Hdef. exact Hq.
    + rewrite Hdef. exact Hq.
  - intros RandomSource sortRandom rs. unfold getRandomPersonaPair.
    destruct (Nat.ltb_spec (List.length (getAllPersonas (constructor custom))) 2);
      [lia | reflexivity].
  - reflexivity.
Qed.

Lemma load_lower_keys (l : list (string * PersonaConfig)) :
  forall m m' : list (string * PersonaConfig),
    (forall q : string, mapGet (JS.toLowerCase q) m = mapGet (JS.toLowerCase q) m') ->
    forall q : string,
      mapGet (JS.toLowerCase q)
             (fold_left (fun m kv => mapSet (fst kv) (snd kv) m) l m)
      = mapGet (JS.toLowerCase q)
               (fold_left (fun m kv => mapSet (fst kv) (snd kv) m)
                          (filter isLowerKey l) m').
Proof.
  induction l as [| [k v] l IH]; intros m m' Hm q; [apply Hm |].
  cbn [fold_left filter fst snd]. unfold isLowerKey at 1. cbn [fst].
  destruct (String.eqb_spec (JS.toLowerCase k) k) as [Hk | Hk].
  - cbn [fold_left fst snd]. apply IH. intros q'.
    rewrite !mapGet_mapSet, Hm. reflexivity.
  - apply IH. intros q'. rewrite mapGet_mapSet.
    destruct (String.eqb_spec k (JS.toLowerCase q')) as [-> | _]; [| apply Hm].
    exfalso. apply Hk. apply toLowerCase_idempotent.
Qed.

(** X10 (custom keys are stored as given).  The constructor stores a custom
    persona under its key unchanged, while [getPersona] looks up the
    lower-case form of the name it is given.  So custom personas whose key
    has an upper-case letter are never found by [getPersona]: it answers
    as if the registry had been constructed without them.  They are held
    all the same: a persona given last is listed by [getAllPersonas]. *)
Theorem X10_custom_keys_as_given :
  forall (custom : list (string * PersonaConfig)) (q : string),
    getPersona q (constructor (Some custom))
    = getPersona q (constructor (Some (filter isLowerKey custom)))
    /\ (forall (k : string) (p : PersonaConfig),
           In p (getAllPersonas (constructor (Some (custom ++ [(k, p)]))))).
Proof.
  intros custom q. split.
  - unfold getPersona, constructor. cbn [personas].
    apply load_lower_keys. reflexivity.
  - intros k p. unfold getAllPersonas, constructor. cbn [personas].
    rewrite fold_left_app. cbn [fold_left fst snd].
    apply in_map_iff. exists (k, p). split; [reflexivity | apply mapSet_In_value].
Qed.

Lemma trimEnd_nonempty (c : ascii) (s : string) :
  JS.isWhiteSpace c = false -> JS.trimEnd (String c s) <> EmptyString.
Proof.
  intros Hc. cbn [JS.trimEnd]. destruct (JS.trimEnd s); [rewrite Hc |]; discriminate.
Qed.

Lemma trim_blank (s : string) : JS.trim s = EmptyString <-> Blank s.
Proof.
  unfold JS.trim, Blank. induction s as [| c s IH].
  - cbn. split; [intros _ c [] | reflexivity].
  - cbn [JS.trimStart list_ascii_of_string In].
    destruct (JS.isWhiteSpace c) eqn:Hc.
    + rewrite IH. split.
      * intros H c' [<- | Hin]; [exact Hc | now apply H].
      * intros H c' Hin. apply H. now right.
    + split.
      * intros H. now apply trimEnd_nonempty in H.
      * intros H. specialize (H c (or_introl eq_refl)). congruence.
Qed.

Lemma truthy_trim_cases (s : string) :
  (JS.truthyString (JS.trim s) = true /\ ~ Blank s)
  \/ (JS.truthyString (JS.trim s) = false /\ Blank s).
Proof.
  pose proof (trim_blank s) as H.
  destruct (JS.trim s) eqn:Ht; cbn [JS.truthyString].
  - right. split; [reflexivity | now apply H].
  - left. split; [reflexivity |]. intros Hb. apply H in Hb. discriminate.
Qed.

Lemma validatePersona_checks (p : PersonaConfig) :
  (validatePersona p = []
   <-> ~ Blank (name p) /\ ~ Blank (personality p) /\ ~ Blank (speakingStyle p)
       /\ interests p <> [])
  /\ (List.length (validatePersona p) <= 4)%nat
  /\ (Blank (name p) <-> In "Persona name is required" (validatePersona p))
  /\ (interests p = []
      <-> In "Persona must have at least one interest" (validatePersona p)).
Proof.
  unfold validatePersona.
  destruct (truthy_trim_cases (name p)) as [[-> Hn] | [-> Hn]];
    destruct (truthy_trim_cases (personality p)) as [[-> Hp] | [-> Hp]];
    destruct (truthy_trim_cases (speakingStyle p)) as [[-> Hs] | [-> Hs]];
    destruct (interests p) as [| i rest];
    cbn [app List.length In];
    (split; [split; [intros H; try discriminate H; repeat split;
                     try assumption; discriminate
                    | intros (H1 & H2 & H3 & H4); try reflexivity;
                      try contradiction; congruence] |]);
    (split; [lia |]);
    (split; [split; [intros HB; try contradiction; tauto
                    | intros HI; try assumption; exfalso;
                      repeat (destruct HI as [HI | HI]; [discriminate HI |]);
                      exact HI] |]);
    (split; [intros HB; try discriminate HB; tauto
            | intros HI; try reflexivity; exfalso;
              repeat (destruct HI as [HI | HI]; [discriminate HI |]);
              exact HI]).
Qed.

(** X11 (validating a persona).  [validatePersona] reports nothing exactly
    when the name, the personality and the speaking style each have a
    character that is not white space and there is at least one interest.
    It reports at most four errors; the error about the name is among them
    exactly when the name is empty or white space only, the error about
    the interests exactly when there is none; the system prompt is not
    looked at. *)
Theorem X11_validate_persona :
  forall p : PersonaConfig,
    (validatePersona p = []
     <-> ~ Blank (name p) /\ ~ Blank (personality p) /\ ~ Blank (speakingStyle p)
         /\ interests p <> [])
    /\ (List.length (validatePersona p) <= 4)%nat
    /\ (Blank (name p) <-> In "Persona name is required" (validatePersona p))
    /\ (interests p = []
        <-> In "Persona must have at least one interest" (validatePersona p))
    /\ (forall sp : option string,
           validatePersona
             (mkPersona (name p) (personality p) (speakingStyle p) (interests p) sp)
           = validatePersona p).
Proof.
  intros p. destruct (validatePersona_checks p) as (H1 & H2 & H3 & H4).
  split; [exact H1 |]. split; [exact H2 |]. split; [exact H3 |].
  split; [exact H4 |]. intros sp. reflexivity.
Qed.

End RegistryFacts.

Section RandomPairFacts.

Import Personas.

Variable RandomSource : Type.
Variable sortRandom : RandomSource -> list PersonaConfig -> list PersonaConfig.
Hypothesis sort_permutes :
  forall (rs : RandomSource) (l : list PersonaConfig), Permutation l (sortRandom rs l).

(** X12 (a random pair of any registry).  When the sort only rearranges the
    list it is given, [getRandomPersonaPair] throws exactly when the
    registry holds fewer than two personas; otherwise it returns two
    personas of the registry that stand at two different places of it (so
    two personas of two different keys). *)
Theorem X12_random_pair_general :
  forall (rs : RandomSource) (pm : PersonaManager),
    if (List.length (getAllPersonas pm) <? 2)%nat
    then getRandomPersonaPair RandomSource sortRandom rs pm
         = inl (InsufficientPersonas "At least 2 personas are required for a conversation")
    else exists (a b : PersonaConfig) (i j : nat),
        getRandomPersonaPair RandomSource sortRandom rs pm = inr (Some a, Some b)
        /\ i <> j
        /\ nth_error (getAllPersonas pm) i = Some a
        /\ nth_error (getAllPersonas pm) j = Some b.
Proof.
  intros rs pm. unfold getRandomPersonaPair.
  destruct (Nat.ltb_spec (List.length (getAllPersonas pm)) 2) as [Hlt | Hge];
    [reflexivity |].
  pose proof (sort_permutes rs (getAllPersonas pm)) as Hperm.
  destruct (proj1 (Permutation_nth_error _ _) Hperm) as (Hlen & f & Hinj & Hf).
  destruct (sortRandom rs (getAllPersonas pm)) as [| a [| b rest]] eqn:Hs;
    cbn [List.length] in Hlen; try lia.
  exists a, b, (f 0%nat), (f 1%nat). cbn [nth_error].
  split; [reflexivity |]. split.
  - intros Heq. apply Hinj in Heq. discriminate.
  - split; [rewrite <- (Hf 0%nat) | rewrite <- (Hf 1%nat)]; reflexivity.
Qed.

End RandomPairFacts.

(** The statement of X12 on the default registry, with the insertion sort
    and three outcomes of the random source. *)
Lemma X12_random_pair_general_witness :
  exists (a b : Personas.PersonaConfig) (i j : nat),
    Personas.getRandomPersonaPair (list comparison) Personas.insertionSortRandom
      [Lt; Gt; Lt] (Personas.constructor None)
    = inr (Some a, Some b)
    /\ i <> j
    /\ nth_error (Personas.getAllPersonas (Personas.constructor None)) i = Some a
    /\ nth_error (Personas.getAllPersonas (Personas.constructor None)) j = Some b.
Proof.
  exact (X12_random_pair_general (list comparison) Personas.insertionSortRandom
           insertionSortRandom_permutes [Lt; Gt; Lt] (Personas.constructor None)).
Defined.


(* ===================================================================== *)
(** * Further properties of the scheduler *)
(* ===================================================================== *)

Section RunFacts.

Import Platform Manager Turn.

Variable env : Env.

Lemma afterEnd_summary (m : ConversationManager) : RunSummary env m (afterEnd env m).
Proof.
  unfold RunSummary. cbn. repeat split.
  exists [], [], (tick m). cbn.
  rewrite messageEvents_app, errorEvents_app, endedEvents_app. cbn.
  rewrite !app_nil_r, !Nat.add_0_r. repeat split; auto.
Qed.

Lemma afterFailure_summary (m m' : ConversationManager) (e : AIClientError) :
  RunSummary env (afterFailure env m e) m' -> RunSummary env m m'.
Proof.
  intros (Hr & Ha & Hc & generated & failures & t & Hm & He & Hf & Ht & Htot & Htick
          & Hend & Hd).
  cbn in Hc, Hm, He, Ht, Htot, Htick, Hd.
  rewrite messageEvents_app in Hm. rewrite errorEvents_app in He.
  rewrite endedEvents_app in Hd. cbn in Hm, He, Hd.
  rewrite app_nil_r in Hm, Hd. rewrite <- app_assoc in He.
  split; [exact Hr |]. split; [exact Ha |]. split; [exact Hc |].
  exists generated, ([generationFailed (speaker m) e] ++ failures), t.
  repeat split; try assumption; try lia.
  constructor; [| exact Hf]. eexists. split; reflexivity.
Qed.

Lemma afterTurn_summary (m m' : ConversationManager) (r : AIResponse) :
  RunSummary env (afterTurn env m r) m' -> RunSummary env m m'.
Proof.
  intros (Hr & Ha & Hc & generated & failures & t & Hm & He & Hf & Ht & Htot & Htick
          & Hend & Hd).
  unfold History.getTotalMessages in *.
  cbn in Hc, Hm, He, Ht, Htot, Htick, Hd.
  rewrite messageEvents_app in Hm. rewrite errorEvents_app in He.
  rewrite endedEvents_app in Hd. cbn in Hm, He, Hd.
  rewrite app_nil_r in He, Hd. rewrite <- app_assoc in Hm.
  split; [exact Hr |]. split; [exact Ha |]. split; [exact Hc |].
  exists ([turnMessage env m r] ++ generated), failures, t.
  cbn [List.length app].
  repeat split; try assumption; try lia.
  unfold History.getTotalMessages. lia.
Qed.

Lemma loop_summary (fuel : nat) :
  forall (m m' : ConversationManager) (r : Thrown + unit),
    runConversationLoop env fuel m = Finished r m' -> RunSummary env m m'.
Proof.
  induction fuel as [| fuel IH]; intros m m' r Hrun; [discriminate |].
  rewrite runConversationLoop_step in Hrun.
  destruct (isRunning m && isActive (state m));
    [| injection Hrun as _ <-; apply afterEnd_summary].
  destruct (stopNow m); [injection Hrun as _ <-; apply afterEnd_summary |].
  destruct (answer env m) as [e | a].
  - apply (afterFailure_summary m m' e). eapply IH. exact Hrun.
  - apply (afterTurn_summary m m' a). eapply IH. exact Hrun.
Qed.

(** X13 (what every run leaves behind).  Whatever the backend does and
    whenever a stop is requested, a conversation loop that comes to an end
    returns without throwing and leaves the scheduler neither running nor
    active.  Since it was entered it has emitted some messages and some
    error signals, each error a failed generation, and exactly one end
    signal.  The turn index and the ledger's counter
    both grew by the number of messages emitted; the ledger was ended at an
    instant read after the loop was entered, and the end signal carries
    the ledger's counter and the time from the ledger's start to that
    instant. *)
Theorem X13_finished_run :
  forall (fuel : nat) (m m' : ConversationManager) (r : Thrown + unit),
    runConversationLoop env fuel m = Finished r m' ->
    r = inr tt
    /\ isRunning m' = false
    /\ isActive (state m') = false
    /\ config m' = config m
    /\ exists (generated : list History.ConversationMessage) (failures : list Thrown)
              (t : nat),
        messageEvents (emitted m') = messageEvents (emitted m) ++ generated
        /\ errorEvents (emitted m') = errorEvents (emitted m) ++ failures
        /\ Forall isGenerationFailed failures
        /\ currentTurn (state m') = (currentTurn (state m) + List.length generated)%nat
        /\ History.getTotalMessages (historyManager m')
           = (History.getTotalMessages (historyManager m) + List.length generated)%nat
        /\ (tick m <= t)%nat
        /\ History.endTime (History.history (historyManager m')) = Some (newDate env t)
        /\ endedEvents (emitted m')
           = endedEvents (emitted m)
             ++ [(History.getTotalMessages (historyManager m'),
                  newDate env t - History.startTime (History.history (historyManager m)))].
Proof.
  intros fuel m m' r Hrun.
  split; [exact (loop_returns env fuel m m' r Hrun) |].
  exact (loop_summary fuel m m' r Hrun).
Qed.

End RunFacts.

(** The statement of X13 on a conversation of three turns between Alice
    and Bob. *)
Lemma X13_finished_run_witness :
  let m := Scenarios.started Scenarios.answering in
  let m' := Turn.managerOf (Manager.runConversationLoop Scenarios.answering 5 m) in
  Manager.isRunning m' = false /\ Manager.isActive (Manager.state m') = false.
Proof.
  intros m m'.
  assert (Hrun : Manager.runConversationLoop Scenarios.answering 5 m
                 = Manager.Finished (inr tt) m') by (vm_compute; reflexivity).
  pose proof (X13_finished_run Scenarios.answering 5 m m' (inr tt) Hrun) as H.
  exact (conj (proj1 (proj2 H)) (proj1 (proj2 (proj2 H)))).
Defined.

Section LimitFacts.

Import Platform Manager Turn.

Variable env : Env.
Variable cfg : Config.
Variable initialPrompt : string.
Variable options : CLIOptions.

Hypothesis connected : forall t : nat, checkConnection env t = true.

(** The manager the loop of a first conversation starts from. *)
Let m0 : ConversationManager := afterSetup env initialPrompt options (constructor env cfg).

Lemma entered_limit : maxTurns (state m0) = effectiveLimit cfg options.
Proof.
  unfold m0, effectiveLimit. cbn.
  destruct (opt_maxTurns options) as [n |]; [destruct (JS.truthyNumber n) |];
    reflexivity.
Qed.

Lemma entered_total : History.getTotalMessages (historyManager m0) = 1%nat.
Proof.
  unfold m0, History.getTotalMessages.
  destruct (opt_topic options) as [t |] eqn:Ht; [destruct (JS.truthyString t) eqn:Hs |];
    cbn; rewrite ?Ht, ?Hs; reflexivity.
Qed.

Lemma entered_events :
  exists initial : History.ConversationMessage,
    emitted m0 = [EvStarted; EvMessage initial]
    /\ History.personaName initial = "User"
    /\ History.content initial = initialPrompt.
Proof.
  unfold m0. cbn. eexists. split; [reflexivity |]. split; reflexivity.
Qed.

Lemma entered_start (fuel : nat) :
  startConversation env fuel initialPrompt options (constructor env cfg)
  = match runConversationLoop env fuel m0 with
    | Finished _ m' => Finished (inr tt) m'
    | OutOfFuel m' => OutOfFuel m'
    end.
Proof. apply startConversation_connected, connected. Qed.

Lemma effectiveLimit_nonzero (n : Z) : effectiveLimit cfg options = Some n -> n <> 0.
Proof.
  unfold effectiveLimit, JS.truthyNumber. intros H Hn. subst n.
  destruct (opt_maxTurns options) as [a |];
    [destruct (Z.eqb_spec a 0); cbn [negb] in H |];
    try (injection H as ->; congruence);
    destruct (cfg_maxTurns (conversation cfg)) as [b |]; try discriminate H;
    destruct (Z.eqb_spec b 0); cbn [negb] in H; try discriminate H;
    injection H as ->; congruence.
Qed.

(** A loop with no turn limit whose backend answers every request and
    which nobody stops takes one turn for each evaluation of its
    condition. *)
Lemma loop_unbounded
    (every_call_answers :
       forall (t : nat) (prompt : string) (sys : option string)
              (ctx : option (list string)),
         exists r : AIResponse, generateResponse env t prompt sys ctx = inr r)
    (no_stop_request : forall t : nat, stopRequested env t = false)
    (fuel : nat) :
  forall m : ConversationManager,
    isRunning m = true ->
    isActive (state m) = true ->
    maxTurns (state m) = None ->
    exists m' : ConversationManager,
      runConversationLoop env fuel m = OutOfFuel m'
      /\ currentTurn (state m') = (currentTurn (state m) + fuel)%nat
      /\ History.getTotalMessages (historyManager m')
         = (History.getTotalMessages (historyManager m) + fuel)%nat
      /\ endedEvents (emitted m') = endedEvents (emitted m)
      /\ isRunning m' = true.
Proof.
  induction fuel as [| fuel IH]; intros m Hrun Hact Hmax.
  - exists m. cbn. rewrite !Nat.add_0_r. auto.
  - rewrite runConversationLoop_step, Hrun, Hact. cbn [andb].
    assert (Hstop : stopNow m = false) by (unfold stopNow; now rewrite Hmax, Hrun).
    rewrite Hstop.
    destruct (answer_succeeds env every_call_answers m) as [r ->].
    destruct (IH (afterTurn env m r)) as (m' & Hout & Ht & Htot & Hd & Hr).
    + cbn. rewrite !no_stop_request. exact Hrun.
    + exact Hact.
    + exact Hmax.
    + exists m'. split; [exact Hout |].
      unfold History.getTotalMessages in *. cbn in Ht, Htot, Hd.
      rewrite endedEvents_app in Hd. cbn in Hd. rewrite app_nil_r in Hd.
      repeat split; try assumption; lia.
Qed.

Section Answering.

Hypothesis every_call_answers :
  forall (t : nat) (prompt : string) (sys : option string) (ctx : option (list string)),
    exists r : AIResponse, generateResponse env t prompt sys ctx = inr r.

Hypothesis no_stop_request : forall t : nat, stopRequested env t = false.

(** X14 (a conversation of [n] turns).  A scheduler just constructed is
    started under a turn limit of [n], given by the options or, when the
    options give none or zero, by the configuration; its backend passes
    the connectivity check and answers every call, and nobody requests a
    stop.  Given fuel for [n + 1] evaluations of the loop condition the
    conversation comes to an end after exactly [n] turns: the messages
    emitted are the initial prompt by "User" and [n] turns by the primary
    and the secondary persona in alternation, the primary first; no error
    signal is emitted; the one end signal carries [n + 1] messages. *)
Theorem X14_turn_limit :
  forall (n fuel : nat),
    effectiveLimit cfg options = Some (Z.of_nat n) ->
    (n < fuel)%nat ->
    exists m' : ConversationManager,
      startConversation env fuel initialPrompt options (constructor env cfg)
      = Finished (inr tt) m'
      /\ currentTurn (state m') = n
      /\ History.getTotalMessages (historyManager m') = S n
      /\ (exists d : Z, endedEvents (emitted m') = [(S n, d)])
      /\ errorEvents (emitted m') = []
      /\ map History.personaName (messageEvents (emitted m'))
         = "User" :: map (fun role => Personas.name (personaOf cfg role))
                         (alternate primary n).
Proof.
  intros n fuel Hlimit Hfuel.
  pose proof (effectiveLimit_nonzero _ Hlimit) as Hnz.
  destruct (loop_answering env every_call_answers no_stop_request (Z.of_nat n) n fuel m0)
    as (m' & Hout & Ht & _ & _ & Htot & _ & (d & Hd) & He);
    try reflexivity; try lia.
  { rewrite entered_limit. exact Hlimit. }
  rewrite entered_total in Htot, Hd.
  exists m'. split; [rewrite entered_start, Hout; reflexivity |].
  split; [exact Ht |]. split; [exact Htot |].
  split; [exists d; exact Hd |]. split; [exact He |].
  pose proof (loop_alternates env fuel m0) as Halt.
  rewrite Hout in Halt. cbn [managerOf] in Halt.
  destruct Halt as (_ & k & generated & Hlen & Hk & _ & Hm & Hn).
  assert (Hkn : k = n) by (rewrite Ht in Hk; cbn in Hk; lia).
  rewrite Hkn in Hn. rewrite Hm, map_app, Hn. reflexivity.
Qed.

(** X15 (no turn limit).  When neither the options nor the configuration
    give a turn limit other than zero, a conversation whose backend
    answers every call and which nobody stops never comes to an end:
    however many evaluations of the loop condition it is given, it has
    taken a turn at each of them and is still running, and no end signal
    has been emitted.  A limit of zero counts as no limit. *)
Theorem X15_no_limit_no_end :
  forall fuel : nat,
    effectiveLimit cfg options = None ->
    exists m' : ConversationManager,
      startConversation env fuel initialPrompt options (constructor env cfg)
      = OutOfFuel m'
      /\ currentTurn (state m') = fuel
      /\ History.getTotalMessages (historyManager m') = S fuel
      /\ endedEvents (emitted m') = []
      /\ isRunning m' = true.
Proof.
  intros fuel Hlimit.
  destruct (loop_unbounded every_call_answers no_stop_request fuel m0)
    as (m' & Hout & Ht & Htot & Hd & Hr); try reflexivity.
  { rewrite entered_limit. exact Hlimit. }
  rewrite entered_total in Htot.
  exists m'. split; [rewrite entered_start, Hout; reflexivity |].
  repeat split; assumption.
Qed.

End Answering.

(** X16 (a negative turn limit).  Under a turn limit below zero, a
    conversation that passes the connectivity check ends before its first
    turn, whatever the backend would answer: the backend is not asked, the
    events emitted are the start signal, the initial prompt by "User" and
    the end signal, which carries one message, and the turn index is 0. *)
Theorem X16_negative_limit :
  forall (n : Z) (fuel : nat),
    effectiveLimit cfg options = Some n ->
    n < 0 ->
    exists (m' : ConversationManager) (initial : History.ConversationMessage) (d : Z),
      startConversation env (S fuel) initialPrompt options (constructor env cfg)
      = Finished (inr tt) m'
      /\ emitted m' = [EvStarted; EvMessage initial; EvEnded 1 d]
      /\ History.personaName initial = "User"
      /\ History.content initial = initialPrompt
      /\ currentTurn (state m') = 0%nat.
Proof.
  intros n fuel Hlimit Hneg.
  assert (Hstop : stopNow m0 = true).
  { unfold stopNow. rewrite entered_limit, Hlimit.
    apply orb_true_iff. left. apply andb_true_iff. split.
    - unfold JS.truthyNumber. apply negb_true_iff, Z.eqb_neq. lia.
    - rewrite Z.geb_leb. apply Z.leb_le. lia. }
  destruct entered_events as (initial & Hev & Hname & Hcontent).
  exists (afterEnd env m0), initial.
  eexists. split.
  - rewrite entered_start, runConversationLoop_step, Hstop.
    destruct (isRunning m0 && isActive (state m0)); reflexivity.
  - split; [| repeat split; assumption].
    unfold afterEnd. cbn [emitted]. rewrite Hev.
    pose proof entered_total as Htot. unfold History.getTotalMessages in Htot.
    rewrite Htot. reflexivity.
Qed.

End LimitFacts.

(** The statement of X14 for Alice and Bob under a limit of three turns. *)
Lemma X14_turn_limit_witness :
  exists m' : Manager.ConversationManager,
    Manager.startConversation Scenarios.answering 5 "Hello" (Scenarios.turns 3)
      (Manager.constructor Scenarios.answering Scenarios.aliceBob)
    = Manager.Finished (inr tt) m'
    /\ Manager.currentTurn (Manager.state m') = 3%nat
    /\ History.getTotalMessages (Manager.historyManager m') = 4%nat
    /\ (exists d : Z, Turn.endedEvents (Manager.emitted m') = [(4%nat, d)])
    /\ Turn.errorEvents (Manager.emitted m') = []
    /\ map History.personaName (Turn.messageEvents (Manager.emitted m'))
       = "User" :: map (fun role => Personas.name (Turn.personaOf Scenarios.aliceBob role))
                       (Turn.alternate Manager.primary 3).
Proof.
  apply (X14_turn_limit Scenarios.answering Scenarios.aliceBob "Hello" (Scenarios.turns 3)
           (fun _ => eq_refl) (fun _ _ _ _ => ex_intro _ _ eq_refl) (fun _ => eq_refl)
           3%nat 5%nat).
  - reflexivity.
  - lia.
Defined.

(** The statement of X15 for Alice and Bob under a limit of zero, after
    four turns. *)
Lemma X15_no_limit_no_end_witness :
  exists m' : Manager.ConversationManager,
    Manager.startConversation Scenarios.answering 4 "Hello" (Scenarios.turns 0)
      (Manager.constructor Scenarios.answering Scenarios.aliceBob)
    = Manager.OutOfFuel m'
    /\ Manager.currentTurn (Manager.state m') = 4%nat
    /\ History.getTotalMessages (Manager.historyManager m') = 5%nat
    /\ Turn.endedEvents (Manager.emitted m') = []
    /\ Manager.isRunning m' = true.
Proof.
  apply (X15_no_limit_no_end Scenarios.answering Scenarios.aliceBob "Hello"
           (Scenarios.turns 0)
           (fun _ => eq_refl) (fun _ _ _ _ => ex_intro _ _ eq_refl) (fun _ => eq_refl)
           4%nat).
  reflexivity.
Defined.

(** The statement of X16 for Alice and Bob under a limit of -1, with a
    backend that would fail every call. *)
Lemma X16_negative_limit_witness :
  exists (m' : Manager.ConversationManager) (initial : History.ConversationMessage)
         (d : Z),
    Manager.startConversation Scenarios.failing 1 "Hello" (Scenarios.turns (-1))
      (Manager.constructor Scenarios.failing Scenarios.aliceBob)
    = Manager.Finished (inr tt) m'
    /\ Manager.emitted m'
       = [Manager.EvStarted; Manager.EvMessage initial; Manager.EvEnded 1 d]
    /\ History.personaName initial = "User"
    /\ History.content initial = "Hello"
    /\ Manager.currentTurn (Manager.state m') = 0%nat.
Proof.
  apply (X16_negative_limit Scenarios.failing Scenarios.aliceBob "Hello"
           (Scenarios.turns (-1)) (fun _ => eq_refl) (-1) 0%nat).
  - reflexivity.
  - lia.
Defined.

Section StopFacts.

Import Platform Manager Turn.

Variable env : Env.

(** X17 (a stop requested during a turn).  The loop looks at a stop request
    only at the top of an iteration.  When the request arrives while the
    backend is answering, or during the pause after the turn, and the
    backend answers, the turn is completed all the same: its message, by
    the persona whose turn it was and with the trimmed answer as content,
    is appended and emitted, and the turn index grows by one.  The loop
    then ends without another request to the backend; the end signal
    counts the message of that last turn. *)
Theorem X17_stop_during_turn :
  forall (fuel : nat) (m : ConversationManager) (r : AIResponse),
    isRunning m = true ->
    isActive (state m) = true ->
    stopNow m = false ->
    answer env m = inr r ->
    stopRequested env (tick m) = true \/ stopRequested env (3 + tick m) = true ->
    exists (m' : ConversationManager) (message : History.ConversationMessage) (d : Z),
      runConversationLoop env (S (S fuel)) m = Finished (inr tt) m'
      /\ emitted m'
         = emitted m
           ++ [EvThinking (Personas.name (speaker m)); EvMessage message;
               EvEnded (S (History.getTotalMessages (historyManager m))) d]
      /\ History.personaName message = Personas.name (speaker m)
      /\ History.content message = JS.trim (ai_content r)
      /\ currentTurn (state m') = S (currentTurn (state m))
      /\ History.getTotalMessages (historyManager m')
         = S (History.getTotalMessages (historyManager m))
      /\ isRunning m' = false
      /\ isActive (state m') = false.
Proof.
  intros fuel m r Hrun Hact Hstop Hans Hreq.
  exists (afterEnd env (afterTurn env m r)), (turnMessage env m r).
  eexists. split.
  - rewrite runConversationLoop_step, Hrun, Hact, Hstop, Hans. cbn [andb].
    rewrite runConversationLoop_step.
    assert (Hoff : isRunning (afterTurn env m r) = false).
    { cbn [afterTurn isRunning]. cbn [Nat.add] in Hreq.
      destruct Hreq as [-> | ->];
        [destruct (stopRequested env (S (S (S (tick m))))) |]; reflexivity. }
    rewrite Hoff. reflexivity.
  - unfold History.getTotalMessages. cbn. rewrite <- app_assoc.
    repeat split; reflexivity.
Qed.

(** X18 (a stop requested between turns).  After [stopConversation()] the
    loop ends at its next evaluation of the loop condition, whatever the
    turn limit and the backend: nothing is asked of the backend, no message
    is appended, the turn index is as it was, and the only event emitted
    is the end signal with the ledger's counter. *)
Theorem X18_stop_between_turns :
  forall (fuel : nat) (m : ConversationManager),
    exists (m' : ConversationManager) (d : Z),
      runConversationLoop env (S fuel) (snd (stopConversation m)) = Finished (inr tt) m'
      /\ emitted m'
         = emitted m ++ [EvEnded (History.getTotalMessages (historyManager m)) d]
      /\ History.getMessages (historyManager m') = History.getMessages (historyManager m)
      /\ currentTurn (state m') = currentTurn (state m)
      /\ isRunning m' = false
      /\ isActive (state m') = false.
Proof.
  intros fuel m.
  exists (afterEnd env (snd (stopConversation m))). eexists. split.
  - rewrite runConversationLoop_step. reflexivity.
  - repeat split; reflexivity.
Qed.

End StopFacts.

(** The statement of X17 for Alice and Bob when the stop is requested
    while the backend answers the first request. *)
Lemma X17_stop_during_turn_witness :
  exists (m' : Manager.ConversationManager) (message : History.ConversationMessage)
         (d : Z),
    Manager.runConversationLoop interrupted 2 (Scenarios.started interrupted)
    = Manager.Finished (inr tt) m'
    /\ Manager.emitted m'
       = Manager.emitted (Scenarios.started interrupted)
         ++ [Manager.EvThinking "Alice"; Manager.EvMessage message; Manager.EvEnded 2 d]
    /\ History.personaName message = "Alice"
    /\ History.content message = "That is an interesting point."
    /\ Manager.currentTurn (Manager.state m') = 1%nat
    /\ History.getTotalMessages (Manager.historyManager m') = 2%nat
    /\ Manager.isRunning m' = false
    /\ Manager.isActive (Manager.state m') = false.
Proof.
  assert (Hans : Turn.answer interrupted (Scenarios.started interrupted)
                 = inr {| Platform.ai_content := "That is an interesting point.";
                          Platform.ai_model := "llama2";
                          Platform.ai_timestamp := Scenarios.dateAt 4;
                          Platform.ai_tokensUsed := Some 12 |})
    by (vm_compute; reflexivity).
  exact (X17_stop_during_turn interrupted 0%nat (Scenarios.started interrupted) _
           eq_refl eq_refl eq_refl Hans (or_introl eq_refl)).
Defined.

Section SnapshotFacts.

Import Platform Manager Turn.

Variable env : Env.

Lemma loop_turns_grow (fuel : nat) (m m' : ConversationManager) (r : Thrown + unit) :
  runConversationLoop env fuel m = Finished r m' ->
  (currentTurn (state m) <= currentTurn (state m'))%nat.
Proof.
  intros Hrun. apply loop_summary in Hrun.
  destruct Hrun as (_ & _ & _ & generated & failures & t & _ & _ & _ & Ht & _).
  lia.
Qed.

Lemma loop_snapshot (fuel : nat) :
  forall (m m' : ConversationManager) (r : Thrown + unit),
    runConversationLoop env fuel m = Finished r m' -> SnapshotAtEnd env m m'.
Proof.
  induction fuel as [| fuel IH]; intros m m' r Hrun; [discriminate |].
  rewrite runConversationLoop_step in Hrun.
  assert (Hend : SnapshotAtEnd env m (afterEnd env m)).
  { split.
    - intros _. cbn. repeat split. now exists (tick m).
    - cbn. lia. }
  destruct (isRunning m && isActive (state m)); [| injection Hrun as _ <-; exact Hend].
  destruct (stopNow m); [injection Hrun as _ <-; exact Hend |].
  destruct (answer env m) as [e | a].
  - exact (IH (afterFailure env m e) m' r Hrun).
  - pose proof (loop_turns_grow _ _ _ _ Hrun) as Hge.
    destruct (IH (afterTurn env m a) m' r Hrun) as [Hsame Hmore].
    cbn [afterTurn state currentTurn] in Hge, Hsame, Hmore.
    split; [intros Heq; lia |]. intros Hlt.
    destruct (Nat.eq_dec (currentTurn (state m')) (S (currentTurn (state m))))
      as [Heq | Hne].
    + destruct (Hsame Heq) as (Hh & Hc & t & Hhm).
      cbn [afterTurn state history context historyManager] in Hh, Hc, Hhm.
      rewrite Hh, Hc, Hhm. repeat split; reflexivity.
    + destruct Hmore as (H1 & H2 & H3 & H4); [lia |].
      repeat split; assumption.
Qed.

(** X19 (the state's snapshot of the ledger).  The state keeps a copy of
    the ledger's history and context window that is refreshed at the end
    of each completed turn, and only there.  So when a run comes to an
    end without a completed turn, the copy is the one the run started
    with: it does not show the initial prompt appended at the start.  When
    at least one turn was completed, the copy shows the messages, the
    counter and the context window of the ledger as it is at the end, but
    not the end time: ending the ledger does not refresh the copy. *)
Theorem X19_state_snapshot :
  forall (fuel : nat) (m m' : ConversationManager) (r : Thrown + unit),
    runConversationLoop env fuel m = Finished r m' ->
    (currentTurn (state m') = currentTurn (state m) ->
     history (getState m') = history (getState m)
     /\ context (getState m') = context (getState m))
    /\ ((currentTurn (state m) < currentTurn (state m'))%nat ->
        History.messages (history (getState m')) = History.getMessages (getHistory m')
        /\ History.totalMessages (history (getState m'))
           = History.getTotalMessages (getHistory m')
        /\ context (getState m') = History.getContextWindow (getHistory m')
        /\ History.endTime (history (getState m'))
           = History.endTime (History.history (getHistory m)))
    /\ (exists t : nat,
           History.endTime (History.history (getHistory m')) = Some (newDate env t)).
Proof.
  intros fuel m m' r Hrun.
  destruct (loop_snapshot fuel m m' r Hrun) as [Hsame Hmore].
  pose proof (loop_summary env fuel m m' r Hrun) as Hsum.
  destruct Hsum as (_ & _ & _ & generated & failures & t & _ & _ & _ & _ & _ & _ & Hend & _).
  unfold getState, getHistory.
  split; [| split; [exact Hmore | now exists t]].
  intros Heq. destruct (Hsame Heq) as (Hh & Hc & _). now split.
Qed.

End SnapshotFacts.

(** The statement of X19 on a conversation of three turns between Alice
    and Bob: at the end the state's copy of the history has the four
    messages and no end time, while the ledger has one. *)
Lemma X19_state_snapshot_witness :
  let m := Scenarios.started Scenarios.answering in
  let m' := Turn.managerOf (Manager.runConversationLoop Scenarios.answering 5 m) in
  (History.messages (Manager.history (Manager.getState m'))
   = History.getMessages (Manager.getHistory m')
   /\ History.totalMessages (Manager.history (Manager.getState m')) = 4%nat
   /\ History.endTime (Manager.history (Manager.getState m')) = None)
  /\ exists t : nat,
      History.endTime (History.history (Manager.getHistory m'))
      = Some (Platform.newDate Scenarios.answering t).
Proof.
  intros m m'.
  assert (Hrun : Manager.runConversationLoop Scenarios.answering 5 m
                 = Manager.Finished (inr tt) m') by (vm_compute; reflexivity).
  pose proof (X19_state_snapshot Scenarios.answering 5 m m' (inr tt) Hrun) as H.
  destruct H as (_ & Hmore & Hend).
  split; [| exact Hend].
  assert (Hlt : (Manager.currentTurn (Manager.state m)
                 < Manager.currentTurn (Manager.state m'))%nat)
    by (vm_compute; lia).
  destruct (Hmore Hlt) as (H1 & H2 & _ & H4).
  split; [exact H1 |]. split; [rewrite H2; vm_compute; reflexivity |].
  rewrite H4. reflexivity.
Defined.

(* ===================================================================== *)
(** * Further properties of the analytics *)
(* ===================================================================== *)

Section RankingFacts.

Import Analytics.

Lemma insertIndex_perm (e : N * string) (l : list (N * string)) :
  Permutation (insertIndex e l) (e :: l).
Proof.
  induction l as [| y rest IH]; cbn [insertIndex]; [reflexivity |].
  destruct (fst e <? fst y)%N; [reflexivity |].
  rewrite IH. apply perm_swap.
Qed.

Lemma indexed_perm (ks : list string) :
  forall acc : list (N * string),
    Permutation
      (map snd
         (fold_left
            (fun l k => match arrayIndex k with
                        | Some n => insertIndex (n, k) l
                        | None => l
                        end) ks acc))
      (map snd acc
       ++ filter (fun k => match arrayIndex k with Some _ => true | None => false end) ks).
Proof.
  induction ks as [| k ks IH]; intros acc; cbn [fold_left filter].
  - now rewrite app_nil_r.
  - rewrite IH. destruct (arrayIndex k) as [n |]; [| reflexivity].
    rewrite (Permutation_map snd (insertIndex_perm (n, k) acc)). cbn [map snd].
    apply Permutation_middle.
Qed.

Lemma filter_split_perm {A : Type} (f : A -> bool) (l : list A) :
  Permutation (filter f l ++ filter (fun x => negb (f x)) l) l.
Proof.
  induction l as [| x l IH]; cbn [filter]; [reflexivity |].
  destruct (f x); cbn [negb app].
  - now constructor.
  - rewrite <- Permutation_middle. now constructor.
Qed.

Lemma objectKeys_perm (acc : list (string * nat)) :
  Permutation (objectKeys acc) (map fst acc).
Proof.
  unfold objectKeys. rewrite indexed_perm. cbn [map app].
  rewrite <- (filter_split_perm
                (fun k => match arrayIndex k with Some _ => true | None => false end)
                (map fst acc)) at 3.
  apply Permutation_app_head.
  rewrite (filter_ext
             (fun k => match arrayIndex k with Some _ => false | None => true end)
             (fun k => negb match arrayIndex k with Some _ => true | None => false end));
    [reflexivity |].
  intros k. destruct (arrayIndex k); reflexivity.
Qed.

Lemma insertByCount_perm (counts : list (string * nat)) (k : string) (l : list string) :
  Permutation (insertByCount counts k l) (k :: l).
Proof.
  induction l as [| y rest IH]; cbn [insertByCount]; [reflexivity |].
  destruct (lookupCount y counts <? lookupCount k counts)%nat; [reflexivity |].
  rewrite IH. apply perm_swap.
Qed.

Lemma sortByCount_perm (counts : list (string * nat)) (keys : list string) :
  Permutation (sortByCount counts keys) keys.
Proof.
  unfold sortByCount.
  assert (H : forall acc : list string,
             Permutation (fold_left (fun sorted k => insertByCount counts k sorted) keys acc)
                         (acc ++ keys)).
  { induction keys as [| k keys IH]; intros acc; cbn [fold_left].
    - now rewrite app_nil_r.
    - rewrite IH, insertByCount_perm. apply Permutation_middle. }
  exact (H []).
Qed.

Lemma insertByCount_sorted (counts : list (string * nat)) (k : string) (l : list string) :
  StronglySorted (fun a b => (lookupCount b counts <= lookupCount a counts)%nat) l ->
  StronglySorted (fun a b => (lookupCount b counts <= lookupCount a counts)%nat)
                 (insertByCount counts k l).
Proof.
  induction l as [| y rest IH]; intros Hs; cbn [insertByCount].
  - repeat constructor.
  - apply StronglySorted_inv in Hs. destruct Hs as [Hrest Hall].
    destruct (Nat.ltb_spec (lookupCount y counts) (lookupCount k counts)) as [Hlt | Hge].
    + constructor; [constructor; assumption |].
      constructor; [lia |].
      rewrite Forall_forall in Hall |- *. intros z Hz. specialize (Hall z Hz). lia.
    + constructor; [apply IH, Hrest |].
      rewrite Forall_forall in Hall |- *. intros z Hz.
      apply (Permutation_in _ (insertByCount_perm counts k rest)) in Hz.
      destruct Hz as [<- | Hz]; [exact Hge | exact (Hall z Hz)].
Qed.

Lemma sortByCount_sorted (counts : list (string * nat)) (keys : list string) :
  StronglySorted (fun a b => (lookupCount b counts <= lookupCount a counts)%nat)
                 (sortByCount counts keys).
Proof.
  unfold sortByCount.
  assert (H : forall acc : list string,
             StronglySorted
               (fun a b => (lookupCount b counts <= lookupCount a counts)%nat) acc ->
             StronglySorted
               (fun a b => (lookupCount b counts <= lookupCount a counts)%nat)
               (fold_left (fun sorted k => insertByCount counts k sorted) keys acc)).
  { induction keys as [| k keys IH]; intros acc Hacc; cbn [fold_left]; [exact Hacc |].
    apply IH, insertByCount_sorted, Hacc. }
  apply H. constructor.
Qed.

Lemma ranking_perm (ws : list string) :
  Permutation (ranking ws) (map fst (countAll ws [])).
Proof.
  unfold ranking. rewrite sortByCount_perm. apply objectKeys_perm.
Qed.

Lemma ranking_NoDup (ws : list string) : NoDup (ranking ws).
Proof.
  apply (Permutation_NoDup (Permutation_sym (ranking_perm ws))).
  apply countAll_NoDup. constructor.
Qed.

Lemma ranking_In (ws : list string) (k : string) : In k (ranking ws) <-> In k ws.
Proof.
  split; intros H.
  - apply (Permutation_in _ (ranking_perm ws)) in H.
    apply countAll_In in H. destruct H as [[] | H]. exact H.
  - apply (Permutation_in _ (Permutation_sym (ranking_perm ws))).
    apply countAll_In. now right.
Qed.

Lemma ranking_sorted (ws : list string) : StronglySorted (byFrequency ws) (ranking ws).
Proof.
  pose proof (sortByCount_sorted (countAll ws []) (objectKeys (countAll ws []))) as H.
  fold (ranking ws) in H. revert H. generalize (ranking ws). intros l H.
  induction H as [| a l Hs IH Hall]; constructor; [exact IH |].
  rewrite Forall_forall in Hall |- *. intros z Hz. specialize (Hall z Hz).
  unfold byFrequency. rewrite !countAll_lookup in Hall. cbn [lookupCount] in Hall. lia.
Qed.

Lemma StronglySorted_firstn {A : Type} (R : A -> A -> Prop) (n : nat) (l : list A) :
  StronglySorted R l -> StronglySorted R (firstn n l).
Proof.
  intros Hs. revert n. induction Hs as [| a l Hs IH Hall]; intros n.
  - rewrite firstn_nil. constructor.
  - destruct n as [| n]; cbn [firstn]; constructor; [apply IH |].
    rewrite Forall_forall in Hall |- *. intros z Hz. apply Hall.
    rewrite <- (firstn_skipn n l). apply in_or_app. now left.
Qed.

Lemma StronglySorted_split {A : Type} (R : A -> A -> Prop) (n : nat) (l : list A) :
  StronglySorted R l ->
  forall a b : A, In a (firstn n l) -> In b (skipn n l) -> R a b.
Proof.
  intros Hs. revert n. induction Hs as [| x l Hs IH Hall]; intros n a b Ha Hb.
  - rewrite firstn_nil in Ha. destruct Ha.
  - destruct n as [| n]; cbn [firstn skipn] in Ha, Hb; [destruct Ha |].
    destruct Ha as [<- | Ha].
    + rewrite Forall_forall in Hall. apply Hall.
      rewrite <- (firstn_skipn n l). apply in_or_app. now right.
    + exact (IH n a b Ha Hb).
Qed.

Lemma NoDup_firstn {A : Type} (n : nat) (l : list A) : NoDup l -> NoDup (firstn n l).
Proof.
  intros Hnd. rewrite <- (firstn_skipn n l) in Hnd. exact (NoDup_app_remove_r _ _ Hnd).
Qed.

Lemma In_firstn {A : Type} (n : nat) (l : list A) (x : A) : In x (firstn n l) -> In x l.
Proof.
  intros H. rewrite <- (firstn_skipn n l). apply in_or_app. now left.
Qed.

(** The first [n] of a ranking: at most [n] distinct words of the list, by
    falling number of occurrences, none of the words left out occurring
    more often than one of them; all the words when they are fewer than
    [n]. *)
Lemma top_of_ranking (ws : list string) (n : nat) :
  let top := firstn n (ranking ws) in
  (List.length top <= n)%nat
  /\ NoDup top
  /\ (forall k : string, In k top -> In k ws)
  /\ StronglySorted (byFrequency ws) top
  /\ (forall w k : string, In w ws -> ~ In w top -> In k top -> byFrequency ws k w)
  /\ ((List.length top < n)%nat -> forall w : string, In w ws -> In w top).
Proof.
  intros top. subst top.
  split; [apply firstn_le_length |].
  split; [apply NoDup_firstn, ranking_NoDup |].
  split; [intros k Hk; apply ranking_In; exact (In_firstn _ _ _ Hk) |].
  split; [apply StronglySorted_firstn, ranking_sorted |].
  split.
  - intros w k Hw Hnot Hk.
    apply (StronglySorted_split _ n _ (ranking_sorted ws) k w Hk).
    apply ranking_In in Hw. rewrite <- (firstn_skipn n (ranking ws)) in Hw.
    apply in_app_or in Hw. destruct Hw as [Hw | Hw]; [contradiction | exact Hw].
  - intros Hlt w Hw. rewrite length_firstn in Hlt.
    rewrite firstn_all2 by lia. now apply ranking_In.
Qed.

Lemma sliceRange_firstn {A : Type} (n : Z) (l : list A) :
  0 <= n -> JS.sliceRange 0 n l = firstn (Z.to_nat n) l.
Proof.
  intros Hn. unfold JS.sliceRange.
  destruct (Z.ltb_spec 0 0) as [| _]; [lia |].
  destruct (Z.ltb_spec n 0) as [| _]; [lia |].
  replace (Z.to_nat (Z.min 0 (Z.of_nat (List.length l)))) with 0%nat by lia.
  cbn [skipn].
  destruct (Z_le_gt_dec n (Z.of_nat (List.length l))) as [Hle | Hgt].
  - f_equal. lia.
  - rewrite !firstn_all2 by lia. reflexivity.
Qed.

(** X20 (keywords).  The keywords of a text in which neither [constructor]
    nor [__proto__] is counted are at most ten words, all different, each
    a word of the lower-cased text of more than three characters that is
    not a common word.  They come by falling number of occurrences in the
    text, and no word left out occurs more often than a keyword; with
    fewer than ten keywords, every such word of the text is a keyword. *)
Theorem X20_keywords :
  forall text : string,
    plainKeys (candidateWords text) = true ->
    let words := candidateWords text in
    let keywords := extractKeywords text in
    (List.length keywords <= 10)%nat
    /\ NoDup keywords
    /\ (forall k : string,
           In k keywords ->
           In k words /\ (3 < String.length k)%nat /\ ~ In k commonWords)
    /\ StronglySorted (byFrequency words) keywords
    /\ (forall w k : string,
           In w words -> ~ In w keywords -> In k keywords -> byFrequency words k w)
    /\ ((List.length keywords < 10)%nat -> forall w : string, In w words -> In w keywords).
Proof.
  intros text _ words keywords.
  assert (Hk : keywords = firstn 10 (ranking words)) by reflexivity.
  destruct (top_of_ranking words 10) as (H1 & H2 & H3 & H4 & H5 & H6).
  rewrite Hk. split; [exact H1 |]. split; [exact H2 |].
  split; [| split; [exact H4 | split; [exact H5 | exact H6]]].
  intros k Hin. specialize (H3 k Hin). split; [exact H3 |].
  unfold words, candidateWords in H3. apply filter_In in H3.
  destruct H3 as [_ Hf]. apply andb_prop in Hf. destruct Hf as [Hlen Hcommon].
  split; [apply Nat.ltb_lt, Hlen |].
  apply existsb_eqb_not_In. now apply negb_true_iff.
Qed.

Lemma X20_keywords_witness :
  let keywords := extractKeywords "Robots dream; robots learn. Robots dream: 2024!" in
  (List.length keywords <= 10)%nat /\ NoDup keywords.
Proof.
  intros keywords.
  pose proof (X20_keywords "Robots dream; robots learn. Robots dream: 2024!" eq_refl) as H.
  exact (conj (proj1 H) (proj1 (proj2 H))).
Defined.

(** X21 (top topics).  For a count [n] of zero or more and topics none of
    which is a property name every object inherits, [getTopTopics] returns
    at most [n] topics, all different and all among those given, by
    falling number of occurrences; no topic left out occurs more often
    than one returned, and with fewer than [n] returned every topic given
    is among them. *)
Theorem X21_top_topics :
  forall (topics : list string) (n : Z),
    plainKeys topics = true ->
    0 <= n ->
    let top := getTopTopics topics n in
    (Z.of_nat (List.length top) <= n)
    /\ NoDup top
    /\ (forall k : string, In k top -> In k topics)
    /\ StronglySorted (byFrequency topics) top
    /\ (forall w k : string,
           In w topics -> ~ In w top -> In k top -> byFrequency topics k w)
    /\ (Z.of_nat (List.length top) < n -> forall w : string, In w topics -> In w top).
Proof.
  intros topics n _ Hn top.
  assert (Hk : top = firstn (Z.to_nat n) (ranking topics)).
  { unfold top, getTopTopics. fold (countAll topics []). fold (ranking topics).
    apply sliceRange_firstn, Hn. }
  destruct (top_of_ranking topics (Z.to_nat n)) as (H1 & H2 & H3 & H4 & H5 & H6).
  rewrite Hk. split; [lia |]. split; [exact H2 |]. split; [exact H3 |].
  split; [exact H4 |]. split; [exact H5 |].
  intros Hlt. apply H6. lia.
Qed.

Lemma X21_top_topics_witness :
  let top := getTopTopics ["mind"; "2024"; "mind"; "robots"; "7"; "robots"; "mind"] 2 in
  Z.of_nat (List.length top) <= 2 /\ NoDup top.
Proof.
  intros top.
  pose proof (X21_top_topics ["mind"; "2024"; "mind"; "robots"; "7"; "robots"; "mind"] 2
                eq_refl ltac:(lia)) as H.
  exact (conj (proj1 H) (proj1 (proj2 H))).
Defined.

End RankingFacts.

Section BasicSummaryFacts.

Import Platform Analytics.

Lemma dedupe_In (l : list string) :
  forall (seen : list string) (x : string),
    In x (dedupe seen l) <-> In x l /\ ~ In x seen.
Proof.
  induction l as [| y l IH]; intros seen x; cbn [dedupe In]; [tauto |].
  destruct (existsb (String.eqb y) seen) eqn:He.
  - apply existsb_eqb_In in He. rewrite IH.
    split; [tauto |]. intros [[<- | Hin] Hnot]; [contradiction | tauto].
  - apply existsb_eqb_not_In in He. cbn [In]. rewrite IH. cbn [In].
    destruct (string_dec y x) as [<- | Hne]; [tauto |].
    split; [tauto |]. intros [[Heq | Hin] Hnot]; [contradiction |].
    right. split; [exact Hin |]. intros [Heq | Hs]; [exact (Hne Heq) | exact (Hnot Hs)].
Qed.

Lemma dedupe_NoDup (l : list string) : forall seen : list string, NoDup (dedupe seen l).
Proof.
  induction l as [| y l IH]; intros seen; cbn [dedupe]; [constructor |].
  destruct (existsb (String.eqb y) seen); [apply IH |].
  constructor; [| apply IH].
  intros Hin. apply dedupe_In in Hin. destruct Hin as [_ Hnot]. apply Hnot. now left.
Qed.

Lemma lookupProp_map (f : string -> json) (p : string) (l : list string) :
  In p l -> lookupProp p (map (fun q => (q, f q)) l) = Some (f p).
Proof.
  induction l as [| q l IH]; intros Hin; [destruct Hin |].
  cbn [map lookupProp]. destruct (String.eqb_spec q p) as [-> | Hne]; [reflexivity |].
  destruct Hin as [Heq | Hin]; [contradiction | exact (IH Hin)].
Qed.

(** X22 (the basic summary).  For messages none of which is signed with a
    property name every object inherits, the summary made without the
    backend spans the messages from index 0 to the last (an end of -1 for
    no message), has the type asked for and at most five key topics, and
    lists each speaker once among the contributions, with the number of
    messages of that speaker; it takes one identifier and one instant from
    the platform. *)
Theorem X22_basic_summary :
  forall (env : Env) (t : nat) (messages : list History.ConversationMessage)
         (type : SummaryType),
    plainKeys (map History.personaName messages) = true ->
    let summary := fst (generateBasicSummary env t messages type) in
    sum_type summary = type
    /\ sum_rangeStart summary = 0
    /\ sum_rangeEnd summary = Z.of_nat (List.length messages) - 1
    /\ (List.length (sum_keyTopics summary) <= 5)%nat
    /\ snd (generateBasicSummary env t messages type) = S (S t)
    /\ exists props : list (string * json),
        sum_participantContributions summary = JObject props
        /\ NoDup (map fst props)
        /\ (forall p : string,
               In p (map fst props) <-> In p (map History.personaName messages))
        /\ (forall p : string,
               In p (map History.personaName messages) ->
               lookupProp p props
               = Some (JString ("Contributed "
                                ++ JS.numberToString (Z.of_nat (authored p messages))
                                ++ " messages")%string)).
Proof.
  intros env t messages type _ summary.
  split; [reflexivity |]. split; [reflexivity |]. split; [reflexivity |].
  split.
  { unfold summary, generateBasicSummary. cbn [fst sum_keyTopics].
    rewrite length_map. apply firstn_le_length. }
  split; [reflexivity |].
  unfold summary, generateBasicSummary. cbn [fst sum_participantContributions].
  eexists. split; [reflexivity |].
  rewrite map_map. cbn [fst]. rewrite map_id.
  split; [apply dedupe_NoDup |]. split.
  - intros p. rewrite dedupe_In. cbn [In]. tauto.
  - intros p Hp.
    rewrite (lookupProp_map
               (fun q => JString ("Contributed "
                                  ++ JS.numberToString
                                       (Z.of_nat
                                          (lookupCount q
                                             (fold_left
                                                (fun acc msg =>
                                                   count (History.personaName msg) acc)
                                                messages [])))
                                  ++ " messages")%string) p).
    + rewrite countAll_map, countAll_lookup, count_occ_authored. reflexivity.
    + apply dedupe_In. cbn [In]. tauto.
Qed.

Lemma X22_basic_summary_witness :
  let messages := [History.messageOf (Scenarios.say "Alice" "Hello wonderful world");
                   History.messageOf (Scenarios.say "Bob" "Hello there Alice");
                   History.messageOf (Scenarios.say "Alice" "Goodbye")] in
  let summary := fst (generateBasicSummary Scenarios.answering 0 messages final) in
  sum_rangeEnd summary = 2
  /\ exists props : list (string * json),
      sum_participantContributions summary = JObject props
      /\ lookupProp "Alice" props = Some (JString "Contributed 2 messages").
Proof.
  intros messages summary.
  destruct (X22_basic_summary Scenarios.answering 0 messages final eq_refl)
    as (_ & _ & Hend & _ & _ & props & Hprops & _ & _ & Hcount).
  split; [exact Hend |].
  exists props. split; [exact Hprops |].
  rewrite (Hcount "Alice" (or_introl eq_refl)). reflexivity.
Defined.

End BasicSummaryFacts.

Section CompactionFacts.

Import Platform Analytics.

Variable JSON_parse : string -> option json.
Variable toStringJson : json -> string.





End CompactionFacts.

Section TopicChangeFacts.

Import Analytics.

Lemma topicChangeLoop_fuel (messages : list History.ConversationMessage) (fuel : nat) :
  forall i c : nat,
    (List.length messages - 2 - i + 2 <= 2 * fuel)%nat ->
    exists c' : nat,
      topicChangeLoop messages fuel i c = Some c'
      /\ (c <= c')%nat
      /\ (2 * c' <= 2 * c + (List.length messages - 2 - i) + 1)%nat.
Proof.
  induction fuel as [| fuel IH]; intros i c Hfuel; [lia |].
  cbn [topicChangeLoop].
  destruct (Nat.ltb_spec i (List.length messages - 2)) as [Hlt | Hge].
  - destruct (IH (i + 2)%nat (if topicChangeAt messages i then S c else c))
      as (c' & Hc' & Hlo & Hhi); [lia |].
    exists c'. split; [exact Hc' |].
    destruct (topicChangeAt messages i); split; lia.
  - exists c. split; [reflexivity |]. split; lia.
Qed.

Lemma topicChangeLoop_more_fuel (messages : list History.ConversationMessage)
    (fuel : nat) :
  forall (i c c' fuel' : nat),
    topicChangeLoop messages fuel i c = Some c' ->
    (fuel <= fuel')%nat ->
    topicChangeLoop messages fuel' i c = Some c'.
Proof.
  induction fuel as [| fuel IH]; intros i c c' fuel' Hrun Hle; [discriminate |].
  destruct fuel' as [| fuel']; [lia |].
  cbn [topicChangeLoop] in *.
  destruct (i <? List.length messages - 2)%nat; [| exact Hrun].
  apply (IH _ _ _ fuel' Hrun). lia.
Qed.

Lemma sliceRange_app {A : Type} (s e : Z) (l x : list A) :
  0 <= s <= e -> e <= Z.of_nat (List.length l) ->
  JS.sliceRange s e (l ++ x) = JS.sliceRange s e l.
Proof.
  intros Hs He. unfold JS.sliceRange. rewrite length_app.
  destruct (Z.ltb_spec s 0) as [| _]; [lia |].
  destruct (Z.ltb_spec e 0) as [| _]; [lia |].
  replace (Z.min s (Z.of_nat (List.length l + List.length x))) with s by lia.
  replace (Z.min e (Z.of_nat (List.length l + List.length x))) with e by lia.
  replace (Z.min s (Z.of_nat (List.length l))) with s by lia.
  replace (Z.min e (Z.of_nat (List.length l))) with e by lia.
  rewrite skipn_app.
  replace (Z.to_nat s - List.length l)%nat with 0%nat by lia. cbn [skipn].
  rewrite firstn_app, length_skipn.
  replace (Z.to_nat (e - s) - (List.length l - Z.to_nat s))%nat with 0%nat by lia.
  cbn [firstn]. apply app_nil_r.
Qed.

Lemma topicChangeAt_app (l x : list History.ConversationMessage) (i : nat) :
  (2 <= i)%nat -> (i + 2 <= List.length l)%nat ->
  topicChangeAt (l ++ x) i = topicChangeAt l i.
Proof.
  intros Hi Hlen. unfold topicChangeAt.
  rewrite !sliceRange_app by lia. reflexivity.
Qed.

Lemma topicChangeLoop_last (l : list History.ConversationMessage)
    (a b : History.ConversationMessage) (fuel : nat) :
  forall i c : nat,
    (2 <= i)%nat ->
    topicChangeLoop (l ++ [a]) fuel i c = topicChangeLoop (l ++ [b]) fuel i c.
Proof.
  induction fuel as [| fuel IH]; intros i c Hi; [reflexivity |].
  cbn [topicChangeLoop]. rewrite !length_app. cbn [List.length].
  destruct (Nat.ltb_spec i (List.length l + 1 - 2)) as [Hlt | Hge]; [| reflexivity].
  rewrite !topicChangeAt_app by lia. apply IH. lia.
Qed.

(** X24 (counting topic changes).  [countTopicChanges] comes to an end: with
    fuel for half as many tests of its loop condition as there are
    messages it returns a count, the same for any larger fuel.  The count
    is 0 for four messages or fewer and never more than half of the number
    of messages less three.  The loop stops two short of the end, so the
    last message is never looked at: replacing it changes nothing. *)
Theorem X24_topic_changes :
  forall messages : list History.ConversationMessage,
    (exists n : nat,
        (forall fuel : nat,
            (List.length messages <= 2 * fuel)%nat ->
            countTopicChanges fuel messages = Some n)
        /\ (2 * n <= List.length messages - 3)%nat
        /\ ((List.length messages <= 4)%nat -> n = 0%nat))
    /\ (forall (a b : History.ConversationMessage) (fuel : nat),
           countTopicChanges fuel (messages ++ [a])
           = countTopicChanges fuel (messages ++ [b])).
Proof.
  intros messages. split.
  - unfold countTopicChanges.
    destruct (Nat.ltb_spec (List.length messages) 4) as [Hlt | Hge].
    + exists 0%nat. repeat split; lia.
    + destruct (topicChangeLoop_fuel messages (List.length messages) 2 0)
        as (n & Hn & _ & Hhi); [lia |].
      exists n. split; [| split; lia].
      intros fuel Hfuel.
      destruct (topicChangeLoop_fuel messages fuel 2 0) as (n' & Hn' & _); [lia |].
      destruct (Nat.le_ge_cases fuel (List.length messages)) as [Hle | Hle].
      * rewrite (topicChangeLoop_more_fuel messages fuel _ _ _ _ Hn' Hle) in Hn.
        now rewrite Hn'.
      * exact (topicChangeLoop_more_fuel messages _ _ _ _ fuel Hn Hle).
  - intros a b fuel. unfold countTopicChanges. rewrite !length_app. cbn [List.length].
    destruct (List.length messages + 1 <? 4)%nat; [reflexivity |].
    apply topicChangeLoop_last. lia.
Qed.

End TopicChangeFacts.

(* ===================================================================== *)
(** * Properties of the chat request and of the terminal rendering *)
(* ===================================================================== *)

Section ClientFacts.

Import Client.

Lemma contextMessages_content (context : list string) :
  forall index : nat, map content (contextMessages index context) = context.
Proof.
  induction context as [| c rest IH]; intros index; [reflexivity |].
  cbn [contextMessages map content]. now rewrite IH.
Qed.

Lemma contextMessages_role (context : list string) :
  forall index : nat,
    map role (contextMessages index context)
    = map (fun i => if Nat.even i then user else assistant)
          (seq index (List.length context)).
Proof.
  induction context as [| c rest IH]; intros index; [reflexivity |].
  cbn [contextMessages map role List.length seq]. now rewrite IH.
Qed.

(** X25 (the chat request).  The messages sent to the chat endpoint are, in
    this order: the system prompt, when one is given and not empty, with
    the role [system]; the entries of the context, when one is given, in
    their order, with the roles [user] and [assistant] in turn by their
    position, the first a [user]; and the prompt, always last and always a
    [user].  So the request has one message more than the context when
    there is no system prompt, and two more when there is. *)
Theorem X25_build_messages :
  forall (prompt : string) (systemPrompt : option string) (context : option (list string)),
    let sys := match systemPrompt with
               | Some s => if JS.truthyString s then [s] else []
               | None => []
               end in
    let ctx := match context with Some c => c | None => [] end in
    let messages := buildMessages prompt systemPrompt context in
    map content messages = sys ++ ctx ++ [prompt]
    /\ map role messages
       = map (fun _ => system) sys
         ++ map (fun i => if Nat.even i then user else assistant)
                (seq 0 (List.length ctx))
         ++ [user]
    /\ last messages {| role := system; content := "" |}
       = {| role := user; content := prompt |}
    /\ List.length messages = (List.length sys + List.length ctx + 1)%nat.
Proof.
  intros prompt systemPrompt context sys ctx messages.
  assert (Hc : map content messages = sys ++ ctx ++ [prompt]).
  { unfold messages, buildMessages, sys, ctx. rewrite !map_app.
    destruct systemPrompt as [s |]; [destruct (JS.truthyString s) |];
      destruct context as [c |]; cbn [map content app];
      rewrite ?contextMessages_content; reflexivity. }
  split; [exact Hc |]. split; [| split].
  - unfold messages, buildMessages, sys, ctx. rewrite !map_app.
    destruct systemPrompt as [s |]; [destruct (JS.truthyString s) |];
      destruct context as [c |]; cbn [map role app List.length seq];
      rewrite ?contextMessages_role; reflexivity.
  - unfold messages, buildMessages. rewrite app_assoc. apply last_last.
  - apply (f_equal (@List.length _)) in Hc.
    rewrite length_map, !length_app in Hc. cbn [List.length] in Hc. lia.
Qed.

End ClientFacts.

Section HashFacts.

Import Formatter.

Lemma toInt32_range (z : Z) : -2147483648 <= JS.toInt32 z <= 2147483647.
Proof.
  unfold JS.toInt32.
  pose proof (Z.mod_pos_bound (z + 2147483648) 4294967296 ltac:(lia)). lia.
Qed.

Lemma toInt32_add_l (a b : Z) : JS.toInt32 (JS.toInt32 a + b) = JS.toInt32 (a + b).
Proof.
  unfold JS.toInt32. f_equal.
  replace ((a + 2147483648) mod 4294967296 - 2147483648 + b + 2147483648)
    with ((a + 2147483648) mod 4294967296 + b) by lia.
  rewrite Z.add_mod_idemp_l by lia. f_equal. lia.
Qed.

Lemma toInt32_idem (a : Z) : JS.toInt32 (JS.toInt32 a) = JS.toInt32 a.
Proof.
  pose proof (toInt32_add_l a 0) as H. rewrite !Z.add_0_r in H. exact H.
Qed.

Lemma hashStep_poly (h h' : Z) (c : ascii) :
  JS.toInt32 h = JS.toInt32 h' ->
  hashStep h c = JS.toInt32 (31 * h' + Z.of_nat (nat_of_ascii c)).
Proof.
  intros Hh. unfold hashStep. rewrite Z.shiftl_mul_pow2 by lia.
  replace (JS.toInt32 (h * 2 ^ 5) - h + Z.of_nat (nat_of_ascii c))
    with (JS.toInt32 (h * 2 ^ 5) + (- h + Z.of_nat (nat_of_ascii c))) by lia.
  rewrite toInt32_add_l.
  replace (h * 2 ^ 5 + (- h + Z.of_nat (nat_of_ascii c)))
    with (h * 31 + Z.of_nat (nat_of_ascii c)) by lia.
  rewrite <- (toInt32_add_l (h * 31)), <- (toInt32_add_l (31 * h')).
  f_equal. f_equal.
  unfold JS.toInt32 in *. f_equal.
  assert (Hm : (h + 2147483648) mod 4294967296 = (h' + 2147483648) mod 4294967296) by lia.
  replace (h * 31 + 2147483648) with ((h + 2147483648) * 31 + (-15) * 4294967296) by lia.
  replace (31 * h' + 2147483648) with ((h' + 2147483648) * 31 + (-15) * 4294967296) by lia.
  rewrite !Z.mod_add by lia.
  rewrite (Z.mul_mod (h + 2147483648)), (Z.mul_mod (h' + 2147483648)) by lia.
  now rewrite Hm.
Qed.

Lemma fold_hashStep_poly (l : list ascii) :
  forall h h' : Z,
    JS.toInt32 h = JS.toInt32 h' ->
    h = JS.toInt32 h ->
    fold_left hashStep l h = JS.toInt32 (polyHash l h').
Proof.
  induction l as [| c l IH]; intros h h' Hh Hfix; cbn [fold_left polyHash].
  - now rewrite <- Hh.
  - unfold polyHash in IH. apply IH.
    + rewrite (hashStep_poly h h' c Hh). apply toInt32_idem.
    + unfold hashStep. symmetry. apply toInt32_idem.
Qed.

(** X26 (the hash that picks a colour).  [simpleHash] is the absolute value
    of the 32-bit reduction of the hash in which each character adds its
    code to 31 times the hash so far.  It lies between 0 and 2^31, so that
    its remainder by four, the index [formatPersonaName] picks a colour
    with, is always one of 0, 1, 2 and 3. *)
Theorem X26_simple_hash :
  forall str : string,
    simpleHash str = Z.abs (JS.toInt32 (polyHash (list_ascii_of_string str) 0))
    /\ 0 <= simpleHash str <= 2147483648
    /\ 0 <= colorIndex str <= 3.
Proof.
  intros str.
  assert (Hh : simpleHash str
               = Z.abs (JS.toInt32 (polyHash (list_ascii_of_string str) 0))).
  { unfold simpleHash. f_equal. apply fold_hashStep_poly; reflexivity. }
  assert (Hr : 0 <= simpleHash str <= 2147483648).
  { rewrite Hh.
    pose proof (toInt32_range (polyHash (list_ascii_of_string str) 0)). lia. }
  split; [exact Hh |]. split; [exact Hr |].
  unfold colorIndex. rewrite Z.rem_mod_nonneg by lia.
  pose proof (Z.mod_pos_bound (simpleHash str) 4 ltac:(lia)). lia.
Qed.

End HashFacts.

Section WrapFacts.

Import Formatter.

Lemma string_of_list_ascii_app (a b : list ascii) :
  string_of_list_ascii (a ++ b)
  = (string_of_list_ascii a ++ string_of_list_ascii b)%string.
Proof.
  induction a as [| c a IH]; [reflexivity |]. cbn. now rewrite IH.
Qed.

Lemma string_length_app (a b : string) :
  String.length (a ++ b) = (String.length a + String.length b)%nat.
Proof.
  induction a as [| c a IH]; [reflexivity |]. cbn. now rewrite IH.
Qed.

Lemma string_app_assoc (a b c : string) : ((a ++ b) ++ c = a ++ (b ++ c))%string.
Proof.
  induction a as [| x a IH]; [reflexivity |]. cbn. now rewrite IH.
Qed.

Lemma pieces_cons (sep : ascii) (s : string) :
  exists (p : string) (ps : list string), pieces sep s = p :: ps.
Proof.
  destruct s as [| c s]; cbn [pieces]; [now eexists; eexists |].
  destruct (Ascii.eqb c sep); [now eexists; eexists |].
  destruct (pieces sep s); now eexists; eexists.
Qed.

Lemma splitOnGo_pieces (sep : ascii) (s : string) :
  forall cur : list ascii,
    JS.splitOnGo sep s cur
    = match pieces sep s with
      | p :: ps => (string_of_list_ascii (rev cur) ++ p)%string :: ps
      | [] => []
      end.
Proof.
  induction s as [| c s IH]; intros cur; cbn [JS.splitOnGo pieces].
  - induction (string_of_list_ascii (rev cur)) as [| x r IHr]; [reflexivity |].
    cbn. f_equal. injection IHr as IHr. now f_equal.
  - destruct (Ascii.eqb c sep).
    + rewrite IH. cbn [rev string_of_list_ascii append].
      destruct (pieces_cons sep s) as (p & ps & ->). f_equal.
      induction (string_of_list_ascii (rev cur)) as [| x r IHr]; [reflexivity |].
      cbn. now f_equal.
    + rewrite IH. destruct (pieces_cons sep s) as (p & ps & ->). f_equal.
      cbn [rev]. rewrite string_of_list_ascii_app. cbn [string_of_list_ascii].
      rewrite string_app_assoc. reflexivity.
Qed.

Lemma splitOn_pieces (sep : ascii) (s : string) : JS.splitOn sep s = pieces sep s.
Proof.
  unfold JS.splitOn. rewrite splitOnGo_pieces.
  destruct (pieces_cons sep s) as (p & ps & ->). reflexivity.
Qed.

Lemma pieces_without (sep : ascii) (s : string) :
  forall p : string, In p (pieces sep s) -> ~ In sep (list_ascii_of_string p).
Proof.
  induction s as [| c s IH]; intros p Hin; cbn [pieces] in Hin.
  - destruct Hin as [<- | []]. intros [].
  - destruct (Ascii.eqb_spec c sep) as [-> | Hne].
    + destruct Hin as [<- | Hin]; [intros [] | exact (IH p Hin)].
    + destruct (pieces_cons sep s) as (q & qs & Hq). rewrite Hq in Hin, IH.
      destruct Hin as [<- | Hin].
      * cbn [list_ascii_of_string In]. intros [Heq | Hq']; [congruence |].
        exact (IH q (or_introl eq_refl) Hq').
      * apply IH. now right.
Qed.

Lemma pieces_single (sep : ascii) (s : string) :
  ~ In sep (list_ascii_of_string s) -> pieces sep s = [s].
Proof.
  induction s as [| c s IH]; intros Hno; [reflexivity |].
  cbn [pieces]. cbn [list_ascii_of_string In] in Hno.
  destruct (Ascii.eqb_spec c sep) as [-> | Hne]; [tauto |].
  rewrite IH by tauto. reflexivity.
Qed.

Lemma pieces_app (sep : ascii) (a b : string) :
  pieces sep (a ++ String sep b) = pieces sep a ++ pieces sep b.
Proof.
  induction a as [| c a IH]; cbn [append pieces].
  - now rewrite Ascii.eqb_refl.
  - destruct (Ascii.eqb c sep); [now rewrite IH |].
    rewrite IH. destruct (pieces_cons sep a) as (p & ps & ->). reflexivity.
Qed.

Lemma nonEmpty_app (a b : list string) : nonEmpty (a ++ b) = nonEmpty a ++ nonEmpty b.
Proof. apply filter_app. Qed.

Lemma wrapWord_Wrapped (words : list string) (w : Wrap) (seen : list string)
    (word : string) :
  Wrapped words w seen ->
  In word words ->
  ~ In " "%char (list_ascii_of_string word) ->
  Wrapped words (wrapWord w word) (seen ++ [word]).
Proof.
  intros (bodies & Hl & Hb & Hc & Hw) Hin Hno.
  pose proof (pieces_single " "%char word Hno) as Hp.
  rewrite nonEmpty_app in Hw.
  assert (Hword : word = EmptyString \/ word <> EmptyString)
    by (destruct word; [now left | now right]).
  unfold wrapWord.
  destruct (Nat.leb_spec (String.length (currentLine w) + String.length word + 1)
                         maxWidth) as [Hfit | Hover];
    destruct (currentLine w) as [| c0 cur] eqn:Hcur; cbn [JS.truthyString].
  - exists bodies. cbn [lines currentLine append].
    split; [exact Hl |]. split; [exact Hb |]. split.
    + destruct Hword as [-> | Hne]; [now left |].
      right. split; [exact Hne |]. left. cbn [String.length] in Hfit. lia.
    + cbn [pieces nonEmpty filter JS.truthyString] in Hw. rewrite app_nil_r in Hw.
      rewrite !nonEmpty_app, Hp, Hw. reflexivity.
  - exists bodies. cbn [lines currentLine].
    split; [exact Hl |]. split; [exact Hb |]. split.
    + right. split; [discriminate |]. left.
      rewrite string_length_app. cbn [append String.length] in *. lia.
    + change (" " ++ word)%string with (String " "%char word).
      rewrite pieces_app, Hp, !nonEmpty_app. rewrite <- Hw, ?nonEmpty_app.
      now rewrite app_assoc.
  - exists bodies. cbn [lines currentLine].
    split; [exact Hl |]. split; [exact Hb |]. split.
    + destruct Hword as [-> | Hne]; [now left |].
      right. split; [exact Hne |]. now right.
    + cbn [pieces nonEmpty filter JS.truthyString] in Hw. rewrite app_nil_r in Hw.
      rewrite !nonEmpty_app, Hp, Hw. reflexivity.
  - exists (bodies ++ [String c0 cur]). cbn [lines currentLine].
    split; [rewrite map_app, Hl; reflexivity |]. split; [| split].
    + apply Forall_app. split; [exact Hb |].
      constructor; [| constructor]. destruct Hc as [Hc | Hc]; [discriminate | exact Hc].
    + destruct Hword as [-> | Hne]; [now left |].
      right. split; [exact Hne |]. now right.
    + rewrite flat_map_app. cbn [flat_map]. rewrite app_nil_r.
      rewrite !nonEmpty_app, Hp. rewrite <- Hw, ?nonEmpty_app.
      now rewrite ?app_assoc.
Qed.

Lemma fold_wrapWord_Wrapped (words ws : list string) :
  forall (w : Wrap) (seen : list string),
    Wrapped words w seen ->
    (forall x : string,
        In x ws -> In x words /\ ~ In " "%char (list_ascii_of_string x)) ->
    Wrapped words (fold_left wrapWord ws w) (seen ++ ws).
Proof.
  induction ws as [| x ws IH]; intros w seen Hw Hws; cbn [fold_left].
  - now rewrite app_nil_r.
  - replace (seen ++ x :: ws) with ((seen ++ [x]) ++ ws)
      by (rewrite <- app_assoc; reflexivity).
    apply IH.
    + destruct (Hws x (or_introl eq_refl)) as [Hin Hno].
      now apply wrapWord_Wrapped.
    + intros y Hy. apply Hws. now right.
Qed.

(** X27 (wrapping text).  [formatContent] breaks a text into lines at its
    spaces: each line is two spaces followed by a body that is not empty
    and has at most 76 characters, unless it is one single word of the text
    (a longer word is never cut); and the words of the bodies, in order,
    are the words of the text, those that are empty (between two spaces
    that follow each other) aside: no word is lost, doubled or moved. *)
Theorem X27_format_content :
  forall content : string,
    let words := JS.splitOn " "%char content in
    exists bodies : list string,
      formatContent content
      = JS.join (String (ascii_of_nat 10) EmptyString) (map (append "  ") bodies)
      /\ Forall (fitsOrSingle words) bodies
      /\ nonEmpty (flat_map (JS.splitOn " "%char) bodies) = nonEmpty words.
Proof.
  intros content words.
  assert (Hinit : Wrapped words {| lines := []; currentLine := "" |} []).
  { exists []. cbn. repeat split; [constructor | now left]. }
  assert (Hws : forall x : string,
             In x words -> In x words /\ ~ In " "%char (list_ascii_of_string x)).
  { intros x Hx. split; [exact Hx |].
    unfold words in Hx. rewrite splitOn_pieces in Hx.
    exact (pieces_without _ _ x Hx). }
  destruct (fold_wrapWord_Wrapped words words _ [] Hinit Hws)
    as (bodies & Hl & Hb & Hc & Hw).
  cbn [app] in Hw. rewrite nonEmpty_app in Hw.
  assert (Hflat : forall bs : list string,
             flat_map (JS.splitOn " "%char) bs = flat_map (pieces " "%char) bs).
  { intros bs. apply flat_map_ext. intros b. apply splitOn_pieces. }
  unfold formatContent, wrappedLines. fold words.
  destruct (currentLine (fold_left wrapWord words {| lines := []; currentLine := "" |}))
    as [| c0 cur] eqn:Hcur; cbn [JS.truthyString].
  - exists bodies. split; [now rewrite Hl |]. split; [exact Hb |].
    cbn [pieces nonEmpty filter JS.truthyString] in Hw. rewrite app_nil_r in Hw.
    now rewrite Hflat.
  - exists (bodies ++ [String c0 cur]).
    split; [now rewrite map_app, Hl |]. split.
    + apply Forall_app. split; [exact Hb |].
      constructor; [| constructor]. destruct Hc as [Hc | Hc]; [discriminate | exact Hc].
    + rewrite Hflat, flat_map_app. cbn [flat_map]. rewrite app_nil_r.
      now rewrite nonEmpty_app.
Qed.

End WrapFacts.
